(** * IPPT score-sheet extraction: the OCR post-processing core

    A shallow embedding of the record extraction and reconciliation code of
    the repository (the positional extractor, the serial-anchored OCR
    extractors, the field validator and the two reconcilers), followed by the
    properties proved about it.

    Conventions of the embedding.
    - A Python [str] is a [string]; a character is read as the code point
      U+0000..U+00FF with the same number, and the character classes below
      ([str.isspace], [str.isdigit], [\d], [str.isupper]) are Python 3's
      restricted to that range.
    - A Python [int] is a [Z]; the conversion [int(s)] of Python 3 refuses a
      literal of more than 4300 digits.
    - A list index is a [nat]: every index the code computes is a sum of
      non-negative numbers, so Python's negative indexing never applies.
    - Code that can raise returns a [result]; [try]/[except] is a match on it.
    - Soldier dictionaries always carry the four keys
      [name], [sit_up_reps], [push_up_reps], [run_time]; they are records. *)

From Stdlib Require Import ZArith Lia Ascii String.
From stdpp Require Import base option list gmap strings pretty.

(** ** Exceptions, results and loops *)

Inductive exn := IndexError | ValueError | IOError.

Inductive result (A : Type) :=
  | Ok (a : A)
  | Raise (e : exn).
Arguments Ok {A} a.
Arguments Raise {A} e.

#[export] Instance result_ret : MRet result := λ A a, Ok a.
#[export] Instance result_bind : MBind result :=
  λ A B f m, match m with Ok a => f a | Raise e => Raise e end.
#[export] Instance result_fmap : FMap result :=
  λ A B f m, match m with Ok a => Ok (f a) | Raise e => Raise e end.

(** The state a loop body hands back: go on, or [break]. *)
Inductive flow (S : Type) :=
  | Continue (s : S)
  | Break (s : S).
Arguments Continue {S} s.
Arguments Break {S} s.

Definition flow_state {S} (f : flow S) : S :=
  match f with Continue s => s | Break s => s end.

(** [for x in xs: body], threading the loop's variables as [s].  The result
    is the state reached and the exception that interrupted the loop, if any.
    Every body below mutates its variables only after its last call that can
    raise, so the state at a raise is the state the iteration started with. *)
Fixpoint loop {A S} (body : S → A → result (flow S)) (xs : list A) (s : S)
  : S * option exn :=
  match xs with
  | [] => (s, None)
  | x :: rest =>
      match body s x with
      | Ok (Continue s') => loop body rest s'
      | Ok (Break s') => (s', None)
      | Raise e => (s, Some e)
      end
  end.

(** A loop whose exceptions propagate to the caller. *)
Definition for_each {A S} (body : S → A → result (flow S)) (xs : list A) (s : S)
  : result S :=
  match loop body xs s with
  | (s', None) => Ok s'
  | (_, Some e) => Raise e
  end.

(** A loop inside [try: ... except Exception: print(...)], over a list that
    was created before the [try]: what was appended before the exception
    stays. *)
Definition try_for_each {A S} (body : S → A → result (flow S)) (xs : list A) (s : S)
  : S :=
  fst (loop body xs s).

(** [range(a, b)] and [enumerate(xs)]. *)
Definition py_range (a b : nat) : list nat := seq a (b - a).
Definition enumerate {A} (xs : list A) : list (nat * A) := zip (seq 0 (length xs)) xs.

(** [xs[i]] for [i >= 0]. *)
Definition py_index {A} (xs : list A) (i : nat) : result A :=
  match xs !! i with
  | Some x => Ok x
  | None => Raise IndexError
  end.

(** ** Strings *)

Module Py.

Definition code (c : ascii) : nat := nat_of_ascii c.

(** [c.isspace()]: TAB..CR, FS..US, SPACE, NEL and NBSP. *)
Definition isspace (c : ascii) : bool :=
  let n := code c in
  ((9 <=? n) && (n <=? 13)) || ((28 <=? n) && (n <=? 32)) || (n =? 133) || (n =? 160).

Fixpoint lstrip (s : string) : string :=
  match s with
  | String c r => if isspace c then lstrip r else s
  | EmptyString => EmptyString
  end.

Fixpoint rstrip (s : string) : string :=
  match s with
  | String c r =>
      match rstrip r with
      | EmptyString => if isspace c then EmptyString else String c EmptyString
      | r' => String c r'
      end
  | EmptyString => EmptyString
  end.

(** [s.strip()] *)
Definition strip (s : string) : string := rstrip (lstrip s).

(** [s.replace('PTE', '')]: the non-overlapping occurrences, found left to
    right, are deleted. *)
Fixpoint replace_PTE (s : string) : string :=
  match s with
  | String "P" (String "T" (String "E" r)) => replace_PTE r
  | String c r => String c (replace_PTE r)
  | EmptyString => EmptyString
  end.

(** [s.startswith(p)] *)
Fixpoint startswith (p s : string) : bool :=
  match p, s with
  | EmptyString, _ => true
  | String a p', String b s' => Ascii.eqb a b && startswith p' s'
  | String _ _, EmptyString => false
  end.

(** [sub in s] *)
Fixpoint contains (sub s : string) : bool :=
  startswith sub s ||
  match s with
  | String _ r => contains sub r
  | EmptyString => false
  end.

(** The regular expression class [\d]. *)
Definition re_digit (c : ascii) : bool :=
  let n := code c in (48 <=? n) && (n <=? 57).

Definition digit_value (c : ascii) : Z := Z.of_nat (code c - 48).

(** [c.isdigit()]: the decimal digits and the superscripts 2, 3 and 1. *)
Definition isdigit_char (c : ascii) : bool :=
  let n := code c in re_digit c || (n =? 178) || (n =? 179) || (n =? 185).

Fixpoint all_chars (p : ascii → bool) (s : string) : bool :=
  match s with
  | String c r => p c && all_chars p r
  | EmptyString => true
  end.

Fixpoint any_char (p : ascii → bool) (s : string) : bool :=
  match s with
  | String c r => p c || any_char p r
  | EmptyString => false
  end.

(** [s.isdigit()] *)
Definition isdigit (s : string) : bool :=
  match s with
  | EmptyString => false
  | _ => all_chars isdigit_char s
  end.

Definition in_range (lo hi n : nat) : bool := (lo <=? n) && (n <=? hi).

Definition upper_char (c : ascii) : bool :=
  let n := code c in in_range 65 90 n || in_range 192 214 n || in_range 216 222 n.

Definition lower_char (c : ascii) : bool :=
  let n := code c in
  in_range 97 122 n || (n =? 170) || (n =? 181) || (n =? 186)
  || in_range 223 246 n || in_range 248 255 n.

(** [s.isupper()]: some cased character, and no lowercase one. *)
Definition isupper (s : string) : bool :=
  any_char upper_char s && negb (any_char lower_char s).

(** [bool(s)] for a string. *)
Definition truthy (s : string) : bool :=
  match s with EmptyString => false | _ => true end.

Definition newline : ascii := ascii_of_nat 10.

(** Where [$] matches: at the end, or before a newline that ends the string. *)
Definition at_end (s : string) : bool :=
  match s with
  | EmptyString => true
  | String c EmptyString => Ascii.eqb c newline
  | _ => false
  end.

(** [re.match(r'^\d+$', s)] *)
Fixpoint digits_to_end (s : string) : bool :=
  match s with
  | String c r => if re_digit c then digits_to_end r else at_end s
  | EmptyString => true
  end.

Definition re_match_digits (s : string) : bool :=
  match s with
  | String c r => re_digit c && digits_to_end r
  | EmptyString => false
  end.

Definition str1 (a : ascii) : string := String a EmptyString.
Definition str2 (a b : ascii) : string := String a (String b EmptyString).

(** [\d{1,2}:\d{2}] at the start of [s]: the two groups and what follows.
    The two-digit alternative is tried first; the alternatives exclude each
    other, the second character being a digit in one and a colon in the
    other. *)
Definition time_at (s : string) : option (string * string * string) :=
  match s with
  | String a (String b (String c (String d rest))) =>
      match rest with
      | String e rest' =>
          if re_digit a && re_digit b && Ascii.eqb c ":" && re_digit d && re_digit e
          then Some (str2 a b, str2 d e, rest')
          else if re_digit a && Ascii.eqb b ":" && re_digit c && re_digit d
          then Some (str1 a, str2 c d, rest)
          else None
      | EmptyString =>
          if re_digit a && Ascii.eqb b ":" && re_digit c && re_digit d
          then Some (str1 a, str2 c d, rest)
          else None
      end
  | _ => None
  end.

(** [re.match(r'^\d{1,2}:\d{2}$', s)] *)
Definition re_match_time (s : string) : bool :=
  match time_at s with
  | Some (_, _, rest) => at_end rest
  | None => false
  end.

(** [re.search(r'(\d{1,2}):(\d{2})', s)]: the groups of the leftmost match. *)
Fixpoint re_search_time (s : string) : option (string * string) :=
  match time_at s with
  | Some (g1, g2, _) => Some (g1, g2)
  | None =>
      match s with
      | String _ r => re_search_time r
      | EmptyString => None
      end
  end.

(** The digits of an integer literal, with single underscores between
    digits; [seen] tells whether the previous character was a digit. *)
Fixpoint int_digits (seen : bool) (acc : Z) (s : string) : result Z :=
  match s with
  | EmptyString => if seen then Ok acc else Raise ValueError
  | String c r =>
      if re_digit c then int_digits true (10 * acc + digit_value c) r
      else if Ascii.eqb c "_" && seen then int_digits false acc r
      else Raise ValueError
  end.

(** What [int] skips around a literal: the ASCII whitespace, and NEL and
    NBSP, which it reads as spaces.  FS..US, which [str.strip] removes, are
    not skipped. *)
Definition int_space (c : ascii) : bool :=
  let n := code c in
  ((9 <=? n) && (n <=? 13)) || (n =? 32) || (n =? 133) || (n =? 160).

Fixpoint int_lskip (s : string) : string :=
  match s with
  | String c r => if int_space c then int_lskip r else s
  | EmptyString => EmptyString
  end.

Fixpoint int_rskip (s : string) : string :=
  match s with
  | String c r =>
      match int_rskip r with
      | EmptyString => if int_space c then EmptyString else String c EmptyString
      | r' => String c r'
      end
  | EmptyString => EmptyString
  end.

(** The digits of a literal; underscores are not counted. *)
Fixpoint count_digits (s : string) : nat :=
  match s with
  | String c r => (if re_digit c then 1 else 0) + count_digits r
  | EmptyString => 0
  end.

(** [sys.get_int_max_str_digits()], which the code leaves at its default. *)
Definition max_str_digits : nat := 4300.

(** The literal after the sign: it is validated, then refused when it has
    more digits than the limit. *)
Definition int_literal (t : string) : result Z :=
  n ← int_digits false 0 t;
  if max_str_digits <? count_digits t then Raise ValueError else mret n.

(** [int(s)] for a string, in base 10, as Python 3 converts it: surrounding
    whitespace, an optional sign, digits, at most [max_str_digits] of them. *)
Definition int (s : string) : result Z :=
  match int_rskip (int_lskip s) with
  | String "+" r => int_literal r
  | String "-" r => Z.opp <$> int_literal r
  | t => int_literal t
  end.

(** The digits of a literal of Python 2, which has no underscores. *)
Fixpoint plain_digits (acc : Z) (s : string) : result Z :=
  match s with
  | EmptyString => Ok acc
  | String c r =>
      if re_digit c then plain_digits (10 * acc + digit_value c) r
      else Raise ValueError
  end.

Definition plain_literal (t : string) : result Z :=
  if truthy t then plain_digits 0 t else Raise ValueError.

(** [int(s)] of Python 2 for a unicode string, which
    [working_manual_parser.py] runs under: surrounding whitespace, an optional
    sign, digits, as many as there are.  The script converts only lines of
    digits. *)
Definition int_py2 (s : string) : result Z :=
  match strip s with
  | String "+" r => plain_literal r
  | String "-" r => Z.opp <$> plain_literal r
  | t => plain_literal t
  end.

(** [f"{n}"] and [f"{n:02d}"] for [n >= 0]. *)
Definition fmt_d (n : Z) : string := pretty n.
Definition fmt_02d (n : Z) : string :=
  if (n <? 10)%Z then String "0" (pretty n) else pretty n.

End Py.

(** ** Records *)

Record Soldier := mkSoldier {
  name : string;
  sit_up_reps : Z;
  push_up_reps : Z;
  run_time : string
}.

Definition blank_soldier : Soldier := mkSoldier "" 0 0 "".

Definition set_name (v : string) (sd : Soldier) : Soldier :=
  mkSoldier v (sit_up_reps sd) (push_up_reps sd) (run_time sd).
Definition set_sit_up_reps (v : Z) (sd : Soldier) : Soldier :=
  mkSoldier (name sd) v (push_up_reps sd) (run_time sd).
Definition set_push_up_reps (v : Z) (sd : Soldier) : Soldier :=
  mkSoldier (name sd) (sit_up_reps sd) v (run_time sd).
Definition set_run_time (v : string) (sd : Soldier) : Soldier :=
  mkSoldier (name sd) (sit_up_reps sd) (push_up_reps sd) v.

(** The result dictionary of a reconciler:
    [{'soldiers', 'total_soldiers', 'method', 'success'}]. *)
Record Report := mkReport {
  soldiers : list Soldier;
  total_soldiers : nat;
  method : string;
  success : bool
}.

(** The serial argument of the positional extractor is a string at some call
    sites and an integer at others; [==] between the two is [False]. *)
Inductive py_val :=
  | PyStr (s : string)
  | PyInt (z : Z).

Definition py_eq (a b : py_val) : bool :=
  match a, b with
  | PyStr s, PyStr t => String.eqb s t
  | PyInt x, PyInt y => Z.eqb x y
  | _, _ => false
  end.

(** [text.isdigit() and 1 <= int(text) <= 10] *)
Definition is_serial (text : string) : result bool :=
  if Py.isdigit text then n ← Py.int text; mret ((1 <=? n)%Z && (n <=? 10)%Z)
  else mret false.

(** ['PTE' in text or (text.isupper() and len(text) > 3)] *)
Definition looks_like_name (text : string) : bool :=
  Py.contains "PTE" text || (Py.isupper text && (3 <? String.length text)).

(** [text.replace('PTE', '').strip()] *)
Definition clean_name (text : string) : string := Py.strip (Py.replace_PTE text).

(** ** The positional extractor

    [_extract_soldier_at_position] is the same text in
    [foolproof_ocr_parser.py] and in [api/foolproof_ocr_endpoint.py]. *)

Module Positional.

Inductive data_type := situp | pushup | run.

Definition data_type_eqb (a b : data_type) : bool :=
  match a, b with
  | situp, situp | pushup, pushup | run, run => true
  | _, _ => false
  end.

(** [offsets], chosen by [serial == '1']. *)
Definition offsets (serial : py_val) : list (nat * data_type) :=
  if py_eq serial (PyStr "1")
  then [(7, situp); (8, pushup); (9, run)]
  else [(6, situp); (7, pushup); (8, run)].

(** The name step: [if pos + 2 < len(lines): ...]. *)
Definition read_name (lines : list string) (pos : nat) (sd : Soldier) : result Soldier :=
  if bool_decide (pos + 2 < length lines) then
    name_line ← Py.strip <$> py_index lines (pos + 2);
    mret (set_name (clean_name name_line) sd)
  else mret sd.

(** The body of [for offset, data_type in offsets]. *)
Definition read_slot (lines : list string) (pos : nat)
    (sd : Soldier) (slot : nat * data_type) : result (flow Soldier) :=
  let '(offset, dt) := slot in
  if bool_decide (pos + offset < length lines) then
    line ← Py.strip <$> py_index lines (pos + offset);
    if data_type_eqb dt situp && Py.re_match_digits line then
      n ← Py.int line; mret (Continue (set_sit_up_reps n sd))
    else if data_type_eqb dt pushup && Py.re_match_digits line then
      n ← Py.int line; mret (Continue (set_push_up_reps n sd))
    else if data_type_eqb dt run && Py.re_match_time line then
      mret (Continue (set_run_time line sd))
    else mret (Continue sd)
  else mret (Continue sd).

(** [soldier_data] as it stands before the final [return]. *)
Definition soldier_data (lines : list string) (pos : nat) (serial : py_val)
  : result Soldier :=
  sd ← read_name lines pos blank_soldier;
  for_each (read_slot lines pos) (offsets serial) sd.

(** [return soldier_data if soldier_data['name'] else None] *)
Definition _extract_soldier_at_position (lines : list string) (pos : nat)
    (serial : py_val) : result (option Soldier) :=
  sd ← soldier_data lines pos serial;
  mret (if Py.truthy (name sd) then Some sd else None).

Definition positions : list (nat * py_val) :=
  [(23, PyStr "1"); (33, PyStr "2"); (42, PyStr "3"); (51, PyStr "4");
   (60, PyStr "5"); (69, PyStr "6"); (78, PyStr "7"); (87, PyStr "8");
   (96, PyStr "9"); (105, PyStr "10")].

End Positional.

(** ** [api/foolproof_ocr_endpoint.py] *)

Module Endpoint.

(** The body of [for pos, serial in positions]. *)
Definition visit_position (lines : list string)
    (acc : list Soldier) (p : nat * py_val) : result (flow (list Soldier)) :=
  let '(pos, serial) := p in
  if bool_decide (pos < length lines) then
    soldier ← Positional._extract_soldier_at_position lines pos serial;
    match soldier with
    | Some sd => if Py.truthy (name sd) then mret (Continue (acc ++ [sd]))
                 else mret (Continue acc)
    | None => mret (Continue acc)
    end
  else mret (Continue acc).

(** [_working_line_based_strategy]: [file] is what reading the JSON file and
    splitting its content gives, or the exception that raised. *)
Definition _working_line_based_strategy (file : result (list string)) : list Soldier :=
  match file with
  | Ok lines => try_for_each (visit_position lines) Positional.positions []
  | Raise _ => []
  end.

(** The body of the scan loop of [_extract_nearby_azure_data]. *)
Definition nearby_step (all_text : list string)
    (sd : Soldier) (i : nat) : result (flow Soldier) :=
  text ← Py.strip <$> py_index all_text i;
  stop ← is_serial text;
  if (stop : bool) then mret (Break sd)
  else if looks_like_name text then
    if negb (Py.truthy (name sd)) then mret (Continue (set_name (clean_name text) sd))
    else mret (Continue sd)
  else if Py.re_match_digits text then
    num ← Py.int text;
    if (5 <=? num)%Z && (num <=? 80)%Z && (sit_up_reps sd =? 0)%Z
    then mret (Continue (set_sit_up_reps num sd))
    else if (num <=? 200)%Z && (push_up_reps sd =? 0)%Z
    then mret (Continue (set_push_up_reps num sd))
    else mret (Continue sd)
  else if Py.re_match_time text then
    if negb (Py.truthy (run_time sd)) then mret (Continue (set_run_time text sd))
    else mret (Continue sd)
  else mret (Continue sd).

Definition _extract_nearby_azure_data (all_text : list string) (index : nat)
    (serial : Z) : result (option Soldier) :=
  let search_range := Nat.min (index + 20) (length all_text) in
  sd ← for_each (nearby_step all_text) (py_range (index + 1) search_range) blank_soldier;
  mret (if Py.truthy (name sd) then Some sd else None).

(** The body of [for i, text in enumerate(all_text)]. *)
Definition visit_text (all_text : list string)
    (acc : list Soldier) (it : nat * string) : result (flow (list Soldier)) :=
  let '(i, text) := it in
  hit ← is_serial (Py.strip text);
  if (hit : bool) then
    serial ← Py.int (Py.strip text);
    soldier ← _extract_nearby_azure_data all_text i serial;
    match soldier with
    | Some sd => if Py.truthy (name sd) then mret (Continue (acc ++ [sd]))
                 else mret (Continue acc)
    | None => mret (Continue acc)
    end
  else mret (Continue acc).

(** [_azure_ocr_strategy]: [ocr] is the list of recognized lines, or the
    exception the recognition raised. *)
Definition _azure_ocr_strategy (ocr : result (list string)) : list Soldier :=
  match ocr with
  | Ok all_text => try_for_each (visit_text all_text) (enumerate all_text) []
  | Raise _ => []
  end.

Definition _validate_soldier (soldier : Soldier) : bool :=
  if negb (Py.truthy (name soldier)) || (String.length (name soldier) <? 2) then false
  else
    let has_performance :=
      (0 <? sit_up_reps soldier)%Z || (0 <? push_up_reps soldier)%Z
      || Py.truthy (run_time soldier) in
    if negb has_performance then false
    else if (200 <? sit_up_reps soldier)%Z then false
    else if (200 <? push_up_reps soldier)%Z then false
    else true.

(** The loop of [_deduplicate_and_validate]; the state is
    [(unique_soldiers, seen_names)]. *)
Definition dedup_step (st : list Soldier * gset string) (soldier : Soldier)
  : list Soldier * gset string :=
  let '(unique_soldiers, seen_names) := st in
  if Py.truthy (name soldier) && bool_decide (name soldier ∉ seen_names) then
    if _validate_soldier soldier
    then (unique_soldiers ++ [soldier], {[name soldier]} ∪ seen_names)
    else st
  else st.

Definition _deduplicate_and_validate (candidates : list Soldier) : list Soldier :=
  take 10 (fst (foldl dedup_step ([], ∅) candidates)).

(** [extract_ippt_data], as a function of what its two reads return. *)
Definition extract_ippt_data (file ocr : result (list string)) : Report :=
  let soldiers := _working_line_based_strategy file in
  let soldiers :=
    if bool_decide (length soldiers < 8) then soldiers ++ _azure_ocr_strategy ocr
    else soldiers in
  let final_soldiers := _deduplicate_and_validate soldiers in
  mkReport final_soldiers (length final_soldiers) "foolproof_hybrid"
           (bool_decide (0 < length final_soldiers)).

End Endpoint.

(** ** [foolproof_ocr_parser.py] *)

Module Parser.

(** What one extraction method returns: [{'soldiers': ..., 'method': ...}]. *)
Record Extraction := mkExtraction {
  ex_soldiers : list Soldier;
  ex_method : string
}.

(** The three methods end in the same way: the soldiers found under the
    method's name, or, when the body raised, no soldier under the name of the
    failure.  [outcome] is what the body computed. *)
Definition _azure_ocr_extraction (outcome : result (list Soldier)) : Extraction :=
  match outcome with
  | Ok found => mkExtraction found "azure_ocr"
  | Raise _ => mkExtraction [] "azure_ocr_failed"
  end.

Definition _pattern_based_extraction (outcome : result (list Soldier)) : Extraction :=
  match outcome with
  | Ok found => mkExtraction found "pattern_based"
  | Raise _ => mkExtraction [] "pattern_failed"
  end.

Definition _fallback_extraction (outcome : result (list Soldier)) : Extraction :=
  match outcome with
  | Ok found => mkExtraction found "fallback"
  | Raise _ => mkExtraction [] "fallback_failed"
  end.

(** The body of the loop of [_working_line_based_strategy(lines)]. *)
Definition visit_position (lines : list string)
    (acc : list Soldier) (p : nat * py_val) : result (flow (list Soldier)) :=
  let '(pos, serial) := p in
  if bool_decide (pos < length lines) then
    soldier ← Positional._extract_soldier_at_position lines pos serial;
    match soldier with
    | Some sd => mret (Continue (acc ++ [sd]))
    | None => mret (Continue acc)
    end
  else mret (Continue acc).

Definition _working_line_based_strategy (lines : list string) : result (list Soldier) :=
  for_each (visit_position lines) Positional.positions [].

(** The body of the loop of [_serial_number_strategy(lines)]: the serial it
    passes on is the integer [int(line.strip())]. *)
Definition visit_line (lines : list string)
    (acc : list Soldier) (it : nat * string) : result (flow (list Soldier)) :=
  let '(i, line) := it in
  hit ← is_serial (Py.strip line);
  if (hit : bool) then
    serial ← Py.int (Py.strip line);
    soldier ← Positional._extract_soldier_at_position lines i (PyInt serial);
    match soldier with
    | Some sd => mret (Continue (acc ++ [sd]))
    | None => mret (Continue acc)
    end
  else mret (Continue acc).

Definition _serial_number_strategy (lines : list string) : result (list Soldier) :=
  for_each (visit_line lines) (enumerate lines) [].

Definition _validate_soldier_data (soldier : Soldier) : bool :=
  if negb (Py.truthy (name soldier)) || (String.length (name soldier) <? 2) then false
  else
    let has_performance :=
      (0 <? sit_up_reps soldier)%Z || (0 <? push_up_reps soldier)%Z
      || Py.truthy (run_time soldier) in
    if negb has_performance then false
    else if (200 <? sit_up_reps soldier)%Z then false
    else if (2000 <? push_up_reps soldier)%Z then false
    else true.

Definition method_priority : list string := ["azure_ocr"; "pattern_based"; "fallback"].

(** The innermost loop body of [_combine_and_validate]; the state is
    [(all_soldiers, seen_names)]. *)
Definition accept_step (st : list Soldier * gset string) (soldier : Soldier)
  : list Soldier * gset string :=
  let '(all_soldiers, seen_names) := st in
  if Py.truthy (name soldier) && bool_decide (name soldier ∉ seen_names) then
    if _validate_soldier_data soldier
    then (all_soldiers ++ [soldier], {[name soldier]} ∪ seen_names)
    else st
  else st.

(** [for result in results: if result.get('method') == method: ...] *)
Definition scan_result (method : string) (st : list Soldier * gset string)
    (result : Extraction) : list Soldier * gset string :=
  if String.eqb (ex_method result) method
  then foldl accept_step st (ex_soldiers result)
  else st.

(** [for method in method_priority: ...] *)
Definition scan_method (results : list Extraction) (st : list Soldier * gset string)
    (method : string) : list Soldier * gset string :=
  foldl (scan_result method) st results.

Definition _combine_and_validate (results : list Extraction) : Report :=
  let all_soldiers := fst (foldl (scan_method results) ([], ∅) method_priority) in
  let all_soldiers := take 10 all_soldiers in
  mkReport all_soldiers (length all_soldiers) "foolproof_multi_layer"
           (bool_decide (0 < length all_soldiers)).

(** [extract_ippt_data] up to the reconciled result, as a function of what
    the bodies of the three methods computed; the export of the result to a
    file and the banner are left out. *)
Definition extract_ippt_data (azure pattern fallback : result (list Soldier)) : Report :=
  _combine_and_validate
    [_azure_ocr_extraction azure; _pattern_based_extraction pattern;
     _fallback_extraction fallback].

End Parser.

(** ** [spatial_ippt_parser.py] *)

Module Spatial.

(** One recognized line: its text and its bounding box, whose type the
    extractor never looks into. *)
Record TextItem (B : Type) := mkTextItem {
  text : string;
  bbox : B
}.
Arguments mkTextItem {B} text bbox.
Arguments text {B} t.
Arguments bbox {B} t.

Section Extractor.
Context {B : Type}.

(** The body of the scan loop of [_extract_soldier_near_serial]. *)
Definition near_step (all_text : list (TextItem B))
    (sd : Soldier) (i : nat) : result (flow Soldier) :=
  t ← (Py.strip ∘ text) <$> py_index all_text i;
  stop ← is_serial t;
  if (stop : bool) then mret (Break sd)
  else if looks_like_name t then
    if negb (Py.truthy (name sd)) then mret (Continue (set_name (clean_name t) sd))
    else if Py.truthy (name sd) && (String.length (name sd) <? String.length t)
    then mret (Continue (set_name (clean_name t) sd))
    else mret (Continue sd)
  else if Py.re_match_digits t then
    num ← Py.int t;
    if (5 <=? num)%Z && (num <=? 80)%Z then
      if (sit_up_reps sd =? 0)%Z then mret (Continue (set_sit_up_reps num sd))
      else mret (Continue sd)
    else if (num <=? 2000)%Z then
      if (push_up_reps sd =? 0)%Z then mret (Continue (set_push_up_reps num sd))
      else mret (Continue sd)
    else mret (Continue sd)
  else if Py.re_match_time t then
    if negb (Py.truthy (run_time sd)) then mret (Continue (set_run_time t sd))
    else mret (Continue sd)
  else mret (Continue sd).

Definition _extract_soldier_near_serial (all_text : list (TextItem B))
    (serial_index : nat) (serial_num : Z) : result Soldier :=
  let search_range := Nat.min (serial_index + 20) (length all_text) in
  for_each (near_step all_text) (py_range (serial_index + 1) search_range) blank_soldier.

(** The body of [for i, text_item in enumerate(all_text)]. *)
Definition visit_item (all_text : list (TextItem B))
    (acc : list Soldier) (it : nat * TextItem B) : result (flow (list Soldier)) :=
  let '(i, text_item) := it in
  let t := Py.strip (text text_item) in
  hit ← is_serial t;
  if (hit : bool) then
    serial_num ← Py.int t;
    sd ← _extract_soldier_near_serial all_text i serial_num;
    if Py.truthy (name sd) then mret (Continue (acc ++ [sd]))
    else mret (Continue acc)
  else mret (Continue acc).

(** The anchor scan over the recognized lines. *)
Definition scan (all_text : list (TextItem B)) : result (list Soldier) :=
  for_each (visit_item all_text) (enumerate all_text) [].

(** The ['soldiers'] entry of what [extract_soldiers_by_regions] returns;
    [ocr] is the recognized lines, or the exception reading or recognizing
    the image raised.  Any exception ends in [{'soldiers': [], 'error': ...}]. *)
Definition extract_soldiers_by_regions (ocr : result (list (TextItem B))) : list Soldier :=
  match ocr ≫= scan with
  | Ok found => found
  | Raise _ => []
  end.

End Extractor.
End Spatial.

(** ** [api/chatgpt_vision_ocr.py] *)

Module Vision.

Definition _validate_time (time_str : string) : result string :=
  if negb (Py.truthy time_str) then mret ""
  else
    match Py.re_search_time time_str with
    | Some (g1, g2) =>
        minutes ← Py.int g1;
        seconds ← Py.int g2;
        if (0 <=? minutes)%Z && (minutes <=? 30)%Z && (0 <=? seconds)%Z && (seconds <=? 59)%Z
        then mret (Py.fmt_d minutes +:+ ":" +:+ Py.fmt_02d seconds)
        else mret ""
    | None => mret ""
    end.

(** A value of a soldier object of the parsed response, as far as the number
    validator tells values apart: an integer, a string, [None], or a list or
    an object.  Floats and booleans are left out. *)
Inductive json_val :=
  | JInt (z : Z)
  | JStr (s : string)
  | JNull
  | JOther.

(** [int(value)], or [None] when it raises ValueError or TypeError, the two
    exceptions [_validate_number] catches. *)
Definition to_int (value : json_val) : option Z :=
  match value with
  | JInt z => Some z
  | JStr s => match Py.int s with Ok z => Some z | Raise _ => None end
  | JNull | JOther => None
  end.

Definition _validate_number (value : json_val) (min_val max_val : Z) : Z :=
  match to_int value with
  | Some num => Z.max min_val (Z.min num max_val)
  | None => min_val
  end.

(** A soldier object of the parsed response.  The name and the run time are
    strings, or [None] when the key is absent or null; an absent count is the
    default of its [get], 0. *)
Record RawSoldier := mkRawSoldier {
  raw_name : option string;
  raw_sit_up_reps : json_val;
  raw_push_up_reps : json_val;
  raw_run_time : option string
}.

(** The body of the loop of [_validate_and_clean_soldiers]. *)
Definition clean_step (acc : list Soldier) (soldier : RawSoldier)
  : result (flow (list Soldier)) :=
  match raw_name soldier with
  | None => mret (Continue acc)
  | Some n =>
      if negb (Py.truthy n) then mret (Continue acc)
      else
        t ← _validate_time (default "" (raw_run_time soldier));
        let cleaned_soldier :=
          mkSoldier (Py.strip n)
                    (_validate_number (raw_sit_up_reps soldier) 0 200)
                    (_validate_number (raw_push_up_reps soldier) 0 200)
                    t in
        if (0 <? sit_up_reps cleaned_soldier)%Z || (0 <? push_up_reps cleaned_soldier)%Z
           || Py.truthy (run_time cleaned_soldier)
        then mret (Continue (acc ++ [cleaned_soldier]))
        else mret (Continue acc)
  end.

Definition _validate_and_clean_soldiers (soldiers : list RawSoldier)
  : result (list Soldier) :=
  take 10 <$> for_each clean_step soldiers [].

End Vision.

(** ** [working_manual_parser.py] and [integrate_working_parser.py]

    The two scripts read a soldier with the same text, the loop of the
    positional extractor written out slot by slot.  The first is a Python 2
    script (it uses the [print] statement), the second a Python 3 script. *)

Module Inline.

Section Reads.
(** [int], Python 2's in the first script and Python 3's in the second. *)
Variable int : string → result Z.

(** [if i < len(lines): line = lines[i].strip(); if re.match(r'^\d+$', line): ...] *)
Definition read_count (lines : list string) (i : nat)
    (set : Z → Soldier → Soldier) (sd : Soldier) : result Soldier :=
  if bool_decide (i < length lines) then
    line ← Py.strip <$> py_index lines i;
    if Py.re_match_digits line then n ← int line; mret (set n sd)
    else mret sd
  else mret sd.

Definition read_run (lines : list string) (i : nat) (sd : Soldier) : result Soldier :=
  if bool_decide (i < length lines) then
    run_line ← Py.strip <$> py_index lines i;
    if Py.re_match_time run_line then mret (set_run_time run_line sd)
    else mret sd
  else mret sd.

(** [soldier_data] as it stands before [if soldier_data['name']]. *)
Definition soldier_data (lines : list string) (pos : nat) (serial : py_val)
  : result Soldier :=
  sd ← Positional.read_name lines pos blank_soldier;
  if py_eq serial (PyStr "1") then
    sd ← read_count lines (pos + 7) set_sit_up_reps sd;
    sd ← read_count lines (pos + 8) set_push_up_reps sd;
    read_run lines (pos + 9) sd
  else
    sd ← read_count lines (pos + 6) set_sit_up_reps sd;
    sd ← read_count lines (pos + 7) set_push_up_reps sd;
    read_run lines (pos + 8) sd.

End Reads.
End Inline.

Module Manual.

(** The body of [for pos, serial in soldier_positions], inside its [try]. *)
Definition visit_position_body (lines : list string)
    (acc : list Soldier) (p : nat * py_val) : result (flow (list Soldier)) :=
  let '(pos, serial) := p in
  if bool_decide (length lines ≤ pos) then mret (Continue acc)
  else
    line ← Py.strip <$> py_index lines pos;
    if negb (py_eq (PyStr line) serial) then mret (Continue acc)
    else
      sd ← Inline.soldier_data Py.int_py2 lines pos serial;
      if Py.truthy (name sd) then mret (Continue (acc ++ [sd]))
      else mret (Continue acc).

(** [except Exception as e: print ...]: the position is skipped. *)
Definition visit_position (lines : list string)
    (acc : list Soldier) (p : nat * py_val) : result (flow (list Soldier)) :=
  match visit_position_body lines acc p with
  | Ok f => Ok f
  | Raise _ => Ok (Continue acc)
  end.


End Manual.

Module Integration.

(** The body of [for pos, serial in soldier_positions]. *)
Definition visit_position (lines : list string)
    (acc : list Soldier) (p : nat * py_val) : result (flow (list Soldier)) :=
  let '(pos, serial) := p in
  sd ← Inline.soldier_data Py.int lines pos serial;
  if Py.truthy (name sd) then mret (Continue (acc ++ [sd]))
  else mret (Continue acc).

(** [parse_ippt_with_working_method], from the split content on; the export
    of the result to a file is left out. *)
Definition parse_ippt_with_working_method (lines : list string) : result Report :=
  soldiers ← for_each (visit_position lines) Positional.positions [];
  mret (mkReport soldiers (length soldiers) "working_line_based_parser" true).

End Integration.

(** ** [foolproof_ocr_parser.py]: the extractors behind the three methods *)

#[export] Instance Soldier_eq_dec : EqDecision Soldier.
Proof. solve_decision. Defined.

Module Heuristics.

(** [range(a, b, -1)] for [a = hi - 1]: the indices below [hi] down to, and
    without, [lo]. *)
Definition range_down (hi lo : nat) : list nat := reverse (py_range (lo + 1) hi).

(** [lines[a:b]] *)
Definition slice {A} (xs : list A) (a b : nat) : list A := take (b - a) (drop a xs).

(** The count branch the heuristic extractors share:
    [if 5 <= num <= 80 and sit_up_reps == 0: ... elif num <= 2000 and push_up_reps == 0: ...] *)
Definition take_count (num : Z) (sd : Soldier) : Soldier :=
  if (5 <=? num)%Z && (num <=? 80)%Z && (sit_up_reps sd =? 0)%Z
  then set_sit_up_reps num sd
  else if (num <=? 2000)%Z && (push_up_reps sd =? 0)%Z
  then set_push_up_reps num sd
  else sd.

Section Tokens.
Context {B : Type}.

(** The body of the scan loop of [_extract_nearby_data]. *)
Definition nearby_step (all_text : list (Spatial.TextItem B))
    (sd : Soldier) (i : nat) : result (flow Soldier) :=
  t ← (Py.strip ∘ Spatial.text) <$> py_index all_text i;
  stop ← is_serial t;
  if (stop : bool) then mret (Break sd)
  else if looks_like_name t then
    if negb (Py.truthy (name sd)) then mret (Continue (set_name (clean_name t) sd))
    else mret (Continue sd)
  else if Py.re_match_digits t then
    num ← Py.int t; mret (Continue (take_count num sd))
  else if Py.re_match_time t then
    if negb (Py.truthy (run_time sd)) then mret (Continue (set_run_time t sd))
    else mret (Continue sd)
  else mret (Continue sd).

Definition _extract_nearby_data (all_text : list (Spatial.TextItem B)) (index : nat)
    (serial : Z) : result (option Soldier) :=
  let search_range := Nat.min (index + 20) (length all_text) in
  sd ← for_each (nearby_step all_text) (py_range (index + 1) search_range) blank_soldier;
  mret (if Py.truthy (name sd) then Some sd else None).

(** The body of the loop of [_extract_soldiers_from_text]. *)
Definition visit_item (all_text : list (Spatial.TextItem B))
    (acc : list Soldier) (it : nat * Spatial.TextItem B) : result (flow (list Soldier)) :=
  let '(i, item) := it in
  let t := Py.strip (Spatial.text item) in
  hit ← is_serial t;
  if (hit : bool) then
    serial_num ← Py.int t;
    soldier ← _extract_nearby_data all_text i serial_num;
    match soldier with
    | Some sd => if Py.truthy (name sd) then mret (Continue (acc ++ [sd]))
                 else mret (Continue acc)
    | None => mret (Continue acc)
    end
  else mret (Continue acc).

Definition _extract_soldiers_from_text (all_text : list (Spatial.TextItem B))
  : result (list Soldier) :=
  for_each (visit_item all_text) (enumerate all_text) [].

End Tokens.

(** The body of the loop of [_extract_from_block]. *)
Definition block_step (sd : Soldier) (line : string) : result (flow Soldier) :=
  let line := Py.strip line in
  if looks_like_name line then mret (Continue (set_name (clean_name line) sd))
  else if Py.re_match_digits line then
    num ← Py.int line; mret (Continue (take_count num sd))
  else if Py.re_match_time line then mret (Continue (set_run_time line sd))
  else mret (Continue sd).

Definition _extract_from_block (block : list string) (start_line : nat)
  : result (option Soldier) :=
  sd ← for_each block_step block blank_soldier;
  mret (if Py.truthy (name sd) && ((0 <? sit_up_reps sd)%Z || Py.truthy (run_time sd))
        then Some sd else None).

(** The body of the loop of [_aggressive_extraction]. *)
Definition visit_block (lines : list string)
    (acc : list Soldier) (start_line : nat) : result (flow (list Soldier)) :=
  let block := slice lines start_line (start_line + 20) in
  soldier ← _extract_from_block block start_line;
  match soldier with
  | Some sd => if bool_decide (sd ∉ acc) then mret (Continue (acc ++ [sd]))
               else mret (Continue acc)
  | None => mret (Continue acc)
  end.

Definition _aggressive_extraction (lines : list string) : result (list Soldier) :=
  take 10 <$> for_each (visit_block lines) (py_range 0 (length lines - 20)) [].

(** The body of the loop of [_extract_data_around_name]. *)
Definition around_step (lines : list string)
    (sd : Soldier) (i : nat) : result (flow Soldier) :=
  line ← Py.strip <$> py_index lines i;
  if Py.re_match_digits line then
    num ← Py.int line; mret (Continue (take_count num sd))
  else if Py.re_match_time line then
    if negb (Py.truthy (run_time sd)) then mret (Continue (set_run_time line sd))
    else mret (Continue sd)
  else mret (Continue sd).

Definition _extract_data_around_name (lines : list string) (name_index : nat)
  : result (option Soldier) :=
  name_line ← py_index lines name_index;
  sd ← for_each (around_step lines)
         (py_range (name_index - 5) (Nat.min (length lines) (name_index + 15)))
         (set_name (clean_name name_line) blank_soldier);
  mret (if (0 <? sit_up_reps sd)%Z || Py.truthy (run_time sd) then Some sd else None).

(** The body of the loop of [_extract_from_performance_context]. *)
Definition context_step (lines : list string)
    (sd : Soldier) (i : nat) : result (flow Soldier) :=
  line ← Py.strip <$> py_index lines i;
  if Py.re_match_digits line then
    num ← Py.int line; mret (Continue (take_count num sd))
  else if looks_like_name line then mret (Break (set_name (clean_name line) sd))
  else mret (Continue sd).

Definition _extract_from_performance_context (lines : list string) (run_index : nat)
  : result (option Soldier) :=
  run_line ← py_index lines run_index;
  sd ← for_each (context_step lines) (range_down run_index (run_index - 10))
         (set_run_time run_line blank_soldier);
  mret (if Py.truthy (name sd) then Some sd else None).

(** The body of the loop of [_performance_data_strategy]. *)
Definition visit_run_time (lines : list string)
    (acc : list Soldier) (it : nat * string) : result (flow (list Soldier)) :=
  let '(i, line) := it in
  if Py.re_match_time (Py.strip line) then
    soldier ← _extract_from_performance_context lines i;
    match soldier with
    | Some sd => mret (Continue (acc ++ [sd]))
    | None => mret (Continue acc)
    end
  else mret (Continue acc).

Definition _performance_data_strategy (lines : list string) : result (list Soldier) :=
  for_each (visit_run_time lines) (enumerate lines) [].

(** The code points of [c.upper()].  The upper case of the micro sign and
    of y with diaeresis lie outside U+0000..U+00FF, and the sharp s becomes
    two letters, so the upper case of a string is a list of code points. *)
Definition upper_codes (c : ascii) : list N :=
  let n := N_of_ascii c in
  if (97 <=? n)%N && (n <=? 122)%N then [(n - 32)%N]
  else if (n =? 181)%N then [924%N]
  else if (n =? 223)%N then [83%N; 83%N]
  else if (n =? 255)%N then [376%N]
  else if ((224 <=? n)%N && (n <=? 246)%N) || ((248 <=? n)%N && (n <=? 254)%N)
  then [(n - 32)%N]
  else [n].

Fixpoint upper (s : string) : list N :=
  match s with
  | String c r => upper_codes c ++ upper r
  | EmptyString => []
  end.

Fixpoint codes (s : string) : list N :=
  match s with
  | String c r => N_of_ascii c :: codes r
  | EmptyString => []
  end.

Fixpoint starts_with_codes (p s : list N) : bool :=
  match p, s with
  | [], _ => true
  | a :: p', b :: s' => (a =? b)%N && starts_with_codes p' s'
  | _ :: _, [] => false
  end.

Fixpoint contains_codes (sub s : list N) : bool :=
  starts_with_codes sub s ||
  match s with
  | _ :: r => contains_codes sub r
  | [] => false
  end.

Definition ranks : list string := ["PTE"; "LTA"; "CPL"; "SGT"; "2LT"; "CPT"].

(** [any(rank in line.upper() for rank in [...])] *)
Definition has_rank (line : string) : bool :=
  existsb (λ rank, contains_codes (codes rank) (upper line)) ranks.

(** The body of the loop of [_name_based_strategy]. *)
Definition visit_name (lines : list string)
    (acc : list Soldier) (it : nat * string) : result (flow (list Soldier)) :=
  let '(i, line) := it in
  if has_rank line then
    soldier ← _extract_data_around_name lines i;
    match soldier with
    | Some sd => mret (Continue (acc ++ [sd]))
    | None => mret (Continue acc)
    end
  else mret (Continue acc).

Definition _name_based_strategy (lines : list string) : result (list Soldier) :=
  for_each (visit_name lines) (enumerate lines) [].

(** The body of the inner loop of [_enhanced_pattern_matching]:
    [if soldier and soldier['name'] and soldier not in all_soldiers]. *)
Definition union_step (all_soldiers : list Soldier) (soldier : Soldier) : list Soldier :=
  if Py.truthy (name soldier) && bool_decide (soldier ∉ all_soldiers)
  then all_soldiers ++ [soldier]
  else all_soldiers.

Definition _enhanced_pattern_matching (lines : list string) : result (list Soldier) :=
  working ← Parser._working_line_based_strategy lines;
  serial ← Parser._serial_number_strategy lines;
  named ← _name_based_strategy lines;
  timed ← _performance_data_strategy lines;
  let strategies := [working; serial; named; timed] in
  mret (foldl (λ all_soldiers strategy_soldiers,
                 foldl union_step all_soldiers strategy_soldiers)
              [] strategies).

(** [extract_ippt_data] up to the reconciled result, from what its reads
    return: [ocr] is the recognized lines of the image, [file1] and [file2]
    the split content of the JSON file as the pattern method and the fallback
    method read it, or the exception a read raised. *)
Definition extract_ippt_data {B} (ocr : result (list (Spatial.TextItem B)))
    (file1 file2 : result (list string)) : Report :=
  Parser.extract_ippt_data (ocr ≫= _extract_soldiers_from_text)
                           (file1 ≫= _enhanced_pattern_matching)
                           (file2 ≫= _aggressive_extraction).

End Heuristics.

(** ** Vocabulary of the statements *)

(** A non-empty string of decimal digits, and the number it writes, a digit
    counting for its distance from the character ['0']. *)
Definition all_digits (s : string) : bool := Py.truthy s && Py.all_chars Py.re_digit s.

Fixpoint decimal_from (acc : Z) (s : string) : Z :=
  match s with
  | String c r => decimal_from (10 * acc + Z.of_nat (nat_of_ascii c - nat_of_ascii "0")) r
  | EmptyString => acc
  end.

Definition decimal (s : string) : Z := decimal_from 0 s.

(** A text with more characters than Python 3's [int] converts digits, and
    a line of digits that it rejects for its length. *)
Definition over_long (t : string) : bool := Py.max_str_digits <? String.length t.

Definition over_long_number (t : string) : bool := all_digits t && over_long t.

(** What the positional extractor is said to read from a slot; [line] is the
    line at the slot's offset, if the input reaches that far. *)
Definition identity_slot (line : option string) : string :=
  match line with
  | Some l => Py.strip (Py.replace_PTE (Py.strip l))
  | None => ""
  end.

Definition count_slot (line : option string) : Z :=
  match line with
  | Some l => if all_digits (Py.strip l) then decimal (Py.strip l) else 0%Z
  | None => 0%Z
  end.

Definition time_slot (line : option string) : string :=
  match line with
  | Some l => if Py.re_match_time (Py.strip l) then Py.strip l else ""
  | None => ""
  end.

(** The offset of the first of the three score lines. *)
Definition first_offset (first_record : bool) : nat := if first_record then 7 else 6.

Definition slots_read (lines : list string) (pos : nat) (first_record : bool) : Soldier :=
  let w := first_offset first_record in
  mkSoldier (identity_slot (lines !! (pos + 2)))
            (count_slot (lines !! (pos + w)))
            (count_slot (lines !! (pos + (w + 1))))
            (time_slot (lines !! (pos + (w + 2)))).

(** A count slot whose line the conversion refuses, [lim] telling the lines
    of digits it refuses; and whether one of the two count slots of a window
    is refused by Python 3's [int]. *)
Definition refused_slot (lim : string → bool) (line : option string) : bool :=
  match line with
  | Some l => all_digits (Py.strip l) && lim (Py.strip l)
  | None => false
  end.

Definition slots_refused_by (lim : string → bool) (lines : list string) (pos : nat)
    (first_record : bool) : bool :=
  let w := first_offset first_record in
  refused_slot lim (lines !! (pos + w)) || refused_slot lim (lines !! (pos + (w + 1))).

Definition slots_refused : list string → nat → bool → bool :=
  slots_refused_by over_long.

(** The record of a window, kept when its name is not empty. *)
Definition named (sd : Soldier) : option Soldier :=
  if Py.truthy (name sd) then Some sd else None.

(** A sheet whose first line is the anchor of record 1: the tag line the
    first record has pushes its scores to offsets 7, 8 and 9. *)
Definition first_record_sheet : list string :=
  ["1"; "ID001"; "PTE JOHN TAN"; "x"; "x"; "x"; "x"; "35"; "40"; "9:30"].

(** One pass of a reconciler over its candidates, for either validator: the
    step both loops share, and the list of the candidates it keeps, those
    with a non-empty name that was not kept before and that pass [valid]. *)
Definition keep_step (valid : Soldier → bool) (st : list Soldier * gset string)
    (soldier : Soldier) : list Soldier * gset string :=
  let '(kept_so_far, seen_names) := st in
  if Py.truthy (name soldier) && bool_decide (name soldier ∉ seen_names) then
    if valid soldier
    then (kept_so_far ++ [soldier], {[name soldier]} ∪ seen_names)
    else st
  else st.

Fixpoint kept (valid : Soldier → bool) (seen : gset string) (cands : list Soldier)
  : list Soldier :=
  match cands with
  | [] => []
  | s :: rest =>
      if Py.truthy (name s) && bool_decide (name s ∉ seen) && valid s
      then s :: kept valid ({[name s]} ∪ seen) rest
      else kept valid seen rest
  end.

Definition names_of (l : list Soldier) : gset string := list_to_set (name <$> l).

(** The candidates of [_combine_and_validate] in the order it visits them:
    method by method in priority order, and within a method result by result. *)
Definition prioritized (results : list Parser.Extraction) : list Soldier :=
  m ← Parser.method_priority;
  r ← results;
  if String.eqb (Parser.ex_method r) m then Parser.ex_soldiers r else [].

(** C5 as the specification words it, for the first two methods of the
    parser: whenever both offer a candidate of one name with different
    values, the output holds the candidate of the first method and not the
    candidate of the second. *)
Definition higher_priority_always_wins : Prop :=
  ∀ (azure pattern fallback : list Soldier) (h l : Soldier),
    h ∈ azure → l ∈ pattern → name l = name h → l ≠ h →
    let out := soldiers (Parser.extract_ippt_data (Ok azure) (Ok pattern) (Ok fallback)) in
    h ∈ out ∧ l ∉ out.








(** What the extractors of the endpoint guarantee of a candidate. *)
Definition well_shaped (sd : Soldier) : Prop :=
  (0 ≤ sit_up_reps sd)%Z ∧ (0 ≤ push_up_reps sd)%Z
  ∧ (run_time sd = "" ∨ Py.re_match_time (run_time sd) = true).

(** [g1] and [g2] have the shape of the groups of [(\d{1,2}):(\d{2})]. *)
Definition time_shaped (g1 g2 : string) : Prop :=
  (String.length g1 = 1 ∨ String.length g1 = 2)
  ∧ Py.all_chars Py.re_digit g1 = true
  ∧ String.length g2 = 2
  ∧ Py.all_chars Py.re_digit g2 = true.

(** A substring [g1:g2] of that shape starts at index [i] of [raw]. *)
Definition occurs_at (raw : string) (i : nat) (g1 g2 : string) : Prop :=
  ∃ pre post, raw = pre +:+ g1 +:+ ":" +:+ g2 +:+ post
              ∧ String.length pre = i ∧ time_shaped g1 g2.

(** ... and none starts before [i]. *)
Definition leftmost_at (raw : string) (i : nat) (g1 g2 : string) : Prop :=
  occurs_at raw i g1 g2 ∧ ∀ j g1' g2', j < i → ¬ occurs_at raw j g1' g2'.

(** A time in normal form: [M:SS], or [MM:SS] whose minutes do not begin with
    a zero; minutes at most 30, seconds at most 59. *)
Definition normalized_time (x : string) : bool :=
  match x with
  | String m (String c (String s1 (String s2 EmptyString))) =>
      Py.re_digit m && Ascii.eqb c ":" && Py.re_digit s1 && Py.re_digit s2
      && (decimal (Py.str2 s1 s2) <=? 59)%Z
  | String m1 (String m2 (String c (String s1 (String s2 EmptyString)))) =>
      Py.re_digit m1 && Py.re_digit m2 && negb (Ascii.eqb m1 "0")
      && (decimal (Py.str2 m1 m2) <=? 30)%Z
      && Ascii.eqb c ":" && Py.re_digit s1 && Py.re_digit s2
      && (decimal (Py.str2 s1 s2) <=? 59)%Z
  | _ => false
  end.

(** Eleven anchors in a row, each followed by the same name and a count. *)
Definition repeated_sheet : list (Spatial.TextItem unit) :=
  mjoin (replicate 11 [Spatial.mkTextItem "1" (); Spatial.mkTextItem "PTE JOHN TAN" ();
                       Spatial.mkTextItem "35" ()]).

(** ** Vocabulary of the further properties *)

(** The record read at one fixed anchor, kept when its name is not empty, and
    the records of the ten anchors in anchor order. *)
Definition anchored_record (lines : list string) (p : nat * py_val) : option Soldier :=
  let read := slots_read lines p.1 (py_eq p.2 (PyStr "1")) in
  if Py.truthy (name read) then Some read else None.

Definition anchored_records (lines : list string) : list Soldier :=
  omap (anchored_record lines) Positional.positions.

(** An anchor whose window holds a count line that [int] refuses, and the
    elements of a list that come before the first one that is [bad]. *)
Definition anchor_refused (lines : list string) (p : nat * py_val) : bool :=
  slots_refused lines p.1 (py_eq p.2 (PyStr "1")).

Fixpoint before {A} (bad : A → bool) (xs : list A) : list A :=
  match xs with
  | [] => []
  | x :: rest => if bad x then [] else x :: before bad rest
  end.


(** A run time as an extractor stores it: empty, or exactly one or two
    digits, a colon and two digits. *)
Definition stored_time (t : string) : Prop :=
  t = "" ∨ ∃ g1 g2, t = g1 +:+ ":" +:+ g2 ∧ time_shaped g1 g2.

(** What a serial-anchored scan guarantees of the record it fills, for the
    bound [push_max] it puts on push-ups. *)
Definition scanned (push_max : Z) (sd : Soldier) : Prop :=
  (sit_up_reps sd = 0 ∨ 5 ≤ sit_up_reps sd ≤ 80)%Z
  ∧ (0 ≤ push_up_reps sd ≤ push_max)%Z
  ∧ stored_time (run_time sd).

(** A text that [str.isdigit] accepts and [int] rejects: digits with at least
    one superscript digit among them. *)
Definition pseudo_number (t : string) : bool := Py.isdigit t && negb (all_digits t).

(** A text that [str.isdigit] accepts and [int] rejects, for a superscript
    digit or for its length. *)
Definition rejected_number (t : string) : bool :=
  pseudo_number t || over_long_number t.

(** What a validator leaves through, beside its range tests: a name of at
    least two characters and a score or a run time. *)
Definition plausible (sd : Soldier) : Prop :=
  2 ≤ String.length (name sd)
  ∧ ((0 < sit_up_reps sd)%Z ∨ (0 < push_up_reps sd)%Z ∨ run_time sd ≠ "").

(** The methods [_combine_and_validate] looks for. *)
Definition known_method (r : Parser.Extraction) : bool :=
  bool_decide (Parser.ex_method r ∈ Parser.method_priority).

(** What the cleaning of the vision path guarantees of a record: both counts
    within 0..200, a run time that is empty or in normal form, and a score or
    a run time. *)
Definition cleaned (r : Soldier) : Prop :=
  (0 ≤ sit_up_reps r ≤ 200)%Z ∧ (0 ≤ push_up_reps r ≤ 200)%Z
  ∧ (run_time r = "" ∨ normalized_time (run_time r) = true)
  ∧ ((0 < sit_up_reps r)%Z ∨ (0 < push_up_reps r)%Z ∨ run_time r ≠ "").

(** What the block scan guarantees of a record it returns. *)
Definition block_record (sd : Soldier) : Prop :=
  name sd ≠ "" ∧ ((0 < sit_up_reps sd)%Z ∨ run_time sd ≠ "") ∧ scanned 2000 sd.

(** What the time-anchored extractor guarantees of a record it returns from
    [lines]: a non-empty name, counts in the scan ranges, and for run time a
    line of the input, kept as it is, that is a time once stripped. *)
Definition time_anchored (lines : list string) (sd : Soldier) : Prop :=
  name sd ≠ ""
  ∧ (sit_up_reps sd = 0 ∨ 5 ≤ sit_up_reps sd ≤ 80)%Z
  ∧ (0 ≤ push_up_reps sd ≤ 2000)%Z
  ∧ run_time sd ∈ lines
  ∧ Py.re_match_time (Py.strip (run_time sd)) = true.

(** The record the serial-number strategy keeps for a line: the line must be
    a serial from 1 to 10, and the counts are read from the window of the
    later records, whatever the serial. *)
Definition serial_record (lines : list string) (it : nat * string) : option Soldier :=
  let t := Py.strip it.2 in
  if all_digits t && (1 <=? decimal t)%Z && (decimal t <=? 10)%Z
  then let read := slots_read lines it.1 false in
       if Py.truthy (name read) then Some read else None
  else None.

(** What the name-anchored strategy guarantees of a record it returns from
    [lines]: the identity of a line that holds a rank in any letter case, a
    sit-up count or a run time, and fields in the scan ranges. *)
Definition name_anchored (lines : list string) (sd : Soldier) : Prop :=
  (∃ line, line ∈ lines ∧ Heuristics.has_rank line = true
           ∧ name sd = identity_slot (Some line))
  ∧ ((0 < sit_up_reps sd)%Z ∨ run_time sd ≠ "")
  ∧ scanned 2000 sd.

(** [sd] is among the records [strategy] returns on [lines]. *)
Definition found_by (strategy : list string → result (list Soldier))
    (lines : list string) (sd : Soldier) : Prop :=
  ∃ found, strategy lines = Ok found ∧ sd ∈ found.

(** A line of 4301 digits, one more than [int] converts. *)
Definition long_number : string := string_of_list_ascii (replicate 4301 "1"%char).

(** A line that [str.isdigit] accepts and [int] rejects: the superscript
    two, U+00B2. *)
Definition superscript_two : string := String (ascii_of_nat 178) "".

(** No count of the record is negative. *)
Definition counts_from_zero (sd : Soldier) : Prop :=
  (0 ≤ sit_up_reps sd)%Z ∧ (0 ≤ push_up_reps sd)%Z.

(** What every extraction method of the parser guarantees of a candidate:
    counts from zero, and a run time that is empty or, once stripped, matches
    the time pattern. *)
Definition parser_candidate (sd : Soldier) : Prop :=
  counts_from_zero sd
  ∧ (run_time sd = "" ∨ Py.re_match_time (Py.strip (run_time sd)) = true).

(** * Properties *)

(** ** Loops *)

Section LoopFacts.
Context {A S : Type} (body : S → A → result (flow S)) (P : S → Prop).
Hypothesis body_keeps : ∀ s x f, P s → body s x = Ok f → P (flow_state f).

Lemma loop_keeps xs s : P s → P (fst (loop body xs s)).
Proof.
  revert s. induction xs as [|x xs IH]; intros s Hs; simpl; [done|].
  destruct (body s x) as [[s'|s']|e] eqn:E; simpl; [|..|done].
  - apply IH. exact (body_keeps _ _ _ Hs E).
  - exact (body_keeps _ _ _ Hs E).
Qed.

Lemma try_for_each_keeps xs s : P s → P (try_for_each body xs s).
Proof. apply loop_keeps. Qed.

Lemma for_each_keeps xs s s' : P s → for_each body xs s = Ok s' → P s'.
Proof.
  intros Hs. unfold for_each. pose proof (loop_keeps xs s Hs) as H.
  destruct (loop body xs s) as [t [e|]]; [done|]. by intros [= <-].
Qed.
End LoopFacts.

(** ** Characters and strings *)

Lemma re_digit_cases c :
  Py.re_digit c = true →
  c ∈ ["0"; "1"; "2"; "3"; "4"; "5"; "6"; "7"; "8"; "9"]%char.
Proof.
  destruct c as [[] [] [] [] [] [] [] []]; vm_compute; intros H;
    try discriminate H; set_solver.
Qed.

Lemma re_digit_not_space c : Py.re_digit c = true → Py.isspace c = false.
Proof. destruct c as [[] [] [] [] [] [] [] []]; vm_compute; congruence. Qed.

Lemma rstrip_idem s : Py.rstrip (Py.rstrip s) = Py.rstrip s.
Proof.
  induction s as [|c r IH]; simpl; [done|].
  destruct (Py.rstrip r) as [|c' r'] eqn:E.
  - destruct (Py.isspace c) eqn:Hc; simpl; [done|]. by rewrite Hc.
  - simpl in *. by rewrite IH.
Qed.

Lemma rstrip_strip s : Py.rstrip (Py.strip s) = Py.strip s.
Proof. apply rstrip_idem. Qed.

Lemma rstrip_digits s : Py.all_chars Py.re_digit s = true → Py.rstrip s = s.
Proof.
  induction s as [|c r IH]; simpl; [done|].
  intros [Hc Hr]%andb_prop. rewrite (IH Hr).
  destruct r; [|done]. by rewrite (re_digit_not_space c Hc).
Qed.

Lemma strip_digits s : Py.all_chars Py.re_digit s = true → Py.strip s = s.
Proof.
  intros H. unfold Py.strip.
  assert (Py.lstrip s = s) as ->; [|by apply rstrip_digits].
  destruct s as [|c r]; simpl in *; [done|].
  apply andb_prop in H as [Hc _]. by rewrite (re_digit_not_space c Hc).
Qed.

(** On a string without trailing whitespace, [$] only matches at the end. *)
Lemma digits_to_end_fixed t :
  Py.rstrip t = t → Py.digits_to_end t = Py.all_chars Py.re_digit t.
Proof.
  induction t as [|c r IH]; [done|].
  change (Py.rstrip (String c r)) with
    (match Py.rstrip r with
     | EmptyString => if Py.isspace c then EmptyString else String c EmptyString
     | String c' r' => String c (String c' r')
     end).
  change (Py.digits_to_end (String c r)) with
    (if Py.re_digit c then Py.digits_to_end r else Py.at_end (String c r)).
  change (Py.all_chars Py.re_digit (String c r)) with
    (Py.re_digit c && Py.all_chars Py.re_digit r).
  destruct (Py.rstrip r) as [|c' r'] eqn:E.
  - destruct (Py.isspace c) eqn:Hc; [done|]. intros [= <-].
    destruct (Py.re_digit c); [done|]. simpl.
    destruct (Ascii.eqb_spec c Py.newline) as [->|]; [|done].
    by vm_compute in Hc.
  - intros [= Hr]. rewrite (IH Hr).
    destruct (Py.re_digit c); [done|]. by rewrite <- Hr.
Qed.

Lemma re_match_digits_fixed t :
  Py.rstrip t = t → Py.re_match_digits t = all_digits t.
Proof.
  destruct t as [|c r]; [done|]. intros H.
  unfold Py.re_match_digits, all_digits. simpl Py.truthy. simpl Py.all_chars.
  destruct (Py.re_digit c) eqn:Hc; [|done]. simpl.
  pose proof (digits_to_end_fixed _ H) as D. simpl in D. by rewrite Hc in D.
Qed.

Lemma re_match_digits_strip l :
  Py.re_match_digits (Py.strip l) = all_digits (Py.strip l).
Proof. apply re_match_digits_fixed, rstrip_strip. Qed.

Lemma int_digits_all s : ∀ seen acc,
  Py.all_chars Py.re_digit s = true →
  Py.int_digits seen acc s =
    if seen || Py.truthy s then Ok (decimal_from acc s) else Raise ValueError.
Proof.
  induction s as [|c r IH]; intros seen acc; simpl.
  - intros _. by destruct seen.
  - intros [Hc Hr]%andb_prop. rewrite Hc, (IH _ _ Hr). simpl.
    by rewrite orb_true_r.
Qed.

Lemma re_digit_not_int_space c : Py.re_digit c = true → Py.int_space c = false.
Proof. destruct c as [[] [] [] [] [] [] [] []]; vm_compute; congruence. Qed.

Lemma int_rskip_digits s : Py.all_chars Py.re_digit s = true → Py.int_rskip s = s.
Proof.
  induction s as [|c r IH]; simpl; [done|].
  intros [Hc Hr]%andb_prop. rewrite (IH Hr).
  destruct r; [|done]. by rewrite (re_digit_not_int_space c Hc).
Qed.

Lemma int_skip_digits s :
  Py.all_chars Py.re_digit s = true → Py.int_rskip (Py.int_lskip s) = s.
Proof.
  intros H. assert (Py.int_lskip s = s) as ->; [|by apply int_rskip_digits].
  destruct s as [|c r]; simpl in *; [done|].
  apply andb_prop in H as [Hc _]. by rewrite (re_digit_not_int_space c Hc).
Qed.

Lemma count_digits_all s :
  Py.all_chars Py.re_digit s = true → Py.count_digits s = String.length s.
Proof.
  induction s as [|c r IH]; simpl; [done|].
  intros [-> Hr]%andb_prop. by rewrite (IH Hr).
Qed.

Lemma int_unsigned c r :
  Py.re_digit c = true → Py.int_rskip (Py.int_lskip (String c r)) = String c r →
  Py.int (String c r) = Py.int_literal (String c r).
Proof.
  intros Hc Hs. unfold Py.int. rewrite Hs.
  apply re_digit_cases in Hc.
  repeat (apply elem_of_cons in Hc as [->|Hc]; [reflexivity|]).
  by apply elem_of_nil in Hc.
Qed.

(** On a line of digits [int] gives the number the digits write, unless
    there are more of them than the limit. *)
Lemma int_all_digits s :
  all_digits s = true →
  Py.int s = if over_long s then Raise ValueError else Ok (decimal s).
Proof.
  intros [Ht Hd]%andb_prop. destruct s as [|c r]; [done|].
  pose proof Hd as [Hc _]%andb_prop.
  rewrite int_unsigned; [|done|by apply int_skip_digits].
  unfold Py.int_literal, over_long. rewrite int_digits_all, count_digits_all by done.
  reflexivity.
Qed.

Lemma short_not_over_long s : String.length s ≤ 4300 → over_long s = false.
Proof. intros H. unfold over_long, Py.max_str_digits. by apply Nat.ltb_ge. Qed.

Lemma int_short_digits s :
  all_digits s = true → over_long s = false → Py.int s = Ok (decimal s).
Proof. intros Hd Hl. by rewrite int_all_digits, Hl. Qed.

Lemma int_digits_raises s : ∀ seen acc e,
  Py.int_digits seen acc s = Raise e → e = ValueError.
Proof.
  induction s as [|c r IH]; intros seen acc e; simpl.
  - destruct seen; [done|]. by intros [= <-].
  - destruct (Py.re_digit c); [apply IH|].
    destruct (_ && _); [apply IH|]. by intros [= <-].
Qed.

Lemma int_literal_raises t e : Py.int_literal t = Raise e → e = ValueError.
Proof.
  unfold Py.int_literal. destruct (Py.int_digits false 0 t) as [n|e'] eqn:E.
  - cbn [mbind result_bind mret result_ret]. destruct (_ <? _); [|done].
    by intros [= <-].
  - cbn [mbind result_bind]. intros [= <-]. by eapply int_digits_raises.
Qed.

(** [int] raises nothing but ValueError. *)
Lemma int_raises s e : Py.int s = Raise e → e = ValueError.
Proof.
  unfold Py.int.
  assert (∀ t, Z.opp <$> Py.int_literal t = Raise e → e = ValueError) as Hneg.
  { intros t. destruct (Py.int_literal t) as [n|e'] eqn:E; [done|].
    cbn [fmap result_fmap]. intros [= <-]. by eapply int_literal_raises. }
  destruct (Py.int_rskip _) as [|c r]; [apply int_literal_raises|].
  destruct c as [[] [] [] [] [] [] [] []];
    first [apply int_literal_raises | apply Hneg].
Qed.

(** A value [int] returns for a line of digits is the number they write. *)
Lemma int_digits_value s z : all_digits s = true → Py.int s = Ok z → z = decimal s.
Proof.
  intros Hd. rewrite (int_all_digits _ Hd). destruct (over_long s); [done|].
  by intros [= <-].
Qed.

(** The conversion of a line of digits, in a goal: the case of a line that
    is too long is closed when the goal is about a step that returned, or about the
    exception it raised. *)
Ltac convert_digits E :=
  rewrite (int_all_digits _ E);
  destruct (over_long _) eqn:?;
  cbn [mbind result_bind mret result_ret];
  [first [done | by intros [= <-] | idtac]|].

Lemma plain_digits_all s : ∀ acc,
  Py.all_chars Py.re_digit s = true → Py.plain_digits acc s = Ok (decimal_from acc s).
Proof.
  induction s as [|c r IH]; intros acc; simpl; [done|].
  intros [-> Hr]%andb_prop. by apply IH.
Qed.

(** Python 2 converts every line of digits. *)
Lemma int_py2_all_digits s : all_digits s = true → Py.int_py2 s = Ok (decimal s).
Proof.
  intros [Ht Hd]%andb_prop. destruct s as [|c r]; [done|].
  pose proof Hd as [Hc _]%andb_prop.
  unfold Py.int_py2. rewrite (strip_digits _ Hd).
  assert (Py.plain_literal (String c r) = Ok (decimal (String c r))) as E.
  { unfold Py.plain_literal. simpl Py.truthy. cbv iota. by apply plain_digits_all. }
  apply re_digit_cases in Hc.
  repeat (apply elem_of_cons in Hc as [->|Hc]; [exact E|]).
  by apply elem_of_nil in Hc.
Qed.

Lemma decimal_from_nonneg s : ∀ acc, (0 ≤ acc)%Z → (0 ≤ decimal_from acc s)%Z.
Proof.
  induction s as [|c r IH]; intros acc H; simpl; [done|].
  apply IH. unfold Py.digit_value. lia.
Qed.

Lemma decimal_nonneg s : (0 ≤ decimal s)%Z.
Proof. by apply decimal_from_nonneg. Qed.

(** ** The positional extractor *)

Lemma guarded_index {A} (lines : list string) i (K : string → result A) (D : result A) :
  (if bool_decide (i < length lines) then (Py.strip <$> py_index lines i) ≫= K else D)
  = match lines !! i with Some l => K (Py.strip l) | None => D end.
Proof.
  unfold py_index. case_bool_decide as H.
  - apply lookup_lt_is_Some_2 in H as [l ->]. done.
  - rewrite lookup_ge_None_2; [done|lia].
Qed.

Lemma read_name_spec lines pos sd :
  Positional.read_name lines pos sd =
  Ok (match lines !! (pos + 2) with
      | Some l => set_name (clean_name (Py.strip l)) sd
      | None => sd
      end).
Proof.
  unfold Positional.read_name. rewrite guarded_index. by destruct (lines !! _).
Qed.

Lemma read_slot_situp lines pos sd o :
  Positional.read_slot lines pos sd (o, Positional.situp) =
  if refused_slot over_long (lines !! (pos + o)) then Raise ValueError
  else Ok (Continue (match lines !! (pos + o) with
                     | Some l => if all_digits (Py.strip l)
                                 then set_sit_up_reps (decimal (Py.strip l)) sd else sd
                     | None => sd
                     end)).
Proof.
  unfold Positional.read_slot, refused_slot. rewrite guarded_index.
  destruct (lines !! _) as [l|]; [|done]. simpl.
  rewrite re_match_digits_strip. destruct (all_digits _) eqn:E; [|done].
  rewrite (int_all_digits _ E). by destruct (over_long _).
Qed.

Lemma read_slot_pushup lines pos sd o :
  Positional.read_slot lines pos sd (o, Positional.pushup) =
  if refused_slot over_long (lines !! (pos + o)) then Raise ValueError
  else Ok (Continue (match lines !! (pos + o) with
                     | Some l => if all_digits (Py.strip l)
                                 then set_push_up_reps (decimal (Py.strip l)) sd else sd
                     | None => sd
                     end)).
Proof.
  unfold Positional.read_slot, refused_slot. rewrite guarded_index.
  destruct (lines !! _) as [l|]; [|done]. simpl.
  rewrite re_match_digits_strip. destruct (all_digits _) eqn:E; [|done].
  rewrite (int_all_digits _ E). by destruct (over_long _).
Qed.

Lemma read_slot_run lines pos sd o :
  Positional.read_slot lines pos sd (o, Positional.run) =
  Ok (Continue (match lines !! (pos + o) with
                | Some l => if Py.re_match_time (Py.strip l)
                            then set_run_time (Py.strip l) sd else sd
                | None => sd
                end)).
Proof.
  unfold Positional.read_slot. rewrite guarded_index.
  destruct (lines !! _) as [l|]; [|done]. simpl.
  by destruct (Py.re_match_time _).
Qed.

(** What the positional extractor reads, for either kind of index: the
    record of the window, unless one of the two count lines has more digits
    than [int] converts. *)
Lemma soldier_data_reads lines pos serial :
  Positional.soldier_data lines pos serial =
  if slots_refused lines pos (py_eq serial (PyStr "1")) then Raise ValueError
  else Ok (slots_read lines pos (py_eq serial (PyStr "1"))).
Proof.
  unfold Positional.soldier_data, Positional.offsets, slots_read, for_each,
    slots_refused, slots_refused_by.
  rewrite read_name_spec. unfold identity_slot, count_slot, time_slot, clean_name.
  destruct (py_eq serial (PyStr "1")); cbn [mbind result_bind loop first_offset Nat.add];
    rewrite read_slot_situp.
  - destruct (refused_slot over_long (lines !! (pos + 7))); [done|].
    cbn [loop orb]. rewrite read_slot_pushup.
    destruct (refused_slot over_long (lines !! (pos + 8))); [done|].
    cbn [loop]. rewrite read_slot_run. cbn [loop].
    destruct (lines !! (pos + 2)); destruct (lines !! (pos + 7));
      destruct (lines !! (pos + 8)); destruct (lines !! (pos + 9));
      repeat (destruct (all_digits _)); repeat (destruct (Py.re_match_time _));
      reflexivity.
  - destruct (refused_slot over_long (lines !! (pos + 6))); [done|].
    cbn [loop orb]. rewrite read_slot_pushup.
    destruct (refused_slot over_long (lines !! (pos + 7))); [done|].
    cbn [loop]. rewrite read_slot_run. cbn [loop].
    destruct (lines !! (pos + 2)); destruct (lines !! (pos + 6));
      destruct (lines !! (pos + 7)); destruct (lines !! (pos + 8));
      repeat (destruct (all_digits _)); repeat (destruct (Py.re_match_time _));
      reflexivity.
Qed.

Lemma soldier_data_raises lines pos serial e :
  Positional.soldier_data lines pos serial = Raise e → e = ValueError.
Proof.
  rewrite soldier_data_reads. destruct (slots_refused _ _ _); [|done].
  by intros [= <-].
Qed.

Lemma soldier_data_returned lines pos serial sd :
  Positional.soldier_data lines pos serial = Ok sd →
  sd = slots_read lines pos (py_eq serial (PyStr "1")).
Proof.
  rewrite soldier_data_reads. destruct (slots_refused _ _ _); [done|].
  by intros [= <-].
Qed.

Lemma extract_soldier_at_position_reads lines pos serial :
  Positional._extract_soldier_at_position lines pos serial =
  if slots_refused lines pos (py_eq serial (PyStr "1")) then Raise ValueError
  else Ok (named (slots_read lines pos (py_eq serial (PyStr "1")))).
Proof.
  unfold Positional._extract_soldier_at_position. rewrite soldier_data_reads.
  by destruct (slots_refused _ _ _).
Qed.

Lemma read_run_spec lines i sd :
  Inline.read_run lines i sd =
  Ok (match lines !! i with
      | Some l => if Py.re_match_time (Py.strip l) then set_run_time (Py.strip l) sd else sd
      | None => sd
      end).
Proof.
  unfold Inline.read_run. rewrite guarded_index.
  destruct (lines !! _) as [l|]; [|done]. by destruct (Py.re_match_time _).
Qed.

Section InlineReads.
Context (int : string → result Z) (lim : string → bool).
Hypothesis int_spec :
  ∀ s, all_digits s = true → int s = if lim s then Raise ValueError else Ok (decimal s).

Lemma read_count_spec lines i set sd :
  Inline.read_count int lines i set sd =
  if refused_slot lim (lines !! i) then Raise ValueError
  else Ok (match lines !! i with
           | Some l => if all_digits (Py.strip l) then set (decimal (Py.strip l)) sd else sd
           | None => sd
           end).
Proof.
  unfold Inline.read_count, refused_slot. rewrite guarded_index.
  destruct (lines !! _) as [l|]; [|done].
  rewrite re_match_digits_strip. destruct (all_digits _) eqn:E; [|done].
  rewrite (int_spec _ E). by destruct (lim _).
Qed.

Lemma inline_soldier_data_spec lines pos serial :
  Inline.soldier_data int lines pos serial =
  if slots_refused_by lim lines pos (py_eq serial (PyStr "1")) then Raise ValueError
  else Ok (slots_read lines pos (py_eq serial (PyStr "1"))).
Proof.
  unfold Inline.soldier_data, slots_read, slots_refused_by.
  rewrite read_name_spec. unfold identity_slot, count_slot, time_slot, clean_name.
  destruct (py_eq serial (PyStr "1")); cbn [mbind result_bind first_offset Nat.add];
    rewrite read_count_spec.
  - destruct (refused_slot lim (lines !! (pos + 7))); [done|].
    cbn [mbind result_bind orb]. rewrite read_count_spec.
    destruct (refused_slot lim (lines !! (pos + 8))); [done|].
    cbn [mbind result_bind]. rewrite read_run_spec.
    destruct (lines !! (pos + 2)); destruct (lines !! (pos + 7));
      destruct (lines !! (pos + 8)); destruct (lines !! (pos + 9));
      repeat (destruct (all_digits _)); repeat (destruct (Py.re_match_time _));
      reflexivity.
  - destruct (refused_slot lim (lines !! (pos + 6))); [done|].
    cbn [mbind result_bind orb]. rewrite read_count_spec.
    destruct (refused_slot lim (lines !! (pos + 7))); [done|].
    cbn [mbind result_bind]. rewrite read_run_spec.
    destruct (lines !! (pos + 2)); destruct (lines !! (pos + 6));
      destruct (lines !! (pos + 7)); destruct (lines !! (pos + 8));
      repeat (destruct (all_digits _)); repeat (destruct (Py.re_match_time _));
      reflexivity.
Qed.
End InlineReads.

(** The integration script reads what the positional extractor reads. *)
Lemma inline_soldier_data_reads lines pos serial :
  Inline.soldier_data Py.int lines pos serial =
  if slots_refused lines pos (py_eq serial (PyStr "1")) then Raise ValueError
  else Ok (slots_read lines pos (py_eq serial (PyStr "1"))).
Proof. apply inline_soldier_data_spec, int_all_digits. Qed.

Lemma refused_by_none line : refused_slot (λ _, false) line = false.
Proof. destruct line as [l|]; [|done]. simpl. apply andb_false_r. Qed.

(** The manual script, under Python 2, reads every window. *)
Lemma inline_soldier_data_reads_py2 lines pos serial :
  Inline.soldier_data Py.int_py2 lines pos serial =
  Ok (slots_read lines pos (py_eq serial (PyStr "1"))).
Proof.
  rewrite (inline_soldier_data_spec _ (λ _, false)).
  - unfold slots_refused_by. by rewrite !refused_by_none.
  - intros s Hs. by apply int_py2_all_digits.
Qed.

(** C4, at the call of the serial-number strategy: for a string index the
    positional extractor reads what the claim says, the identity from
    anchor+2 and the scores from anchor+7, +8, +9 for the index ['1'] and
    from anchor+6, +7, +8 for the others, a slot that holds anything else or
    lies past the end keeping its default; it raises nothing for an offset
    past the end, and raises ValueError only when a count line has more
    digits than [int] converts.  The manual script, under Python 2, reads
    the same record and never raises.  But the serial-number strategy passes
    the index as an integer, and the integer 1 is not the string ['1']: the
    first record is then read from anchor+6, +7, +8.  On the sheet whose
    first record has its scores 35, 40 and 9:30 at offsets 7, 8, 9 the
    strategy returns 0 sit-ups, 35 push-ups and no run time. *)
Theorem positional_extractor_misreads_the_integer_index_one :
  (∀ (lines : list string) (pos : nat) (serial : string),
      Positional._extract_soldier_at_position lines pos (PyStr serial)
      = (if slots_refused lines pos (String.eqb serial "1") then Raise ValueError
         else Ok (named (slots_read lines pos (String.eqb serial "1"))))
      ∧ Inline.soldier_data Py.int_py2 lines pos (PyStr serial)
        = Ok (slots_read lines pos (String.eqb serial "1")))
  ∧ (∀ (lines : list string) (pos : nat),
      Positional._extract_soldier_at_position lines pos (PyInt 1)
      = if slots_refused lines pos false then Raise ValueError
        else Ok (named (slots_read lines pos false)))
  ∧ slots_read first_record_sheet 0 true = mkSoldier "JOHN TAN" 35 40 "9:30"
  ∧ Positional._extract_soldier_at_position first_record_sheet 0 (PyStr "1")
    = Ok (Some (mkSoldier "JOHN TAN" 35 40 "9:30"))
  ∧ Parser._serial_number_strategy first_record_sheet
    = Ok [mkSoldier "JOHN TAN" 0 35 ""].
Proof.
  split_and!; try reflexivity.
  - intros lines pos serial. split.
    + apply extract_soldier_at_position_reads.
    + apply inline_soldier_data_reads_py2.
  - intros lines pos. apply extract_soldier_at_position_reads.
Qed.

Example positional_scenario_malformed_count :
  Positional._extract_soldier_at_position
    ["2"; "ID002"; "PTE LIM"; "x"; "x"; "x"; "abc"; "40"; "9:30"] 0 (PyStr "2")
  = Ok (Some (mkSoldier "LIM" 0 40 "9:30")).
Proof. reflexivity. Qed.

(** ** Identity normalization *)

Lemma replace_PTE_hit r : Py.replace_PTE ("PTE" +:+ r) = Py.replace_PTE r.
Proof. reflexivity. Qed.

Lemma replace_PTE_miss c r :
  Py.startswith "PTE" (String c r) = false →
  Py.replace_PTE (String c r) = String c (Py.replace_PTE r).
Proof.
  destruct (Ascii.eqb_spec c "P") as [->|Hc].
  - destruct r as [|c2 r]; [done|].
    destruct (Ascii.eqb_spec c2 "T") as [->|Hc2].
    + destruct r as [|c3 r]; [done|].
      destruct (Ascii.eqb_spec c3 "E") as [->|Hc3]; [done|].
      intros _. destruct c3 as [[] [] [] [] [] [] [] []]; done.
    + intros _. destruct c2 as [[] [] [] [] [] [] [] []]; done.
  - intros _. destruct c as [[] [] [] [] [] [] [] []]; done.
Qed.

Lemma replace_PTE_absent s : Py.contains "PTE" s = false → Py.replace_PTE s = s.
Proof.
  induction s as [|c r IH]; [done|].
  change (Py.contains "PTE" (String c r)) with
    (Py.startswith "PTE" (String c r) || Py.contains "PTE" r).
  intros [Hp Hr]%orb_false_elim. rewrite (replace_PTE_miss _ _ Hp). by rewrite IH.
Qed.

Lemma startswith_PTE_inv s :
  Py.startswith "PTE" s = true → ∃ r, s = "PTE" +:+ r.
Proof.
  destruct s as [|c1 [|c2 [|c3 r]]]; cbn [Py.startswith];
    rewrite ?andb_false_r; try done.
  rewrite andb_true_r.
  intros [->%Ascii.eqb_eq [->%Ascii.eqb_eq ->%Ascii.eqb_eq]%andb_prop]%andb_prop.
  by exists r.
Qed.

Lemma startswith_PTE_app a b :
  Py.startswith "PTE" a = false → a ≠ "" →
  Py.startswith "PTE" (a +:+ "PTE" +:+ b) = false.
Proof.
  destruct a as [|c1 [|c2 [|c3 r]]]; [done|..]; intros H _.
  - change (Py.startswith "PTE" (String c1 "" +:+ "PTE" +:+ b))
      with (Ascii.eqb "P" c1 && (Ascii.eqb "T" "P" && Py.startswith "E" ("TE" +:+ b))).
    by rewrite andb_false_r.
  - change (Py.startswith "PTE" (String c1 (String c2 "") +:+ "PTE" +:+ b))
      with (Ascii.eqb "P" c1 && (Ascii.eqb "T" c2 && (Ascii.eqb "E" "P" && true))).
    by rewrite !andb_false_r.
  - exact H.
Qed.

Lemma replace_PTE_app_len n : ∀ a b,
  String.length a < n →
  Py.replace_PTE (a +:+ "PTE" +:+ b) = Py.replace_PTE a +:+ Py.replace_PTE b.
Proof.
  induction n as [|n IH]; intros a b Hn; [lia|].
  destruct a as [|c r]; [done|].
  destruct (Py.startswith "PTE" (String c r)) eqn:Hp.
  - apply startswith_PTE_inv in Hp as [r' Hr]. rewrite Hr.
    change (("PTE" +:+ r') +:+ "PTE" +:+ b) with ("PTE" +:+ (r' +:+ "PTE" +:+ b)).
    rewrite !replace_PTE_hit. apply IH.
    apply (f_equal String.length) in Hr. simpl in *.
    change ("" +:+ r') with r' in Hr. lia.
  - change ((String c r) +:+ "PTE" +:+ b) with (String c (r +:+ "PTE" +:+ b)).
    rewrite replace_PTE_miss.
    + rewrite (replace_PTE_miss _ _ Hp), IH; [done|simpl in Hn; lia].
    + by apply (startswith_PTE_app (String c r) b).
Qed.

Lemma replace_PTE_app a b :
  Py.replace_PTE (a +:+ "PTE" +:+ b) = Py.replace_PTE a +:+ Py.replace_PTE b.
Proof. apply (replace_PTE_app_len (S (String.length a))). lia. Qed.

(** C9: the identity the extractors keep is the name line stripped, with the
    occurrences of ['PTE'] deleted, stripped again: the name step writes it
    whatever the line, the positional extractor returns it whenever it
    returns, and the manual script always does.  An occurrence is deleted
    wherever it stands in the line, and a line without ['PTE'] is left as it
    is, so the other rank markers stay in the identity. *)
Theorem identity_normalization_deletes_PTE_only :
  (∀ (lines : list string) (pos : nat) (l : string) (sd : Soldier),
      lines !! (pos + 2) = Some l →
      Positional.read_name lines pos sd
      = Ok (set_name (Py.strip (Py.replace_PTE (Py.strip l))) sd))
  ∧ (∀ (lines : list string) (pos : nat) (serial : py_val) (l : string) (sd : Soldier),
      lines !! (pos + 2) = Some l →
      Positional.soldier_data lines pos serial = Ok sd →
      name sd = Py.strip (Py.replace_PTE (Py.strip l)))
  ∧ (∀ (lines : list string) (pos : nat) (serial : py_val) (l : string),
      lines !! (pos + 2) = Some l →
      ∃ sd, Inline.soldier_data Py.int_py2 lines pos serial = Ok sd
            ∧ name sd = Py.strip (Py.replace_PTE (Py.strip l)))
  ∧ (∀ a b : string,
      Py.replace_PTE (a +:+ "PTE" +:+ b) = Py.replace_PTE a +:+ Py.replace_PTE b)
  ∧ (∀ s : string, Py.contains "PTE" s = false → Py.replace_PTE s = s)
  ∧ clean_name (Py.strip " SEPTEMBER PTE LIM ") = "SEMBER  LIM"
  ∧ clean_name (Py.strip "CPL TAN") = "CPL TAN"
  ∧ clean_name (Py.strip "SGT LEE") = "SGT LEE"
  ∧ clean_name (Py.strip "LTA ONG") = "LTA ONG".
Proof.
  split_and!; try reflexivity.
  - intros lines pos l sd Hl. rewrite read_name_spec. by rewrite Hl.
  - intros lines pos serial l sd Hl ->%soldier_data_returned.
    unfold slots_read. simpl. by rewrite Hl.
  - intros lines pos serial l Hl. eexists.
    split; [apply inline_soldier_data_reads_py2|].
    unfold slots_read. simpl. by rewrite Hl.
  - apply replace_PTE_app.
  - apply replace_PTE_absent.
Qed.

Lemma identity_normalization_deletes_PTE_only_witness :
  Positional.read_name ["1"; "ID001"; "PTE JOHN TAN"] 0 blank_soldier
  = Ok (set_name (Py.strip (Py.replace_PTE (Py.strip "PTE JOHN TAN"))) blank_soldier)
  ∧ name (mkSoldier "JOHN TAN" 0 0 "")
    = Py.strip (Py.replace_PTE (Py.strip "PTE JOHN TAN"))
  ∧ ∃ sd, Inline.soldier_data Py.int_py2 ["1"; "ID001"; "PTE JOHN TAN"] 0 (PyStr "1") = Ok sd
          ∧ name sd = Py.strip (Py.replace_PTE (Py.strip "PTE JOHN TAN")).
Proof.
  split_and!.
  - apply (proj1 identity_normalization_deletes_PTE_only
             ["1"; "ID001"; "PTE JOHN TAN"] 0 "PTE JOHN TAN" blank_soldier).
    reflexivity.
  - apply (proj1 (proj2 identity_normalization_deletes_PTE_only)
             ["1"; "ID001"; "PTE JOHN TAN"] 0 (PyStr "1") "PTE JOHN TAN"
             (mkSoldier "JOHN TAN" 0 0 "")); reflexivity.
  - apply (proj1 (proj2 (proj2 identity_normalization_deletes_PTE_only))
             ["1"; "ID001"; "PTE JOHN TAN"] 0 (PyStr "1") "PTE JOHN TAN").
    reflexivity.
Defined.

(** ** The reconciling pass *)

Lemma names_of_nil seen : names_of [] ∪ seen = seen.
Proof. apply (left_id_L ∅ (∪)). Qed.

Lemma names_of_cons s l seen :
  names_of (s :: l) ∪ seen = names_of l ∪ ({[name s]} ∪ seen).
Proof.
  unfold names_of. simpl.
  by rewrite (comm_L (∪) {[name s]}), <- (assoc_L (∪)).
Qed.

Lemma elem_of_names_of n l : n ∈ names_of l ↔ ∃ r, r ∈ l ∧ name r = n.
Proof.
  unfold names_of. rewrite elem_of_list_to_set, list_elem_of_fmap.
  split; intros (r & H1 & H2); eauto.
Qed.

Section Keep.
Context (valid : Soldier → bool).

Lemma foldl_keep_step cands : ∀ out seen,
  foldl (keep_step valid) (out, seen) cands
  = (out ++ kept valid seen cands, names_of (kept valid seen cands) ∪ seen).
Proof.
  induction cands as [|s rest IH]; intros out seen; simpl.
  - by rewrite app_nil_r, names_of_nil.
  - destruct (Py.truthy (name s) && bool_decide (name s ∉ seen)) eqn:E1; simpl.
    + destruct (valid s) eqn:E2; rewrite IH.
      * by rewrite <- app_assoc, names_of_cons.
      * done.
    + by rewrite IH.
Qed.

Lemma kept_app a : ∀ b seen,
  kept valid seen (a ++ b)
  = kept valid seen a ++ kept valid (names_of (kept valid seen a) ∪ seen) b.
Proof.
  induction a as [|s rest IH]; intros b seen; simpl.
  - by rewrite names_of_nil.
  - destruct (Py.truthy (name s) && bool_decide (name s ∉ seen) && valid s); simpl.
    + by rewrite IH, names_of_cons.
    + apply IH.
Qed.

Lemma kept_spec cands : ∀ seen r,
  r ∈ kept valid seen cands →
  r ∈ cands ∧ valid r = true ∧ Py.truthy (name r) = true ∧ name r ∉ seen.
Proof.
  induction cands as [|s rest IH]; intros seen r; simpl; [by intros ?%elem_of_nil|].
  destruct (Py.truthy (name s) && bool_decide (name s ∉ seen) && valid s) eqn:E.
  - apply andb_prop in E as [[E1 E2]%andb_prop E3]. apply bool_decide_eq_true in E2.
    intros [->|H]%elem_of_cons; [by rewrite elem_of_cons; auto|].
    apply IH in H as (? & ? & ? & Hn). rewrite elem_of_cons.
    apply not_elem_of_union in Hn as [_ Hn]. auto.
  - intros H. apply IH in H as (? & ? & ? & ?). rewrite elem_of_cons. auto.
Qed.

Lemma kept_NoDup cands : ∀ seen, NoDup (name <$> kept valid seen cands).
Proof.
  induction cands as [|s rest IH]; intros seen; simpl; [constructor|].
  destruct (Py.truthy (name s) && bool_decide (name s ∉ seen) && valid s); [|done].
  simpl. constructor; [|done].
  intros (r & Hn & Hr)%list_elem_of_fmap.
  apply kept_spec in Hr as (_ & _ & _ & Hr).
  apply Hr, elem_of_union_l, elem_of_singleton. done.
Qed.

(** The first candidate of its name that passes [valid] is the one kept. *)
Lemma kept_first pre h post seen :
  valid h = true → Py.truthy (name h) = true → name h ∉ seen →
  (∀ x, x ∈ pre → name x = name h → valid x = false) →
  ∃ later,
    kept valid seen (pre ++ h :: post) = kept valid seen pre ++ h :: later
    ∧ (∀ r, r ∈ kept valid seen pre → name r ≠ name h)
    ∧ (∀ r, r ∈ later → name r ≠ name h).
Proof.
  intros Hv Ht Hs Hpre.
  assert (∀ r, r ∈ kept valid seen pre → name r ≠ name h) as Hk.
  { intros r Hr Hn. apply kept_spec in Hr as (Hin & Hvr & _).
    rewrite (Hpre r Hin Hn) in Hvr. done. }
  rewrite kept_app. simpl.
  assert (name h ∉ names_of (kept valid seen pre) ∪ seen) as Hfresh.
  { rewrite elem_of_union, elem_of_names_of.
    intros [(r & Hr & Hn)|?]; [|done]. by apply (Hk r Hr). }
  rewrite Hv, Ht, (bool_decide_eq_true_2 _ Hfresh). simpl.
  eexists. split; [done|]. split; [done|].
  intros r Hr Hn. apply kept_spec in Hr as (_ & _ & _ & Hr).
  apply Hr. rewrite Hn. apply elem_of_union_l, elem_of_singleton. done.
Qed.

Lemma kept_first_only pre h post seen r :
  valid h = true → Py.truthy (name h) = true → name h ∉ seen →
  (∀ x, x ∈ pre → name x = name h → valid x = false) →
  r ∈ kept valid seen (pre ++ h :: post) → name r = name h → r = h.
Proof.
  intros Hv Ht Hs Hpre Hr Hn.
  destruct (kept_first pre h post seen Hv Ht Hs Hpre) as (later & E & H1 & H2).
  rewrite E in Hr. apply elem_of_app in Hr as [Hr|Hr]; [by destruct (H1 r Hr)|].
  apply elem_of_cons in Hr as [->|Hr]; [done|by destruct (H2 r Hr)].
Qed.

Lemma kept_first_position pre h post seen n :
  valid h = true → Py.truthy (name h) = true → name h ∉ seen →
  (∀ x, x ∈ pre → name x = name h → valid x = false) →
  length (kept valid seen pre) < n →
  h ∈ take n (kept valid seen (pre ++ h :: post)).
Proof.
  intros Hv Ht Hs Hpre Hlen.
  destruct (kept_first pre h post seen Hv Ht Hs Hpre) as (later & E & _ & _).
  rewrite E. apply list_elem_of_lookup. exists (length (kept valid seen pre)).
  rewrite lookup_take_lt by done. by rewrite list_lookup_middle.
Qed.

Lemma take_kept_NoDup n seen cands : NoDup (name <$> take n (kept valid seen cands)).
Proof.
  rewrite fmap_take. eapply sublist_NoDup; [apply kept_NoDup|apply sublist_take].
Qed.

End Keep.

(** ** The two reconcilers *)

Lemma foldl_bind {S A B} (f : S → A → S) (g : S → B → S) (h : B → list A) :
  (∀ st x, g st x = foldl f st (h x)) →
  ∀ xs st, foldl g st xs = foldl f st (xs ≫= h).
Proof.
  intros Hg. induction xs as [|x xs IH]; intros st; [done|].
  change ((x :: xs) ≫= h) with (h x ++ (xs ≫= h)).
  rewrite foldl_app, <- Hg. apply IH.
Qed.

Lemma combine_candidates results st :
  foldl (Parser.scan_method results) st Parser.method_priority
  = foldl Parser.accept_step st (prioritized results).
Proof.
  unfold prioritized. apply foldl_bind. clear st. intros st m.
  unfold Parser.scan_method. apply foldl_bind. clear st. intros st r.
  unfold Parser.scan_result. by destruct (String.eqb _ _).
Qed.

Lemma combine_and_validate_kept results :
  soldiers (Parser._combine_and_validate results)
  = take 10 (kept Parser._validate_soldier_data ∅ (prioritized results)).
Proof.
  unfold Parser._combine_and_validate. cbn [soldiers]. rewrite combine_candidates.
  change Parser.accept_step with (keep_step Parser._validate_soldier_data).
  by rewrite foldl_keep_step.
Qed.

Lemma deduplicate_and_validate_kept cands :
  Endpoint._deduplicate_and_validate cands
  = take 10 (kept Endpoint._validate_soldier ∅ cands).
Proof.
  unfold Endpoint._deduplicate_and_validate.
  change Endpoint.dedup_step with (keep_step Endpoint._validate_soldier).
  by rewrite foldl_keep_step.
Qed.

Lemma prioritized_three a p f :
  prioritized [Parser._azure_ocr_extraction (Ok a);
               Parser._pattern_based_extraction (Ok p);
               Parser._fallback_extraction (Ok f)] = a ++ p ++ f.
Proof. unfold prioritized. simpl. by rewrite !app_nil_r. Qed.

(** C1: whatever the candidates, the list a reconciler returns holds at most
    10 records: the merged result of the parser, the deduplicated list of the
    endpoint, and the result the endpoint builds from it. *)
Theorem reconciled_output_has_at_most_10_records :
  (∀ results : list Parser.Extraction,
      length (soldiers (Parser._combine_and_validate results)) ≤ 10)
  ∧ (∀ candidates : list Soldier,
      length (Endpoint._deduplicate_and_validate candidates) ≤ 10)
  ∧ (∀ file ocr : result (list string),
      length (soldiers (Endpoint.extract_ippt_data file ocr)) ≤ 10).
Proof.
  split_and!.
  - intros results. rewrite combine_and_validate_kept, length_take. lia.
  - intros cands. rewrite deduplicate_and_validate_kept, length_take. lia.
  - intros file ocr. unfold Endpoint.extract_ippt_data. simpl.
    rewrite deduplicate_and_validate_kept, length_take. lia.
Qed.

(** C2: whatever the candidates, no two records of a reconciler's output have
    the same name, compared as the exact strings the extractors normalized:
    a candidate whose name is already in the output is not appended. *)
Theorem reconciled_identities_are_pairwise_distinct :
  (∀ results : list Parser.Extraction,
      NoDup (name <$> soldiers (Parser._combine_and_validate results)))
  ∧ (∀ candidates : list Soldier,
      NoDup (name <$> Endpoint._deduplicate_and_validate candidates))
  ∧ (∀ file ocr : result (list string),
      NoDup (name <$> soldiers (Endpoint.extract_ippt_data file ocr))).
Proof.
  split_and!.
  - intros results. rewrite combine_and_validate_kept. apply take_kept_NoDup.
  - intros cands. rewrite deduplicate_and_validate_kept. apply take_kept_NoDup.
  - intros file ocr. unfold Endpoint.extract_ippt_data. simpl.
    rewrite deduplicate_and_validate_kept. apply take_kept_NoDup.
Qed.

Lemma validate_soldier_data_named s :
  Parser._validate_soldier_data s = true → Py.truthy (name s) = true.
Proof.
  unfold Parser._validate_soldier_data. by destruct (Py.truthy (name s)).
Qed.

(** C5, amended: in the order in which the parser's reconciler visits the
    candidates (method by method, azure_ocr before pattern_based before
    fallback), let [h] be the first candidate of its name that passes the
    validation.  Then every record of that name in the output is [h] itself,
    whole; a later candidate of that name with other values is not in the
    output; and [h] is in the output when fewer than 10 records were kept
    before it. *)
Theorem first_valid_candidate_of_a_name_is_the_one_kept
    (results : list Parser.Extraction) (pre post : list Soldier) (h : Soldier)
    (Horder : prioritized results = pre ++ h :: post)
    (Hvalid : Parser._validate_soldier_data h = true)
    (Hfirst : ∀ x, x ∈ pre → name x = name h → Parser._validate_soldier_data x = false) :
  let out := soldiers (Parser._combine_and_validate results) in
  (∀ r, r ∈ out → name r = name h → r = h)
  ∧ (∀ l, l ∈ post → name l = name h → l ≠ h → l ∉ out)
  ∧ (length (kept Parser._validate_soldier_data ∅ pre) < 10 → h ∈ out).
Proof.
  cbv zeta. rewrite combine_and_validate_kept, Horder.
  pose proof (validate_soldier_data_named h Hvalid) as Hnamed.
  assert (∀ r, r ∈ take 10 (kept Parser._validate_soldier_data ∅ (pre ++ h :: post)) →
               name r = name h → r = h) as Honly.
  { intros r Hr.
    apply (kept_first_only _ pre h post ∅ r Hvalid Hnamed (not_elem_of_empty _) Hfirst).
    apply elem_of_take in Hr as (i & Hi & _). by eapply list_elem_of_lookup_2. }
  split_and!.
  - exact Honly.
  - intros l _ Hn Hne Hl. by apply Hne, Honly.
  - intros Hlen.
    by apply (kept_first_position _ pre h post ∅ 10 Hvalid Hnamed (not_elem_of_empty _)).
Qed.

Lemma first_valid_candidate_of_a_name_is_the_one_kept_witness :
  let h := mkSoldier "JOHN TAN" 35 40 "9:30" in
  let l := mkSoldier "JOHN TAN" 38 40 "9:30" in
  let out := soldiers (Parser._combine_and_validate
                         [Parser._azure_ocr_extraction (Ok [h]);
                          Parser._pattern_based_extraction (Ok [l]);
                          Parser._fallback_extraction (Raise IOError)]) in
  (∀ r, r ∈ out → name r = name h → r = h)
  ∧ (∀ l', l' ∈ [l] → name l' = name h → l' ≠ h → l' ∉ out)
  ∧ (length (kept Parser._validate_soldier_data ∅ []) < 10 → h ∈ out).
Proof.
  intros h l.
  apply (first_valid_candidate_of_a_name_is_the_one_kept
           [Parser._azure_ocr_extraction (Ok [h]);
            Parser._pattern_based_extraction (Ok [l]);
            Parser._fallback_extraction (Raise IOError)] [] [l] h).
  - reflexivity.
  - reflexivity.
  - intros x Hx. by apply elem_of_nil in Hx.
Defined.

(** C5 as worded fails: a candidate of the first method that carries a name
    and no score does not pass the validation, its name is not marked as
    seen, and the candidate of the second method is the one kept. *)
Lemma higher_priority_candidate_can_lose : ¬ higher_priority_always_wins.
Proof.
  intros H.
  destruct (H [mkSoldier "JOHN TAN" 0 0 ""] [mkSoldier "JOHN TAN" 38 40 "9:30"] []
              (mkSoldier "JOHN TAN" 0 0 "") (mkSoldier "JOHN TAN" 38 40 "9:30"))
    as [_ Hl]; [by left|by left|done|done|].
  apply Hl. vm_compute. by left.
Qed.

(** ** Ranges of the reconciled fields *)


Lemma well_shaped_slots_read lines pos first : well_shaped (slots_read lines pos first).
Proof.
  unfold well_shaped, slots_read, count_slot, time_slot. simpl. split_and!.
  - destruct (lines !! _); [|done]. destruct (all_digits _); [apply decimal_nonneg|done].
  - destruct (lines !! _); [|done]. destruct (all_digits _); [apply decimal_nonneg|done].
  - destruct (lines !! _); [|by left]. destruct (Py.re_match_time _) eqn:E; auto.
Qed.









Lemma validate_soldier_data_bounds s :
  Parser._validate_soldier_data s = true →
  (sit_up_reps s ≤ 200)%Z ∧ (push_up_reps s ≤ 2000)%Z.
Proof.
  unfold Parser._validate_soldier_data.
  destruct (_ || _); [done|]. destruct (negb _); [done|].
  destruct (200 <? sit_up_reps s)%Z eqn:E1; [done|].
  destruct (2000 <? push_up_reps s)%Z eqn:E2; [done|]. lia.
Qed.

Lemma elem_of_take_kept valid n seen cands r :
  r ∈ take n (kept valid seen cands) → r ∈ cands ∧ valid r = true.
Proof.
  intros (i & Hi & _)%elem_of_take. apply list_elem_of_lookup_2 in Hi.
  apply kept_spec in Hi as (? & ? & _). done.
Qed.

(** ** The time validator *)

Lemma time_at_one a d e rest :
  Py.re_digit a = true → Py.re_digit d = true → Py.re_digit e = true →
  Py.time_at (String a (String ":" (String d (String e rest))))
  = Some (Py.str1 a, Py.str2 d e, rest).
Proof.
  intros Ha Hd He. unfold Py.time_at.
  destruct rest; rewrite Ha, Hd, He; reflexivity.
Qed.

Lemma time_at_two a b d e rest :
  Py.re_digit a = true → Py.re_digit b = true →
  Py.re_digit d = true → Py.re_digit e = true →
  Py.time_at (String a (String b (String ":" (String d (String e rest)))))
  = Some (Py.str2 a b, Py.str2 d e, rest).
Proof.
  intros Ha Hb Hd He. unfold Py.time_at. rewrite Ha, Hb, Hd, He. reflexivity.
Qed.

Lemma time_shaped_one a d e :
  Py.re_digit a = true → Py.re_digit d = true → Py.re_digit e = true →
  time_shaped (Py.str1 a) (Py.str2 d e).
Proof. intros Ha Hd He. unfold time_shaped. simpl. rewrite Ha, Hd, He. auto. Qed.

Lemma time_shaped_two a b d e :
  Py.re_digit a = true → Py.re_digit b = true →
  Py.re_digit d = true → Py.re_digit e = true →
  time_shaped (Py.str2 a b) (Py.str2 d e).
Proof.
  intros Ha Hb Hd He. unfold time_shaped. simpl. rewrite Ha, Hb, Hd, He. auto.
Qed.

Lemma time_at_inv s g1 g2 rest :
  Py.time_at s = Some (g1, g2, rest) →
  s = g1 +:+ ":" +:+ g2 +:+ rest ∧ time_shaped g1 g2.
Proof.
  unfold Py.time_at. destruct s as [|a [|b [|c [|d r]]]]; try done.
  assert (Py.re_digit a && Ascii.eqb b ":" && Py.re_digit c && Py.re_digit d = true →
          Some (Py.str1 a, Py.str2 c d, r) = Some (g1, g2, rest) →
          String a (String b (String c (String d r))) = g1 +:+ ":" +:+ g2 +:+ rest
          ∧ time_shaped g1 g2) as Hone.
  { intros [[[Ha ->%Ascii.eqb_eq]%andb_prop Hc]%andb_prop Hd]%andb_prop [= <- <- <-].
    split; [done|by apply time_shaped_one]. }
  destruct r as [|e r'].
  - destruct (_ && _) eqn:E; [by apply Hone|done].
  - destruct (Py.re_digit a && Py.re_digit b && _ && _ && _) eqn:E2.
    + apply andb_prop in E2 as [[[[Ha Hb]%andb_prop ->%Ascii.eqb_eq]%andb_prop Hd]%andb_prop He].
      intros [= <- <- <-]. split; [done|by apply time_shaped_two].
    + destruct (_ && _) eqn:E; [by apply Hone|done].
Qed.

Lemma time_shaped_inv g1 g2 rest :
  time_shaped g1 g2 →
  Py.time_at (g1 +:+ ":" +:+ g2 +:+ rest) = Some (g1, g2, rest).
Proof.
  intros (Hlen & H1 & Hlen2 & H2).
  destruct g2 as [|d [|e [|? ?]]]; try done.
  apply andb_prop in H2 as [Hd [He _]%andb_prop].
  destruct Hlen as [Hlen|Hlen].
  - destruct g1 as [|a [|? ?]]; try done.
    apply andb_prop in H1 as [Ha _]. by apply time_at_one.
  - destruct g1 as [|a [|b [|? ?]]]; try done.
    apply andb_prop in H1 as [Ha [Hb _]%andb_prop]. by apply time_at_two.
Qed.

Lemma length_0_empty s : String.length s = 0 → s = "".
Proof. by destruct s. Qed.

Lemma occurs_at_0 s g1 g2 :
  occurs_at s 0 g1 g2 ↔ ∃ rest, Py.time_at s = Some (g1, g2, rest).
Proof.
  split.
  - intros (pre & post & -> & ->%length_0_empty & Hs).
    exists post. by apply time_shaped_inv.
  - intros (rest & [-> Hs]%time_at_inv). by exists "", rest.
Qed.

Lemma occurs_at_S c r j g1 g2 :
  occurs_at (String c r) (S j) g1 g2 ↔ occurs_at r j g1 g2.
Proof.
  split.
  - intros (pre & post & E & Hl & Hs). destruct pre as [|c' pre]; [done|].
    injection E as -> ->. injection Hl as <-. by exists pre, post.
  - intros (pre & post & -> & <- & Hs). by exists (String c pre), post.
Qed.

Lemma occurs_at_empty i g1 g2 : ¬ occurs_at "" i g1 g2.
Proof.
  intros (pre & post & E & _ & (Hl & _)).
  destruct pre; [|done]. destruct g1; [|done]. simpl in Hl. lia.
Qed.

Lemma re_search_time_cons c r :
  Py.re_search_time (String c r)
  = match Py.time_at (String c r) with
    | Some (g1, g2, _) => Some (g1, g2)
    | None => Py.re_search_time r
    end.
Proof. reflexivity. Qed.

Lemma re_search_time_None s :
  Py.re_search_time s = None → ∀ i g1 g2, ¬ occurs_at s i g1 g2.
Proof.
  induction s as [|c r IH]; intros H i g1 g2; [apply occurs_at_empty|].
  rewrite re_search_time_cons in H.
  destruct (Py.time_at (String c r)) as [[[? ?] ?]|] eqn:E; [done|].
  destruct i as [|j].
  - rewrite occurs_at_0. intros [rest Hr]. congruence.
  - rewrite occurs_at_S. by apply IH.
Qed.

Lemma re_search_time_Some s g1 g2 :
  Py.re_search_time s = Some (g1, g2) → ∃ i, leftmost_at s i g1 g2.
Proof.
  induction s as [|c r IH]; [done|].
  rewrite re_search_time_cons.
  destruct (Py.time_at (String c r)) as [[[h1 h2] rest]|] eqn:E.
  - intros [= -> ->]. exists 0. split; [|intros; lia].
    apply occurs_at_0. by exists rest.
  - intros [i [Ho Hl]]%IH. exists (S i). split; [by apply occurs_at_S|].
    intros [|j] g1' g2' Hj.
    + rewrite occurs_at_0. intros [rest Hr]. congruence.
    + rewrite occurs_at_S. apply Hl. lia.
Qed.

Lemma re_search_time_leftmost s i g1 g2 :
  leftmost_at s i g1 g2 → Py.re_search_time s = Some (g1, g2).
Proof.
  revert s. induction i as [|i IH]; intros s [Ho Hl].
  - apply occurs_at_0 in Ho as [rest Hr].
    destruct s as [|c r]; [done|]. by rewrite re_search_time_cons, Hr.
  - destruct s as [|c r]; [by apply occurs_at_empty in Ho|].
    rewrite re_search_time_cons.
    destruct (Py.time_at (String c r)) as [[[h1 h2] rest]|] eqn:E.
    + destruct (Hl 0 h1 h2); [lia|]. apply occurs_at_0. by exists rest.
    + apply IH. split; [by apply occurs_at_S in Ho|].
      intros j g1' g2' Hj Hoc. apply (Hl (S j) g1' g2'); [lia|].
      by apply occurs_at_S.
Qed.

Lemma time_shaped_digits g1 g2 :
  time_shaped g1 g2 → all_digits g1 = true ∧ all_digits g2 = true.
Proof.
  intros (Hlen & H1 & Hlen2 & H2). unfold all_digits. rewrite H1, H2.
  destruct g1; [simpl in Hlen; lia|]. by destruct g2.
Qed.

(** What [_validate_time] returns once the search has found its match. *)
Lemma validate_time_found raw g1 g2 :
  Py.re_search_time raw = Some (g1, g2) →
  Vision._validate_time raw
  = Ok (if (decimal g1 <=? 30)%Z && (decimal g2 <=? 59)%Z
        then Py.fmt_d (decimal g1) +:+ ":" +:+ Py.fmt_02d (decimal g2)
        else "").
Proof.
  intros Hs. unfold Vision._validate_time.
  destruct raw as [|c r]; [done|]. cbn [Py.truthy negb]. rewrite Hs.
  apply re_search_time_Some in Hs as (i & (pre & post & _ & _ & Hsh) & _).
  pose proof Hsh as (Hl1 & _ & Hl2 & _).
  apply time_shaped_digits in Hsh as [H1 H2].
  rewrite (int_short_digits _ H1), (int_short_digits _ H2)
    by (apply short_not_over_long; lia).
  cbn [mbind result_bind mret result_ret].
  pose proof (decimal_nonneg g1). pose proof (decimal_nonneg g2).
  rewrite (proj2 (Z.leb_le 0 (decimal g1))), (proj2 (Z.leb_le 0 (decimal g2))) by done.
  cbn [andb]. rewrite andb_true_r.
  by destruct (_ && _).
Qed.

Lemma validate_time_not_found raw :
  Py.re_search_time raw = None → Vision._validate_time raw = Ok "".
Proof.
  intros Hs. unfold Vision._validate_time. rewrite Hs. by destruct (negb _).
Qed.

Ltac each_digit H :=
  apply re_digit_cases in H;
  repeat (apply elem_of_cons in H as [->|H]); [..|by apply elem_of_nil in H].

Lemma fmt_d_one a :
  Py.re_digit a = true → Py.fmt_d (decimal (Py.str1 a)) = Py.str1 a.
Proof. intros Ha. each_digit Ha; by vm_compute. Qed.

Lemma fmt_d_two a b :
  Py.re_digit a = true → Py.re_digit b = true → Ascii.eqb a "0" = false →
  Py.fmt_d (decimal (Py.str2 a b)) = Py.str2 a b.
Proof. intros Ha Hb. each_digit Ha; each_digit Hb; by vm_compute. Qed.

Lemma fmt_02d_two d e :
  Py.re_digit d = true → Py.re_digit e = true →
  Py.fmt_02d (decimal (Py.str2 d e)) = Py.str2 d e.
Proof. intros Hd He. each_digit Hd; each_digit He; by vm_compute. Qed.

(** The times [_validate_time] can write are in normal form. *)
Lemma written_time_normalized m s :
  (0 ≤ m ≤ 30)%Z → (0 ≤ s ≤ 59)%Z →
  normalized_time (Py.fmt_d m +:+ ":" +:+ Py.fmt_02d s) = true.
Proof.
  intros Hm Hs.
  assert (List.forallb (λ m, List.forallb (λ s,
            normalized_time (Py.fmt_d (Z.of_nat m) +:+ ":" +:+ Py.fmt_02d (Z.of_nat s)))
            (seq 0 60)) (seq 0 31) = true) as H by (by vm_compute).
  rewrite List.forallb_forall in H.
  specialize (H (Z.to_nat m)). rewrite List.forallb_forall in H.
  specialize (H ltac:(apply in_seq; lia) (Z.to_nat s) ltac:(apply in_seq; lia)).
  by rewrite !Z2Nat.id in H by lia.
Qed.

(** C7: [_validate_time] never raises.  When the input holds a substring of
    the shape [\d{1,2}:\d{2}], it returns the leftmost one, rewritten as the
    minutes in decimal, a colon and the seconds on two digits, provided the
    minutes are at most 30 and the seconds at most 59, and the empty string
    otherwise; when the input holds no such substring, or is empty, it
    returns the empty string.  What it returns is empty or a time in normal
    form. *)
Theorem validate_time_returns_the_leftmost_time_in_range (raw : string) :
  (∃ out, Vision._validate_time raw = Ok out
          ∧ (out = "" ∨ normalized_time out = true))
  ∧ (∀ i g1 g2, leftmost_at raw i g1 g2 →
       Vision._validate_time raw
       = Ok (if (decimal g1 <=? 30)%Z && (decimal g2 <=? 59)%Z
             then Py.fmt_d (decimal g1) +:+ ":" +:+ Py.fmt_02d (decimal g2)
             else ""))
  ∧ ((∀ i g1 g2, ¬ occurs_at raw i g1 g2) → Vision._validate_time raw = Ok "")
  ∧ (raw = "" → Vision._validate_time raw = Ok "").
Proof.
  split_and!.
  - destruct (Py.re_search_time raw) as [[g1 g2]|] eqn:E.
    + rewrite (validate_time_found _ _ _ E). eexists. split; [done|].
      destruct (_ && _) eqn:R; [right|by left].
      apply andb_prop in R as [R1%Z.leb_le R2%Z.leb_le].
      apply written_time_normalized; split; auto using decimal_nonneg.
    + rewrite (validate_time_not_found _ E). eauto.
  - intros i g1 g2 H. by apply validate_time_found, (re_search_time_leftmost _ i).
  - intros H. apply validate_time_not_found.
    destruct (Py.re_search_time raw) as [[g1 g2]|] eqn:E; [|done].
    apply re_search_time_Some in E as (i & Ho & _). by destruct (H i g1 g2).
  - by intros ->.
Qed.

Lemma leftmost_in_sample : leftmost_at "run 09:05 (12:75)" 4 "09" "05".
Proof.
  split.
  - exists "run ", " (12:75)". split; [reflexivity|]. split; [reflexivity|].
    unfold time_shaped. simpl. auto.
  - intros j g1 g2 Hj.
    do 4 (destruct j as [|j];
          [rewrite ?occurs_at_S, occurs_at_0; intros [rest Hr]; by vm_compute in Hr|]).
    lia.
Qed.

Lemma validate_time_returns_the_leftmost_time_in_range_witness :
  Vision._validate_time "run 09:05 (12:75)" = Ok "9:05".
Proof.
  apply (proj1 (proj2 (validate_time_returns_the_leftmost_time_in_range
                         "run 09:05 (12:75)")) 4 "09" "05").
  apply leftmost_in_sample.
Defined.

Lemma one_digit_minutes a :
  Py.re_digit a = true → (decimal (Py.str1 a) <=? 30)%Z = true.
Proof. intros Ha. each_digit Ha; by vm_compute. Qed.

(** C8: on a time in normal form ([M:SS], or [MM:SS] without a leading zero,
    minutes at most 30 and seconds at most 59) [_validate_time] returns its
    input. *)
Theorem validate_time_keeps_a_normalized_time (x : string)
    (Hx : normalized_time x = true) :
  Vision._validate_time x = Ok x.
Proof.
  destruct x as [|a [|b [|c [|d [|e [|? ?]]]]]]; try done;
    unfold normalized_time in Hx.
  - apply andb_prop in Hx as [[[[Ha ->%Ascii.eqb_eq]%andb_prop Hc]%andb_prop Hd]%andb_prop Hs].
    rewrite (validate_time_found _ (Py.str1 a) (Py.str2 c d)).
    + rewrite (one_digit_minutes a Ha), Hs. cbn [andb].
      by rewrite (fmt_d_one a Ha), (fmt_02d_two c d Hc Hd).
    + by rewrite re_search_time_cons, time_at_one.
  - apply andb_prop in Hx as [[[[[[[Ha Hb]%andb_prop Hz%negb_true_iff]%andb_prop Hm]%andb_prop
        ->%Ascii.eqb_eq]%andb_prop Hd]%andb_prop He]%andb_prop Hs].
    rewrite (validate_time_found _ (Py.str2 a b) (Py.str2 d e)).
    + rewrite Hm, Hs. cbn [andb].
      by rewrite (fmt_d_two a b Ha Hb Hz), (fmt_02d_two d e Hd He).
    + by rewrite re_search_time_cons, time_at_two.
Qed.

Lemma validate_time_keeps_a_normalized_time_witness :
  Vision._validate_time "9:30" = Ok "9:30".
Proof.
  apply (validate_time_keeps_a_normalized_time "9:30"). reflexivity.
Defined.

(** ** The spatial extractor *)

(** C10: the spatial extractor neither caps nor deduplicates its candidates:
    on a sheet of eleven anchors followed by the same name it returns eleven
    records of that name.  The reconcilers do both, whatever the candidates. *)
Theorem spatial_extractor_neither_caps_nor_deduplicates :
  (∃ all_text : list (Spatial.TextItem unit),
      let found := Spatial.extract_soldiers_by_regions (Ok all_text) in
      Spatial.scan all_text = Ok found
      ∧ 10 < length found
      ∧ ¬ NoDup (name <$> found))
  ∧ (∀ candidates : list Soldier,
      length (Endpoint._deduplicate_and_validate candidates) ≤ 10
      ∧ NoDup (name <$> Endpoint._deduplicate_and_validate candidates))
  ∧ (∀ results : list Parser.Extraction,
      length (soldiers (Parser._combine_and_validate results)) ≤ 10
      ∧ NoDup (name <$> soldiers (Parser._combine_and_validate results))).
Proof.
  split_and!.
  - exists repeated_sheet. split_and!.
    + by vm_compute.
    + vm_compute. lia.
    + vm_compute. intros H. apply NoDup_cons in H as [H _]. apply H. by left.
  - intros cands. rewrite deduplicate_and_validate_kept, length_take.
    split; [lia|apply take_kept_NoDup].
  - intros results. rewrite combine_and_validate_kept, length_take.
    split; [lia|apply take_kept_NoDup].
Qed.

(** ** The result object *)

(** What the parser's reconciler reports: the count is the length of the
    list, and success says that the list is not empty. *)
Lemma combine_and_validate_report results :
  let report := Parser._combine_and_validate results in
  total_soldiers report = length (soldiers report)
  ∧ success report = bool_decide (0 < total_soldiers report).
Proof. done. Qed.

Lemma endpoint_report file ocr :
  let report := Endpoint.extract_ippt_data file ocr in
  total_soldiers report = length (soldiers report)
  ∧ success report = bool_decide (0 < total_soldiers report).
Proof. done. Qed.

(** A method that raised, or found nothing, contributes nothing; when all
    three do, the report is the empty one. *)
Lemma combine_and_validate_nothing_found azure pattern fallback :
  azure = Ok [] ∨ (∃ e, azure = Raise e) →
  pattern = Ok [] ∨ (∃ e, pattern = Raise e) →
  fallback = Ok [] ∨ (∃ e, fallback = Raise e) →
  Parser.extract_ippt_data azure pattern fallback
  = mkReport [] 0 "foolproof_multi_layer" false.
Proof. intros [->|[? ->]] [->|[? ->]] [->|[? ->]]; reflexivity. Qed.

Lemma failed_method_counts_for_nothing e pattern fallback :
  Parser.extract_ippt_data (Raise e) pattern fallback
  = Parser.extract_ippt_data (Ok []) pattern fallback.
Proof.
  unfold Parser.extract_ippt_data, Parser._combine_and_validate.
  rewrite !combine_candidates. by destruct pattern, fallback.
Qed.


(** * Further properties *)

(** ** The fixed-anchor strategies *)

Section Collect.
Context {A B : Type} (body : list B → A → result (flow (list B))) (f : A → option B).
Hypothesis body_collects :
  ∀ acc x, body acc x = Ok (Continue (acc ++ option_list (f x))).

End Collect.

Lemma anchored_record_out_of_range lines pos serial :
  length lines ≤ pos + 2 → anchored_record lines (pos, serial) = None.
Proof.
  intros H. unfold anchored_record, slots_read. simpl.
  by rewrite lookup_ge_None_2.
Qed.

Section CollectUntil.
Context {A B : Type} (body : list B → A → result (flow (list B)))
        (f : A → option B) (bad : A → bool) (e : exn).
Hypothesis body_collects :
  ∀ acc x, body acc x = if bad x then Raise e
                        else Ok (Continue (acc ++ option_list (f x))).

(** A loop that raises at the first bad element has collected what comes
    before it. *)
Lemma loop_collects_until xs : ∀ acc,
  loop body xs acc
  = (acc ++ omap f (before bad xs), if existsb bad xs then Some e else None).
Proof.
  induction xs as [|x xs IH]; intros acc; simpl.
  - by rewrite app_nil_r.
  - rewrite body_collects. destruct (bad x); simpl; [by rewrite app_nil_r|].
    rewrite IH, <- app_assoc. by destruct (f x).
Qed.
End CollectUntil.

Lemma before_all {A} (bad : A → bool) xs : existsb bad xs = false → before bad xs = xs.
Proof.
  induction xs as [|x xs IH]; simpl; [done|].
  intros [-> H]%orb_false_elim. by rewrite IH.
Qed.

Lemma before_sublist {A} (bad : A → bool) xs : before bad xs `sublist_of` xs.
Proof.
  induction xs as [|x xs IH]; simpl; [done|].
  destruct (bad x); [apply sublist_nil_l|by apply sublist_skip].
Qed.

Lemma slots_out_of_range lines pos first :
  length lines ≤ pos → slots_refused lines pos first = false.
Proof.
  intros H. unfold slots_refused, slots_refused_by.
  by rewrite !lookup_ge_None_2 by lia.
Qed.

Lemma endpoint_visit_position_collects lines acc p :
  Endpoint.visit_position lines acc p
  = if anchor_refused lines p then Raise ValueError
    else Ok (Continue (acc ++ option_list (anchored_record lines p))).
Proof.
  destruct p as [pos serial]. unfold Endpoint.visit_position, anchor_refused.
  cbn [fst snd]. case_bool_decide.
  - rewrite extract_soldier_at_position_reads.
    destruct (slots_refused _ _ _); [done|]. unfold named.
    cbn [mbind result_bind mret result_ret]. unfold anchored_record. cbn [fst snd].
    destruct (Py.truthy _) eqn:E; [by rewrite E|]. by rewrite app_nil_r.
  - rewrite slots_out_of_range by lia.
    rewrite anchored_record_out_of_range by lia. by rewrite app_nil_r.
Qed.

Lemma parser_visit_position_collects lines acc p :
  Parser.visit_position lines acc p
  = if anchor_refused lines p then Raise ValueError
    else Ok (Continue (acc ++ option_list (anchored_record lines p))).
Proof.
  destruct p as [pos serial]. unfold Parser.visit_position, anchor_refused.
  cbn [fst snd]. case_bool_decide.
  - rewrite extract_soldier_at_position_reads.
    destruct (slots_refused _ _ _); [done|]. unfold named.
    cbn [mbind result_bind mret result_ret]. unfold anchored_record. cbn [fst snd].
    destruct (Py.truthy _) eqn:E; [done|]. by rewrite app_nil_r.
  - rewrite slots_out_of_range by lia.
    rewrite anchored_record_out_of_range by lia. by rewrite app_nil_r.
Qed.

Lemma integration_visit_position_collects lines acc p :
  Integration.visit_position lines acc p
  = if anchor_refused lines p then Raise ValueError
    else Ok (Continue (acc ++ option_list (anchored_record lines p))).
Proof.
  destruct p as [pos serial]. unfold Integration.visit_position, anchor_refused.
  cbn [fst snd]. rewrite inline_soldier_data_reads.
  destruct (slots_refused _ _ _); [done|].
  cbn [mbind result_bind mret result_ret]. unfold anchored_record. cbn [fst snd].
  destruct (Py.truthy _) eqn:E; [done|]. by rewrite app_nil_r.
Qed.


(** The endpoint keeps the records of the anchors before the first one that
    raises; the parser loses them. *)
Lemma endpoint_strategy_anchored lines :
  Endpoint._working_line_based_strategy (Ok lines)
  = omap (anchored_record lines) (before (anchor_refused lines) Positional.positions).
Proof.
  unfold Endpoint._working_line_based_strategy, try_for_each.
  by rewrite (loop_collects_until _ _ _ _ (endpoint_visit_position_collects lines)).
Qed.

Lemma parser_strategy_anchored lines :
  Parser._working_line_based_strategy lines
  = if existsb (anchor_refused lines) Positional.positions then Raise ValueError
    else Ok (anchored_records lines).
Proof.
  unfold Parser._working_line_based_strategy, for_each.
  rewrite (loop_collects_until _ _ _ _ (parser_visit_position_collects lines)).
  destruct (existsb _ _) eqn:E; [done|]. by rewrite before_all.
Qed.

(** X1: the three implementations of the fixed-anchor strategy (the parser's,
    the endpoint's, the integration script's) return the same soldiers, the
    records read at the ten anchors whose name is not empty, in anchor order,
    unless the window of an anchor holds a count line with more digits than
    [int] converts: then the parser and the integration script raise
    ValueError, and the endpoint keeps the records of the anchors before
    that one. *)
Theorem fixed_anchor_strategies_agree (lines : list string) :
  if existsb (anchor_refused lines) Positional.positions
  then Parser._working_line_based_strategy lines = Raise ValueError
       ∧ Integration.parse_ippt_with_working_method lines = Raise ValueError
       ∧ Endpoint._working_line_based_strategy (Ok lines)
         = omap (anchored_record lines)
                (before (anchor_refused lines) Positional.positions)
  else Parser._working_line_based_strategy lines = Ok (anchored_records lines)
       ∧ Integration.parse_ippt_with_working_method lines
         = Ok (mkReport (anchored_records lines) (length (anchored_records lines))
                        "working_line_based_parser" true)
       ∧ Endpoint._working_line_based_strategy (Ok lines) = anchored_records lines.
Proof.
  pose proof (parser_strategy_anchored lines) as HP.
  pose proof (endpoint_strategy_anchored lines) as HE.
  assert (Integration.parse_ippt_with_working_method lines
          = if existsb (anchor_refused lines) Positional.positions
            then Raise ValueError
            else Ok (mkReport (anchored_records lines) (length (anchored_records lines))
                              "working_line_based_parser" true)) as HI.
  { unfold Integration.parse_ippt_with_working_method, for_each.
    rewrite (loop_collects_until _ _ _ _ (integration_visit_position_collects lines)).
    destruct (existsb _ _) eqn:E; [done|]. by rewrite before_all. }
  destruct (existsb _ _) eqn:E; [done|].
  rewrite before_all in HE by done. done.
Qed.



Lemma anchored_record_short lines p :
  p ∈ Positional.positions → length lines ≤ 25 → anchored_record lines p = None.
Proof.
  intros Hp Hlen. destruct p as [pos serial].
  apply anchored_record_out_of_range.
  unfold Positional.positions in Hp.
  repeat (apply elem_of_cons in Hp as [[= -> _]|Hp]; [lia|]).
  by apply elem_of_nil in Hp.
Qed.

Lemma omap_length_le {A B} (f : A → option B) xs : length (omap f xs) ≤ length xs.
Proof.
  induction xs as [|x xs IH]; [done|].
  change (omap f (x :: xs)) with
    (match f x with Some y => y :: omap f xs | None => omap f xs end).
  destruct (f x); simpl; lia.
Qed.

Lemma omap_all_None {A B} (f : A → option B) xs :
  (∀ x, x ∈ xs → f x = None) → omap f xs = [].
Proof.
  induction xs as [|x xs IH]; intros H; simpl; [done|].
  rewrite (H x) by (by left). apply IH. intros y Hy. apply H. by right.
Qed.

(** X3: the soldiers of the fixed-anchor strategy are at most ten, each with
    a non-empty name; there is none when the file could not be read, and none
    when the content has at most 25 lines, the first name line being line 25. *)
Theorem fixed_anchor_strategy_bounds (file : result (list string)) :
  length (Endpoint._working_line_based_strategy file) ≤ 10
  ∧ Forall (λ sd, name sd ≠ "") (Endpoint._working_line_based_strategy file)
  ∧ (∀ lines, file = Ok lines → length lines ≤ 25 →
       Endpoint._working_line_based_strategy file = []).
Proof.
  destruct file as [lines|e].
  - rewrite endpoint_strategy_anchored.
    pose proof (before_sublist (anchor_refused lines) Positional.positions) as Hsub.
    split_and!.
    + etrans; [apply omap_length_le|]. by apply sublist_length in Hsub.
    + apply Forall_forall. intros sd Hsd.
      apply list_elem_of_omap in Hsd as (p & _ & Hp). unfold anchored_record in Hp.
      destruct (Py.truthy _) eqn:E; [|done]. injection Hp as <-.
      by destruct (name _).
    + intros ? [= <-] Hlen. apply omap_all_None.
      intros p Hp. apply anchored_record_short; [|done].
      by eapply elem_of_sublist.
  - simpl. split_and!; [lia|constructor|done].
Qed.

Lemma fixed_anchor_strategy_bounds_witness :
  Endpoint._working_line_based_strategy (Ok ["1"; "ID001"; "PTE JOHN TAN"]) = [].
Proof.
  apply (proj2 (proj2 (fixed_anchor_strategy_bounds (Ok ["1"; "ID001"; "PTE JOHN TAN"])))
           ["1"; "ID001"; "PTE JOHN TAN"]).
  - reflexivity.
  - simpl. lia.
Defined.

(** ** The serial-anchored scan of the endpoint *)

Lemma at_end_cases rest : Py.at_end rest = true → rest = "" ∨ rest = String Py.newline "".
Proof.
  destruct rest as [|c [|? ?]]; simpl; auto; [|done].
  intros ->%Ascii.eqb_eq. by right.
Qed.

Lemma rstrip_cons_nonspace c r :
  Py.isspace c = false → Py.rstrip (String c r) = String c (Py.rstrip r).
Proof. intros Hc. simpl. destruct (Py.rstrip r); [|done]. by rewrite Hc. Qed.

Lemma rstrip_cons_digit c r :
  Py.re_digit c = true → Py.rstrip (String c r) = String c (Py.rstrip r).
Proof. intros Hc. by apply rstrip_cons_nonspace, re_digit_not_space. Qed.

(** On a stripped text, a match of [^\d{1,2}:\d{2}$] is the whole text. *)
Lemma re_match_time_fixed t :
  Py.rstrip t = t → Py.re_match_time t = true → stored_time t.
Proof.
  intros Hfix. unfold Py.re_match_time.
  destruct (Py.time_at t) as [[[g1 g2] rest]|] eqn:E; [|done].
  intros [->| ->]%at_end_cases; apply time_at_inv in E as [Ht Hs].
  - right. exists g1, g2. split; [|done]. rewrite Ht.
    destruct Hs as (_ & _ & Hl & _). by destruct g2 as [|? [|? [|? ?]]].
  - exfalso. destruct Hs as (Hl1 & Hd1 & Hl2 & Hd2).
    destruct g2 as [|d [|e [|? ?]]]; try done.
    apply andb_prop in Hd2 as [Hd [He _]%andb_prop].
    assert (Py.rstrip (String ":" (String d (String e (String Py.newline ""))))
            = String ":" (String d (String e ""))) as Htail.
    { rewrite (rstrip_cons_nonspace ":") by done.
      by rewrite (rstrip_cons_digit d), (rstrip_cons_digit e). }
    destruct Hl1 as [Hl1|Hl1].
    + destruct g1 as [|a [|? ?]]; try done. apply andb_prop in Hd1 as [Ha _].
      subst t. revert Hfix.
      change (String a "" +:+ ":" +:+ String d (String e "") +:+ String Py.newline "")
        with (String a (String ":" (String d (String e (String Py.newline ""))))).
      by rewrite (rstrip_cons_digit a), Htail.
    + destruct g1 as [|a [|b [|? ?]]]; try done.
      apply andb_prop in Hd1 as [Ha [Hb _]%andb_prop].
      subst t. revert Hfix.
      change (String a (String b "") +:+ ":" +:+ String d (String e "") +:+ String Py.newline "")
        with (String a (String b (String ":" (String d (String e (String Py.newline "")))))).
      by rewrite (rstrip_cons_digit a), (rstrip_cons_digit b), Htail.
Qed.

Lemma re_match_time_strip raw :
  Py.re_match_time (Py.strip raw) = true → stored_time (Py.strip raw).
Proof. apply re_match_time_fixed, rstrip_strip. Qed.

Lemma scanned_blank m : (0 ≤ m)%Z → scanned m blank_soldier.
Proof. intros H. unfold scanned, stored_time. simpl. auto with lia. Qed.

Ltac scan_done :=
  intros [= <-]; unfold scanned in *; simpl; intuition (auto with lia).

Lemma nearby_step_scans all_text sd i f :
  scanned 200 sd → Endpoint.nearby_step all_text sd i = Ok f →
  scanned 200 (flow_state f).
Proof.
  intros Hsd. unfold Endpoint.nearby_step.
  destruct (py_index all_text i) as [raw|e]; [|done].
  cbn [fmap result_fmap mbind result_bind mret result_ret].
  destruct (is_serial (Py.strip raw)) as [[]|]; [scan_done| |done].
  destruct (looks_like_name _).
  { destruct (negb _); scan_done. }
  rewrite re_match_digits_strip. destruct (all_digits _) eqn:E.
  { convert_digits E.
    pose proof (decimal_nonneg (Py.strip raw)).
    destruct (_ && _ && _) eqn:E1.
    - apply andb_prop in E1 as [[?%Z.leb_le ?%Z.leb_le]%andb_prop _]. scan_done.
    - destruct ((_ <=? 200)%Z && _) eqn:E2; [|scan_done].
      apply andb_prop in E2 as [?%Z.leb_le _]. scan_done. }
  destruct (Py.re_match_time _) eqn:Et; [|scan_done].
  apply re_match_time_strip in Et. destruct (negb _); scan_done.
Qed.

Lemma extract_nearby_azure_data_scans all_text index serial sd :
  Endpoint._extract_nearby_azure_data all_text index serial = Ok (Some sd) →
  name sd ≠ "" ∧ scanned 200 sd.
Proof.
  unfold Endpoint._extract_nearby_azure_data.
  destruct (for_each _ _ _) as [sd'|e] eqn:E; [|done].
  cbn [mbind result_bind mret result_ret]. destruct (Py.truthy _) eqn:Hn; [|done].
  intros [= <-]. split; [by destruct (name sd')|]. revert E.
  apply (for_each_keeps _ (scanned 200)); [|by apply scanned_blank].
  intros s x f. apply nearby_step_scans.
Qed.

Lemma visit_text_scans all_text acc it f :
  Forall (λ sd, name sd ≠ "" ∧ scanned 200 sd) acc →
  Endpoint.visit_text all_text acc it = Ok f →
  Forall (λ sd, name sd ≠ "" ∧ scanned 200 sd) (flow_state f).
Proof.
  intros Hacc. unfold Endpoint.visit_text. destruct it as [i text].
  destruct (is_serial _) as [[]|]; [|by intros [= <-]|done].
  cbn [mbind result_bind mret result_ret].
  destruct (Py.int _) as [serial|]; [|done].
  cbn [mbind result_bind mret result_ret].
  destruct (Endpoint._extract_nearby_azure_data _ _ _) as [[sd|]|] eqn:E;
    [| by intros [= <-] | done].
  cbn [mbind result_bind mret result_ret].
  destruct (Py.truthy _); intros [= <-]; [|done]. simpl.
  apply Forall_app. split; [done|]. apply Forall_singleton.
  by eapply extract_nearby_azure_data_scans.
Qed.

(** X4: every candidate of the endpoint's OCR strategy has a non-empty name,
    sit-ups that are 0 or within 5..80, push-ups within 0..200, and a run
    time that is empty or exactly one or two digits, a colon and two digits;
    so the range tests of the validator never reject one of them. *)
Theorem ocr_strategy_candidates_are_in_scan_ranges (ocr : result (list string)) :
  Forall (λ sd, name sd ≠ "" ∧ scanned 200 sd) (Endpoint._azure_ocr_strategy ocr).
Proof.
  destruct ocr as [all_text|e]; simpl; [|constructor].
  apply (try_for_each_keeps _ (Forall (λ sd, name sd ≠ "" ∧ scanned 200 sd)));
    [|constructor].
  intros s x f. apply visit_text_scans.
Qed.

(** ** What the scans can raise *)

Section LoopRaise.
Context {A S : Type} (body : S → A → result (flow S)).

Lemma loop_raises (P : exn → Prop) xs :
  (∀ s x e, x ∈ xs → body s x = Raise e → P e) →
  ∀ s e, snd (loop body xs s) = Some e → P e.
Proof.
  induction xs as [|x xs IH]; intros Hb s e; simpl; [done|].
  destruct (body s x) as [[s'|s']|e'] eqn:E; simpl.
  - apply IH. intros s0 y e0 Hy. apply Hb. by right.
  - done.
  - intros [= <-]. eapply Hb; [|done]. by left.
Qed.

Lemma loop_completes xs :
  (∀ s x, x ∈ xs → ∃ f, body s x = Ok f) →
  ∀ s, snd (loop body xs s) = None.
Proof.
  induction xs as [|x xs IH]; intros Hb s; simpl; [done|].
  destruct (Hb s x) as [[s'|s'] ->]; [by left| |done].
  apply IH. intros s0 y Hy. apply Hb. by right.
Qed.

Lemma for_each_raises (P : exn → Prop) xs s e :
  (∀ s x e, x ∈ xs → body s x = Raise e → P e) →
  for_each body xs s = Raise e → P e.
Proof.
  intros Hb. unfold for_each. pose proof (loop_raises P xs Hb s) as H.
  destruct (loop body xs s) as [s' [e'|]]; [|done]. intros [= <-]. by apply H.
Qed.

Lemma for_each_completes xs s :
  (∀ s x, x ∈ xs → ∃ f, body s x = Ok f) →
  for_each body xs s = Ok (try_for_each body xs s).
Proof.
  intros Hb. unfold for_each, try_for_each.
  pose proof (loop_completes xs Hb s) as H.
  destruct (loop body xs s) as [s' [e'|]]; [done|done].
Qed.
End LoopRaise.

Lemma elem_of_py_range i a b : i ∈ py_range a b → a ≤ i < b.
Proof. unfold py_range. rewrite elem_of_seq. lia. Qed.

Lemma isdigit_char_plain c :
  Py.isdigit_char c = true →
  Py.isspace c = false ∧ Ascii.eqb c "+" = false ∧ Ascii.eqb c "-" = false
  ∧ Ascii.eqb c "_" = false.
Proof. destruct c as [[] [] [] [] [] [] [] []]; vm_compute; intuition congruence. Qed.

Lemma rstrip_isdigit s : Py.all_chars Py.isdigit_char s = true → Py.rstrip s = s.
Proof.
  induction s as [|c r IH]; [done|]. simpl Py.all_chars.
  intros [Hc Hr]%andb_prop. apply isdigit_char_plain in Hc as (Hc & _).
  by rewrite rstrip_cons_nonspace, IH.
Qed.

Lemma strip_isdigit s : Py.all_chars Py.isdigit_char s = true → Py.strip s = s.
Proof.
  intros H. unfold Py.strip.
  assert (Py.lstrip s = s) as ->; [|by apply rstrip_isdigit].
  destruct s as [|c r]; [done|]. simpl in *.
  apply andb_prop in H as [Hc _]. apply isdigit_char_plain in Hc as (Hc & _).
  by rewrite Hc.
Qed.

Lemma int_space_isspace c : Py.isspace c = false → Py.int_space c = false.
Proof. destruct c as [[] [] [] [] [] [] [] []]; vm_compute; congruence. Qed.

Lemma int_rskip_cons_nonspace c r :
  Py.int_space c = false → Py.int_rskip (String c r) = String c (Py.int_rskip r).
Proof. intros H. simpl. rewrite H. by destruct (Py.int_rskip r). Qed.

Lemma int_skip_isdigit s :
  Py.all_chars Py.isdigit_char s = true → Py.int_rskip (Py.int_lskip s) = s.
Proof.
  intros H. assert (Py.int_lskip s = s) as ->.
  { destruct s as [|c r]; [done|]. simpl in *.
    apply andb_prop in H as [Hc _]. apply isdigit_char_plain in Hc as (Hc & _).
    by rewrite (int_space_isspace c Hc). }
  induction s as [|c r IH]; [done|]. simpl Py.all_chars in H.
  apply andb_prop in H as [Hc Hr]. apply isdigit_char_plain in Hc as (Hc & _).
  by rewrite int_rskip_cons_nonspace, IH; [| |apply int_space_isspace].
Qed.

Lemma int_no_sign c r :
  Ascii.eqb c "+" = false → Ascii.eqb c "-" = false →
  Py.int_rskip (Py.int_lskip (String c r)) = String c r →
  Py.int (String c r) = Py.int_literal (String c r).
Proof.
  intros Hp Hm Hs. unfold Py.int. rewrite Hs.
  destruct c as [[] [] [] [] [] [] [] []]; try reflexivity;
    [by vm_compute in Hm|by vm_compute in Hp].
Qed.

Lemma int_digits_pseudo s : ∀ seen acc,
  Py.all_chars Py.isdigit_char s = true → Py.all_chars Py.re_digit s = false →
  Py.int_digits seen acc s = Raise ValueError.
Proof.
  induction s as [|c r IH]; intros seen acc; [done|].
  simpl Py.all_chars. intros [Hc Hr]%andb_prop Hd. simpl.
  destruct (Py.re_digit c) eqn:E; [by apply IH|].
  apply isdigit_char_plain in Hc as (_ & _ & _ & ->). done.
Qed.

Lemma all_digits_isdigit t : all_digits t = true → Py.isdigit t = true.
Proof.
  unfold all_digits, Py.isdigit. destruct t as [|c r]; [done|].
  rewrite andb_true_l. generalize (String c r). intros s.
  induction s as [|a s IH]; [done|]. simpl.
  intros [Ha Hs]%andb_prop. rewrite IH by done.
  unfold Py.isdigit_char. by rewrite Ha.
Qed.

(** The serial test raises exactly on a text that [str.isdigit] accepts and
    [int] rejects. *)
Lemma is_serial_spec t :
  is_serial t =
  if rejected_number t then Raise ValueError
  else Ok (all_digits t && (1 <=? decimal t)%Z && (decimal t <=? 10)%Z).
Proof.
  unfold is_serial, rejected_number, pseudo_number, over_long_number.
  destruct (all_digits t) eqn:Hd.
  - rewrite (all_digits_isdigit _ Hd), (int_all_digits _ Hd). cbn [negb andb orb].
    by destruct (over_long t).
  - cbn [negb andb orb]. rewrite andb_true_r, orb_false_r.
    destruct (Py.isdigit t) eqn:Hi; [|done].
    destruct t as [|c r]; [done|]. unfold Py.isdigit in Hi.
    unfold all_digits in Hd. simpl Py.truthy in Hd. rewrite andb_true_l in Hd.
    pose proof Hi as [Hc _]%andb_prop.
    apply isdigit_char_plain in Hc as (_ & Hp & Hm & _).
    rewrite int_no_sign; [|done|done|by apply int_skip_isdigit].
    unfold Py.int_literal. by rewrite int_digits_pseudo.
Qed.

Lemma is_serial_raises t e : is_serial t = Raise e → e = ValueError.
Proof.
  rewrite is_serial_spec. destruct (rejected_number t); [|done]. by intros [= <-].
Qed.

Lemma is_serial_rejected t : rejected_number t = true → is_serial t = Raise ValueError.
Proof. intros H. by rewrite is_serial_spec, H. Qed.

Lemma rejected_digits t :
  all_digits t = true → rejected_number t = over_long t.
Proof.
  intros Hd. unfold rejected_number, pseudo_number, over_long_number.
  rewrite Hd. cbn [negb]. by rewrite andb_false_r.
Qed.

Lemma is_serial_plain t :
  rejected_number t = false →
  ∃ b, is_serial t = Ok b ∧ (b = true → all_digits t = true ∧ over_long t = false).
Proof.
  intros H. rewrite is_serial_spec, H. eexists. split; [done|].
  intros [[Hd _]%andb_prop _]%andb_prop. split; [done|].
  by rewrite <- rejected_digits.
Qed.

Lemma is_serial_spec_true t :
  is_serial t = Ok true → all_digits t = true ∧ over_long t = false.
Proof.
  rewrite is_serial_spec. destruct (rejected_number t) eqn:R; [done|].
  intros [= [[Hd _]%andb_prop _]%andb_prop]. split; [done|].
  by rewrite <- rejected_digits.
Qed.

(** In a goal about a text that is not rejected: the conversion of a line of
    digits returns. *)
Ltac convert_plain R E :=
  rewrite (int_short_digits _ E) by (by rewrite <- (rejected_digits _ E), R);
  cbn [mbind result_bind mret result_ret].

Lemma nearby_step_raises all_text sd i e :
  i < length all_text → Endpoint.nearby_step all_text sd i = Raise e → e = ValueError.
Proof.
  intros Hi. unfold Endpoint.nearby_step, py_index.
  apply lookup_lt_is_Some_2 in Hi as [raw ->].
  cbn [fmap result_fmap mbind result_bind mret result_ret].
  destruct (is_serial (Py.strip raw)) as [[]|] eqn:Es; [done| |].
  - destruct (looks_like_name _); [by destruct (negb _)|].
    rewrite re_match_digits_strip. destruct (all_digits _) eqn:E.
    + convert_digits E.
      destruct (_ && _ && _); [done|]. by destruct (_ && _).
    + destruct (Py.re_match_time _); [|done]. by destruct (negb _).
  - cbn [mbind result_bind]. intros [= <-]. by apply is_serial_raises in Es.
Qed.

Lemma nearby_step_completes all_text sd i :
  (∀ t, t ∈ all_text → rejected_number (Py.strip t) = false) →
  i < length all_text → ∃ f, Endpoint.nearby_step all_text sd i = Ok f.
Proof.
  intros Hplain Hi. unfold Endpoint.nearby_step, py_index.
  apply lookup_lt_is_Some_2 in Hi as [raw Hraw]. rewrite Hraw.
  apply list_elem_of_lookup_2 in Hraw.
  cbn [fmap result_fmap mbind result_bind mret result_ret].
  pose proof (Hplain raw Hraw) as R.
  destruct (is_serial_plain _ R) as ([] & -> & _);
    cbn [mbind result_bind mret result_ret]; [by eexists|].
  destruct (looks_like_name _); [destruct (negb _); by eexists|].
  rewrite re_match_digits_strip. destruct (all_digits _) eqn:E.
  - convert_plain R E.
    destruct (_ && _ && _); [by eexists|]. destruct (_ && _); by eexists.
  - destruct (Py.re_match_time _); [|by eexists]. destruct (negb _); by eexists.
Qed.

Lemma extract_nearby_azure_data_raises all_text index serial e :
  Endpoint._extract_nearby_azure_data all_text index serial = Raise e → e = ValueError.
Proof.
  unfold Endpoint._extract_nearby_azure_data.
  destruct (for_each _ _ _) as [sd|e'] eqn:E; [done|].
  cbn [mbind result_bind]. intros [= <-]. revert E.
  apply (for_each_raises _ (λ e, e = ValueError)).
  intros s i e Hi. apply nearby_step_raises.
  apply elem_of_py_range in Hi. lia.
Qed.

Lemma extract_nearby_azure_data_completes all_text index serial :
  (∀ t, t ∈ all_text → rejected_number (Py.strip t) = false) →
  ∃ found, Endpoint._extract_nearby_azure_data all_text index serial = Ok found.
Proof.
  intros Hplain. unfold Endpoint._extract_nearby_azure_data.
  rewrite for_each_completes.
  - cbn [mbind result_bind mret result_ret]. by eexists.
  - intros s i Hi. apply nearby_step_completes; [done|].
    apply elem_of_py_range in Hi. lia.
Qed.

Lemma elem_of_enumerate {A} (xs : list A) i x : (i, x) ∈ enumerate xs → x ∈ xs.
Proof. unfold enumerate. apply elem_of_zip_r. Qed.

(** X5: a scan of the endpoint's OCR strategy indexes only inside the text:
    the only exception it can raise is the ValueError of [int].  When no line
    is accepted by [str.isdigit] and rejected by [int], for a superscript
    digit among its digits or for more than 4300 digits, the strategy visits
    every line: no exception cuts its loop short. *)
Theorem ocr_strategy_raises_only_on_rejected_numbers (all_text : list string) :
  (∀ index serial e,
      Endpoint._extract_nearby_azure_data all_text index serial = Raise e →
      e = ValueError)
  ∧ ((∀ t, t ∈ all_text → rejected_number (Py.strip t) = false) →
     for_each (Endpoint.visit_text all_text) (enumerate all_text) []
     = Ok (Endpoint._azure_ocr_strategy (Ok all_text))).
Proof.
  split; [intros index serial e; apply extract_nearby_azure_data_raises|].
  intros Hplain. apply for_each_completes. intros acc [i text] Hin.
  apply elem_of_enumerate in Hin. unfold Endpoint.visit_text.
  destruct (is_serial_plain _ (Hplain text Hin)) as ([] & -> & Hd);
    cbn [mbind result_bind mret result_ret]; [|by eexists].
  destruct (Hd eq_refl) as [Hd1 Hd2]. rewrite (int_short_digits _ Hd1 Hd2).
  cbn [mbind result_bind mret result_ret].
  destruct (extract_nearby_azure_data_completes all_text i (decimal (Py.strip text)) Hplain)
    as [[sd|] ->]; cbn [mbind result_bind mret result_ret]; [|by eexists].
  destruct (Py.truthy _); by eexists.
Qed.

Lemma ocr_strategy_raises_only_on_rejected_numbers_witness :
  for_each (Endpoint.visit_text ["1"; "PTE JOHN TAN"; "35"])
           (enumerate ["1"; "PTE JOHN TAN"; "35"]) []
  = Ok (Endpoint._azure_ocr_strategy (Ok ["1"; "PTE JOHN TAN"; "35"])).
Proof.
  apply (proj2 (ocr_strategy_raises_only_on_rejected_numbers ["1"; "PTE JOHN TAN"; "35"])).
  intros t Ht.
  repeat (apply elem_of_cons in Ht as [->|Ht]; [reflexivity|]).
  by apply elem_of_nil in Ht.
Defined.

(** ** More on the two reconcilers *)

Lemma kept_sublist valid cands : ∀ seen, kept valid seen cands `sublist_of` cands.
Proof.
  induction cands as [|s rest IH]; intros seen; simpl; [constructor|].
  destruct (_ && _ && _); [by apply sublist_skip|by apply sublist_cons].
Qed.

Lemma kept_fixed valid l : ∀ seen,
  NoDup (name <$> l) →
  (∀ r, r ∈ l → valid r = true ∧ Py.truthy (name r) = true ∧ name r ∉ seen) →
  kept valid seen l = l.
Proof.
  induction l as [|s rest IH]; intros seen Hnd Hall; simpl; [done|].
  destruct (Hall s) as (-> & -> & Hs); [by left|].
  rewrite (bool_decide_eq_true_2 _ Hs). simpl. f_equal.
  apply NoDup_cons in Hnd as [Hfresh Hnd]. apply IH; [done|].
  intros r Hr. destruct (Hall r) as (? & ? & ?); [by right|].
  split_and!; [done|done|]. rewrite not_elem_of_union, not_elem_of_singleton.
  split; [|done]. intros Hn. apply Hfresh. rewrite <- Hn.
  apply list_elem_of_fmap. by exists r.
Qed.

Lemma take_kept_fixed valid n cands :
  kept valid ∅ (take n (kept valid ∅ cands)) = take n (kept valid ∅ cands).
Proof.
  apply kept_fixed; [apply take_kept_NoDup|].
  intros r Hr. pose proof (elem_of_take_kept _ _ _ _ _ Hr) as [Hin Hv].
  split_and!; [done| |apply not_elem_of_empty].
  apply elem_of_take in Hr as (i & Hi & _). apply list_elem_of_lookup_2 in Hi.
  by apply kept_spec in Hi as (_ & _ & ? & _).
Qed.

Lemma validate_soldier_plausible s :
  Endpoint._validate_soldier s = true → plausible s.
Proof.
  unfold Endpoint._validate_soldier, plausible.
  destruct (negb _ || (_ <? 2)) eqn:E1; [done|].
  apply orb_false_elim in E1 as [_ Hl%Nat.ltb_ge].
  destruct (negb _) eqn:E2; [done|]. intros _. split; [done|].
  apply negb_false_iff in E2.
  apply orb_prop in E2 as [[?%Z.ltb_lt|?%Z.ltb_lt]%orb_prop|Ht]; auto.
  right; right. by destruct (run_time s).
Qed.

Lemma validate_soldier_data_plausible s :
  Parser._validate_soldier_data s = true → plausible s.
Proof.
  unfold Parser._validate_soldier_data, plausible.
  destruct (negb _ || (_ <? 2)) eqn:E1; [done|].
  apply orb_false_elim in E1 as [_ Hl%Nat.ltb_ge].
  destruct (negb _) eqn:E2; [done|]. intros _. split; [done|].
  apply negb_false_iff in E2.
  apply orb_prop in E2 as [[?%Z.ltb_lt|?%Z.ltb_lt]%orb_prop|Ht]; auto.
  right; right. by destruct (run_time s).
Qed.

(** X6: what a reconciler returns is a sublist of its candidates, in the order
    it visits them: nothing is invented, merged or reordered; and every
    record it returns has a name of at least two characters and a score or a
    run time. *)
Theorem reconciled_output_is_a_validated_sublist :
  (∀ candidates : list Soldier,
      Endpoint._deduplicate_and_validate candidates `sublist_of` candidates
      ∧ Forall plausible (Endpoint._deduplicate_and_validate candidates))
  ∧ (∀ results : list Parser.Extraction,
      soldiers (Parser._combine_and_validate results) `sublist_of` prioritized results
      ∧ Forall plausible (soldiers (Parser._combine_and_validate results))).
Proof.
  split.
  - intros cands. rewrite deduplicate_and_validate_kept. split.
    + etrans; [apply sublist_take|apply kept_sublist].
    + apply Forall_forall. intros r [_ Hv]%elem_of_take_kept.
      by apply validate_soldier_plausible.
  - intros results. rewrite combine_and_validate_kept. split.
    + etrans; [apply sublist_take|apply kept_sublist].
    + apply Forall_forall. intros r [_ Hv]%elem_of_take_kept.
      by apply validate_soldier_data_plausible.
Qed.

(** X7: reconciling is idempotent: the endpoint's deduplication returns its
    own output unchanged, and the parser's reconciler, given its own output
    as the result of one known method, returns the same soldiers. *)
Theorem reconciling_is_idempotent :
  (∀ candidates : list Soldier,
      Endpoint._deduplicate_and_validate (Endpoint._deduplicate_and_validate candidates)
      = Endpoint._deduplicate_and_validate candidates)
  ∧ (∀ results : list Parser.Extraction,
      soldiers (Parser._combine_and_validate
                  [Parser.mkExtraction (soldiers (Parser._combine_and_validate results))
                                       "azure_ocr"])
      = soldiers (Parser._combine_and_validate results)).
Proof.
  split.
  - intros cands. rewrite !deduplicate_and_validate_kept, take_kept_fixed.
    by rewrite take_take, Nat.min_id.
  - intros results. rewrite !combine_and_validate_kept.
    unfold prioritized. simpl. rewrite !app_nil_r, take_kept_fixed.
    by rewrite take_take, Nat.min_id.
Qed.


(** The soldiers one method contributes: those of the results that bear its
    name, result by result. *)
Lemma prioritized_by_method results :
  prioritized results
  = (results ≫= λ r, if String.eqb (Parser.ex_method r) "azure_ocr"
                     then Parser.ex_soldiers r else [])
    ++ (results ≫= λ r, if String.eqb (Parser.ex_method r) "pattern_based"
                        then Parser.ex_soldiers r else [])
    ++ (results ≫= λ r, if String.eqb (Parser.ex_method r) "fallback"
                        then Parser.ex_soldiers r else []).
Proof. unfold prioritized, Parser.method_priority. simpl. by rewrite app_nil_r. Qed.

Lemma combine_and_validate_eta results :
  Parser._combine_and_validate results
  = let s := take 10 (kept Parser._validate_soldier_data ∅ (prioritized results)) in
    mkReport s (length s) "foolproof_multi_layer" (bool_decide (0 < length s)).
Proof.
  unfold Parser._combine_and_validate. rewrite combine_candidates.
  change Parser.accept_step with (keep_step Parser._validate_soldier_data).
  by rewrite foldl_keep_step.
Qed.

Lemma bind_known m results :
  m ∈ Parser.method_priority →
  (filter (λ r, known_method r = true) results
     ≫= λ r, if String.eqb (Parser.ex_method r) m then Parser.ex_soldiers r else [])
  = (results ≫= λ r, if String.eqb (Parser.ex_method r) m then Parser.ex_soldiers r else []).
Proof.
  intros Hm. induction results as [|r rs IH]; [done|].
  rewrite filter_cons. destruct (decide _) as [Hk|Hk].
  - change (mbind ?g (r :: ?k)) with (g r ++ mbind g k). by rewrite IH.
  - rewrite IH. change (mbind ?g (r :: rs)) with (g r ++ mbind g rs). cbv beta.
    destruct (String.eqb_spec (Parser.ex_method r) m) as [E|E]; [|done].
    destruct Hk. unfold known_method. apply bool_decide_eq_true_2. by rewrite E.
Qed.

(** X8: [_combine_and_validate] looks only at the results that bear one of
    its three method names: a result under any other name, such as the one a
    failed method returns, changes nothing, whatever soldiers it carries. *)
Theorem results_of_unknown_methods_are_ignored (results : list Parser.Extraction) :
  Parser._combine_and_validate (filter (λ r, known_method r = true) results)
  = Parser._combine_and_validate results.
Proof.
  rewrite !combine_and_validate_eta, !prioritized_by_method.
  rewrite !bind_known; [done|..]; unfold Parser.method_priority;
    repeat constructor.
Qed.

Lemma bind_method_permutation m (results results' : list Parser.Extraction) :
  results ≡ₚ results' → NoDup (Parser.ex_method <$> results) →
  (results ≫= λ r, if String.eqb (Parser.ex_method r) m then Parser.ex_soldiers r else [])
  = (results' ≫= λ r, if String.eqb (Parser.ex_method r) m then Parser.ex_soldiers r else []).
Proof.
  induction 1 as [|x l l' Hp IH|x y l|l l' l'' Hp1 IH1 Hp2 IH2]; intros Hnd.
  - done.
  - change (mbind ?g (x :: ?k)) with (g x ++ mbind g k).
    rewrite fmap_cons in Hnd. apply NoDup_cons in Hnd as [_ Hnd]. by rewrite IH.
  - change (mbind ?g (?a :: ?b :: ?k)) with (g a ++ g b ++ mbind g k). cbv beta.
    rewrite !fmap_cons in Hnd. apply NoDup_cons in Hnd as [Hxy _].
    destruct (String.eqb_spec (Parser.ex_method y) m) as [Ey|Ey];
      destruct (String.eqb_spec (Parser.ex_method x) m) as [Ex|Ex];
      simpl; rewrite ?app_nil_r; try done.
    destruct Hxy. rewrite Ey, <- Ex. by left.
  - rewrite IH1 by done. apply IH2. by rewrite <- Hp1.
Qed.

(** X9: among results of distinct methods, the priority is decided by the
    method names, not by the order of the list: [_combine_and_validate]
    returns the same result for any reordering of them. *)
Theorem priority_is_by_method_name (results results' : list Parser.Extraction)
    (Hperm : results ≡ₚ results')
    (Hdistinct : NoDup (Parser.ex_method <$> results)) :
  Parser._combine_and_validate results' = Parser._combine_and_validate results.
Proof.
  rewrite !combine_and_validate_eta, !prioritized_by_method.
  by rewrite !(bind_method_permutation _ results results').
Qed.

Lemma priority_is_by_method_name_witness :
  let a := Parser.mkExtraction [mkSoldier "JOHN TAN" 35 40 "9:30"] "azure_ocr" in
  let p := Parser.mkExtraction [mkSoldier "JOHN TAN" 38 40 "9:30"] "pattern_based" in
  Parser._combine_and_validate [p; a] = Parser._combine_and_validate [a; p].
Proof.
  intros a p. apply (priority_is_by_method_name [a; p] [p; a]).
  - apply perm_swap.
  - simpl. compute_done.
Defined.

(** ** The validators of the vision path *)

Lemma validate_number_bounds value min_val max_val :
  (min_val ≤ max_val)%Z →
  (min_val ≤ Vision._validate_number value min_val max_val ≤ max_val)%Z.
Proof.
  intros H. unfold Vision._validate_number. destruct (Vision.to_int value); lia.
Qed.

Lemma validate_time_total raw :
  ∃ out, Vision._validate_time raw = Ok out
         ∧ (out = "" ∨ normalized_time out = true).
Proof.
  destruct (Py.re_search_time raw) as [[g1 g2]|] eqn:E.
  - rewrite (validate_time_found _ _ _ E). eexists. split; [done|].
    destruct (_ && _) eqn:R; [right|by left].
    apply andb_prop in R as [R1%Z.leb_le R2%Z.leb_le].
    apply written_time_normalized; split; auto using decimal_nonneg.
  - rewrite (validate_time_not_found _ E). eauto.
Qed.

Lemma written_time_fixed m s :
  (0 ≤ m ≤ 30)%Z → (0 ≤ s ≤ 59)%Z →
  Vision._validate_time (Py.fmt_d m +:+ ":" +:+ Py.fmt_02d s)
  = Ok (Py.fmt_d m +:+ ":" +:+ Py.fmt_02d s).
Proof.
  intros Hm Hs.
  assert (List.forallb (λ m, List.forallb (λ s,
            match Vision._validate_time
                    (Py.fmt_d (Z.of_nat m) +:+ ":" +:+ Py.fmt_02d (Z.of_nat s)) with
            | Ok out => String.eqb out (Py.fmt_d (Z.of_nat m) +:+ ":" +:+ Py.fmt_02d (Z.of_nat s))
            | Raise _ => false
            end) (seq 0 60)) (seq 0 31) = true) as H by (by vm_compute).
  rewrite List.forallb_forall in H.
  specialize (H (Z.to_nat m)). rewrite List.forallb_forall in H.
  specialize (H ltac:(apply in_seq; lia) (Z.to_nat s) ltac:(apply in_seq; lia)).
  rewrite !Z2Nat.id in H by lia.
  destruct (Vision._validate_time _) as [out|]; [|done].
  by apply String.eqb_eq in H as ->.
Qed.

(** X10: [_validate_time] is idempotent: applied to what it returned, it
    returns the same string. *)
Theorem validate_time_is_idempotent (raw out : string)
    (Hout : Vision._validate_time raw = Ok out) :
  Vision._validate_time out = Ok out.
Proof.
  destruct (Py.re_search_time raw) as [[g1 g2]|] eqn:E.
  - rewrite (validate_time_found _ _ _ E) in Hout.
    destruct (_ && _) eqn:R; injection Hout as <-; [|done].
    apply andb_prop in R as [R1%Z.leb_le R2%Z.leb_le].
    apply written_time_fixed; split; auto using decimal_nonneg.
  - rewrite (validate_time_not_found _ E) in Hout. by injection Hout as <-.
Qed.

Lemma validate_time_is_idempotent_witness :
  Vision._validate_time "9:05" = Ok "9:05".
Proof.
  apply (validate_time_is_idempotent "run 09:05 (12:75)" "9:05"). reflexivity.
Defined.

Lemma clean_step_keeps acc soldier f :
  Forall cleaned acc → Vision.clean_step acc soldier = Ok f →
  Forall cleaned (flow_state f).
Proof.
  intros Hacc. unfold Vision.clean_step.
  destruct (Vision.raw_name soldier) as [n|]; [|by intros [= <-]].
  destruct (negb _); [by intros [= <-]|].
  destruct (validate_time_total (default "" (Vision.raw_run_time soldier)))
    as (t & -> & Ht).
  cbn [mbind result_bind mret result_ret sit_up_reps push_up_reps run_time].
  destruct (_ || _ || _) eqn:E; intros [= <-]; [|done]. simpl.
  apply Forall_app. split; [done|]. apply Forall_singleton. unfold cleaned. simpl.
  pose proof (validate_number_bounds (Vision.raw_sit_up_reps soldier) 0 200 ltac:(lia)).
  pose proof (validate_number_bounds (Vision.raw_push_up_reps soldier) 0 200 ltac:(lia)).
  split_and!; try lia; [done|].
  apply orb_prop in E as [[?%Z.ltb_lt|?%Z.ltb_lt]%orb_prop|E]; auto.
  right; right. by destruct t.
Qed.

Lemma clean_step_completes acc soldier : ∃ f, Vision.clean_step acc soldier = Ok f.
Proof.
  unfold Vision.clean_step.
  destruct (Vision.raw_name soldier) as [n|]; [|by eexists].
  destruct (negb _); [by eexists|].
  destruct (validate_time_total (default "" (Vision.raw_run_time soldier)))
    as (t & -> & _).
  cbn [mbind result_bind mret result_ret]. destruct (_ || _ || _); by eexists.
Qed.

(** X11: on soldier objects whose name and run time are strings or absent
    and whose counts are integers, strings, [None], lists or objects, the
    cleaning of the vision path does not raise and returns at most 10
    records, each with both counts within 0..200, a run time that is empty or
    in normal form (minutes at most 30, seconds at most 59), and a score or a
    run time. *)
Theorem cleaned_soldiers_are_validated (soldiers : list Vision.RawSoldier) :
  ∃ out, Vision._validate_and_clean_soldiers soldiers = Ok out
         ∧ length out ≤ 10 ∧ Forall cleaned out.
Proof.
  unfold Vision._validate_and_clean_soldiers.
  rewrite for_each_completes by (intros; apply clean_step_completes).
  eexists. split; [done|]. split; [rewrite length_take; lia|].
  apply Forall_take. apply (try_for_each_keeps _ (Forall cleaned)); [|constructor].
  intros s x f. apply clean_step_keeps.
Qed.

(** ** The spatial scan *)

Section SpatialScan.
Context {B : Type}.
Implicit Types all_text : list (Spatial.TextItem B).

Lemma near_step_scans all_text sd i f :
  scanned 2000 sd → Spatial.near_step all_text sd i = Ok f →
  scanned 2000 (flow_state f).
Proof.
  intros Hsd. unfold Spatial.near_step.
  destruct (py_index all_text i) as [item|e]; [|done].
  cbn [fmap result_fmap mbind result_bind mret result_ret compose].
  destruct (is_serial (Py.strip (Spatial.text item))) as [[]|]; [scan_done| |done].
  destruct (looks_like_name _).
  { destruct (negb _); [scan_done|]. destruct (_ && _); scan_done. }
  rewrite re_match_digits_strip. destruct (all_digits _) eqn:E.
  { convert_digits E.
    pose proof (decimal_nonneg (Py.strip (Spatial.text item))).
    destruct (_ && _) eqn:E1.
    - apply andb_prop in E1 as [?%Z.leb_le ?%Z.leb_le].
      destruct (_ =? _)%Z; scan_done.
    - destruct (_ <=? 2000)%Z eqn:E2; [|scan_done].
      apply Z.leb_le in E2. destruct (_ =? _)%Z; scan_done. }
  destruct (Py.re_match_time _) eqn:Et; [|scan_done].
  apply re_match_time_strip in Et. destruct (negb _); scan_done.
Qed.

Lemma visit_item_scans all_text acc it f :
  Forall (λ sd, name sd ≠ "" ∧ scanned 2000 sd) acc →
  Spatial.visit_item all_text acc it = Ok f →
  Forall (λ sd, name sd ≠ "" ∧ scanned 2000 sd) (flow_state f).
Proof.
  intros Hacc. unfold Spatial.visit_item. destruct it as [i item].
  destruct (is_serial _) as [[]|]; [|by intros [= <-]|done].
  cbn [mbind result_bind mret result_ret].
  destruct (Py.int _) as [serial|]; [|done].
  cbn [mbind result_bind mret result_ret].
  destruct (Spatial._extract_soldier_near_serial _ _ _) as [sd|] eqn:E; [|done].
  cbn [mbind result_bind mret result_ret].
  destruct (Py.truthy _) eqn:Hn; intros [= <-]; [|done]. simpl.
  apply Forall_app. split; [done|]. apply Forall_singleton.
  split; [by destruct (name sd)|]. revert E.
  apply (for_each_keeps _ (scanned 2000)); [|by apply scanned_blank].
  intros s x f. apply near_step_scans.
Qed.

Lemma visit_item_grows all_text acc it f :
  Spatial.visit_item all_text acc it = Ok f →
  length (flow_state f) ≤ S (length acc).
Proof.
  unfold Spatial.visit_item. destruct it as [i item].
  destruct (is_serial _) as [[]|]; [|intros [= <-]; simpl; lia|done].
  cbn [mbind result_bind mret result_ret].
  destruct (Py.int _) as [serial|]; [|done].
  cbn [mbind result_bind mret result_ret].
  destruct (Spatial._extract_soldier_near_serial _ _ _) as [sd|]; [|done].
  cbn [mbind result_bind mret result_ret].
  destruct (Py.truthy _); intros [= <-]; simpl; [|lia].
  rewrite length_app. simpl. lia.
Qed.

Lemma loop_grows {A C} (body : list C → A → result (flow (list C))) xs :
  (∀ acc x f, body acc x = Ok f → length (flow_state f) ≤ S (length acc)) →
  ∀ acc, length (fst (loop body xs acc)) ≤ length acc + length xs.
Proof.
  intros Hb. induction xs as [|x xs IH]; intros acc; simpl; [lia|].
  destruct (body acc x) as [[s'|s']|e] eqn:E; simpl; try lia.
  - specialize (IH s'). apply Hb in E. simpl in E. lia.
  - apply Hb in E. simpl in E. lia.
Qed.

Lemma near_step_raises all_text sd i e :
  i < length all_text → Spatial.near_step all_text sd i = Raise e → e = ValueError.
Proof.
  intros Hi. unfold Spatial.near_step, py_index.
  apply lookup_lt_is_Some_2 in Hi as [item ->].
  cbn [fmap result_fmap mbind result_bind mret result_ret compose].
  destruct (is_serial (Py.strip (Spatial.text item))) as [[]|] eqn:Es; [done| |].
  - destruct (looks_like_name _).
    { destruct (negb _); [done|]. by destruct (_ && _). }
    rewrite re_match_digits_strip. destruct (all_digits _) eqn:E.
    + convert_digits E.
      destruct (_ && _); [by destruct (_ =? _)%Z|].
      destruct (_ <=? _)%Z; [by destruct (_ =? _)%Z|done].
    + destruct (Py.re_match_time _); [|done]. by destruct (negb _).
  - cbn [mbind result_bind]. intros [= <-]. by apply is_serial_raises in Es.
Qed.

Lemma near_step_completes all_text sd i :
  (∀ item, item ∈ all_text → rejected_number (Py.strip (Spatial.text item)) = false) →
  i < length all_text → ∃ f, Spatial.near_step all_text sd i = Ok f.
Proof.
  intros Hplain Hi. unfold Spatial.near_step, py_index.
  apply lookup_lt_is_Some_2 in Hi as [item Hitem]. rewrite Hitem.
  apply list_elem_of_lookup_2 in Hitem.
  cbn [fmap result_fmap mbind result_bind mret result_ret compose].
  pose proof (Hplain item Hitem) as R.
  destruct (is_serial_plain _ R) as ([] & -> & _);
    cbn [mbind result_bind mret result_ret]; [by eexists|].
  destruct (looks_like_name _).
  { destruct (negb _); [by eexists|]. destruct (_ && _); by eexists. }
  rewrite re_match_digits_strip. destruct (all_digits _) eqn:E.
  - convert_plain R E.
    destruct (_ && _); [destruct (_ =? _)%Z; by eexists|].
    destruct (_ <=? _)%Z; [destruct (_ =? _)%Z; by eexists|by eexists].
  - destruct (Py.re_match_time _); [|by eexists]. destruct (negb _); by eexists.
Qed.

Lemma visit_item_raises all_text acc it e :
  Spatial.visit_item all_text acc it = Raise e → e = ValueError.
Proof.
  unfold Spatial.visit_item. destruct it as [i item].
  destruct (is_serial _) as [[]|] eqn:Es; [|done|];
    cbn [mbind result_bind mret result_ret].
  - apply is_serial_spec_true in Es as [Es1 Es2].
    rewrite (int_short_digits _ Es1 Es2). cbn [mbind result_bind mret result_ret].
    destruct (Spatial._extract_soldier_near_serial _ _ _) as [sd|e'] eqn:E;
      cbn [mbind result_bind mret result_ret]; [by destruct (Py.truthy _)|].
    intros [= <-]. revert E. apply (for_each_raises _ (λ e, e = ValueError)).
    intros s j e0 Hj. apply near_step_raises. apply elem_of_py_range in Hj. lia.
  - intros [= <-]. by apply is_serial_raises in Es.
Qed.

Lemma visit_item_completes all_text acc it :
  (∀ item, item ∈ all_text → rejected_number (Py.strip (Spatial.text item)) = false) →
  it ∈ enumerate all_text → ∃ f, Spatial.visit_item all_text acc it = Ok f.
Proof.
  intros Hplain Hin. destruct it as [i item]. apply elem_of_enumerate in Hin.
  unfold Spatial.visit_item.
  destruct (is_serial_plain _ (Hplain item Hin)) as ([] & -> & Hd);
    cbn [mbind result_bind mret result_ret]; [|by eexists].
  destruct (Hd eq_refl) as [Hd1 Hd2]. rewrite (int_short_digits _ Hd1 Hd2).
  cbn [mbind result_bind mret result_ret].
  unfold Spatial._extract_soldier_near_serial. rewrite for_each_completes.
  - cbn [mbind result_bind mret result_ret]. destruct (Py.truthy _); by eexists.
  - intros s j Hj. apply near_step_completes; [done|].
    apply elem_of_py_range in Hj. lia.
Qed.

Lemma length_enumerate {A} (xs : list A) : length (enumerate xs) = length xs.
Proof. unfold enumerate. rewrite length_zip, length_seq. lia. Qed.

(** X12: every record the spatial extractor returns has a non-empty name,
    sit-ups that are 0 or within 5..80, push-ups within 0..2000 and a run
    time that is empty or exactly one or two digits, a colon and two digits;
    and it returns at most one record per recognized line. *)
Theorem spatial_candidates_are_in_scan_ranges
    (ocr : result (list (Spatial.TextItem B))) :
  Forall (λ sd, name sd ≠ "" ∧ scanned 2000 sd) (Spatial.extract_soldiers_by_regions ocr)
  ∧ (∀ all_text, ocr = Ok all_text →
       length (Spatial.extract_soldiers_by_regions ocr) ≤ length all_text).
Proof.
  unfold Spatial.extract_soldiers_by_regions.
  destruct ocr as [all_text|e]; cbn [mbind result_bind];
    [|split; [constructor|done]].
  unfold Spatial.scan, for_each.
  pose proof (loop_keeps (Spatial.visit_item all_text)
                (Forall (λ sd, name sd ≠ "" ∧ scanned 2000 sd))
                (λ s x f, visit_item_scans all_text s x f)
                (enumerate all_text) [] ltac:(constructor)) as Hk.
  pose proof (loop_grows (Spatial.visit_item all_text) (enumerate all_text)
                (visit_item_grows all_text) []) as Hl.
  rewrite length_enumerate in Hl.
  destruct (loop _ _ _) as [found [e|]]; simpl in *.
  - split; [constructor|]. intros ? _. simpl. lia.
  - split; [done|]. by intros ? [= <-].
Qed.

(** X13: the spatial scan indexes only inside the text: the only exception it
    can raise is the ValueError of [int], and then the extractor returns no
    soldier at all.  When no line is accepted by [str.isdigit] and rejected
    by [int], for a superscript digit among its digits or for more than 4300
    digits, the scan does not raise. *)
Theorem spatial_scan_raises_only_on_rejected_numbers
    (all_text : list (Spatial.TextItem B)) :
  (∀ e, Spatial.scan all_text = Raise e →
        e = ValueError ∧ Spatial.extract_soldiers_by_regions (Ok all_text) = [])
  ∧ ((∀ item, item ∈ all_text →
        rejected_number (Py.strip (Spatial.text item)) = false) →
     Spatial.scan all_text = Ok (Spatial.extract_soldiers_by_regions (Ok all_text))).
Proof.
  split.
  - intros e He. split.
    + revert He. apply (for_each_raises _ (λ e, e = ValueError)).
      intros s it e0 _. apply visit_item_raises.
    + unfold Spatial.extract_soldiers_by_regions. cbn [mbind result_bind].
      by rewrite He.
  - intros Hplain. unfold Spatial.extract_soldiers_by_regions. cbn [mbind result_bind].
    unfold Spatial.scan. rewrite for_each_completes; [done|].
    intros acc it Hit. by apply visit_item_completes.
Qed.

End SpatialScan.

Lemma spatial_candidates_are_in_scan_ranges_witness :
  length (Spatial.extract_soldiers_by_regions (Ok repeated_sheet)) ≤ length repeated_sheet.
Proof.
  apply (proj2 (spatial_candidates_are_in_scan_ranges (Ok repeated_sheet)) repeated_sheet).
  reflexivity.
Defined.

Lemma spatial_scan_raises_only_on_rejected_numbers_witness :
  Spatial.scan repeated_sheet
  = Ok (Spatial.extract_soldiers_by_regions (Ok repeated_sheet)).
Proof.
  apply (proj2 (spatial_scan_raises_only_on_rejected_numbers repeated_sheet)).
  intros item Hitem. unfold repeated_sheet in Hitem. simpl in Hitem.
  repeat (apply elem_of_cons in Hitem as [->|Hitem]; [reflexivity|]).
  by apply elem_of_nil in Hitem.
Defined.

(** ** The heuristic extractors of the parser *)

Lemma take_count_scans num sd :
  (0 ≤ num)%Z → scanned 2000 sd → scanned 2000 (Heuristics.take_count num sd).
Proof.
  intros Hn Hsd. unfold Heuristics.take_count.
  destruct (_ && _ && _) eqn:E1.
  - apply andb_prop in E1 as [[?%Z.leb_le ?%Z.leb_le]%andb_prop _].
    unfold scanned in *. simpl. intuition (auto with lia).
  - destruct ((_ <=? 2000)%Z && _) eqn:E2; [|done].
    apply andb_prop in E2 as [?%Z.leb_le _].
    unfold scanned in *. simpl. intuition (auto with lia).
Qed.

Lemma digits_without s sub c r :
  sub = String c r → Py.re_digit c = false →
  Py.all_chars Py.re_digit s = true → Py.contains sub s = false.
Proof.
  intros -> Hc. induction s as [|a s IH]; [done|]. simpl Py.all_chars.
  intros [Ha Hs]%andb_prop.
  change (Py.contains (String c r) (String a s))
    with (Ascii.eqb c a && Py.startswith r s || Py.contains (String c r) s).
  rewrite (IH Hs), orb_false_r.
  destruct (Ascii.eqb_spec c a) as [->|]; [congruence|done].
Qed.

Lemma digits_no_case s :
  Py.all_chars Py.re_digit s = true → Py.any_char Py.upper_char s = false.
Proof.
  induction s as [|a s IH]; [done|]. simpl.
  intros [Ha Hs]%andb_prop. rewrite (IH Hs), orb_false_r.
  apply re_digit_cases in Ha.
  repeat (apply elem_of_cons in Ha as [->|Ha]; [reflexivity|]).
  by apply elem_of_nil in Ha.
Qed.

(** A line of digits does not look like a name. *)
Lemma digits_not_name t : all_digits t = true → looks_like_name t = false.
Proof.
  intros [_ Hd]%andb_prop. unfold looks_like_name, Py.isupper.
  rewrite (digits_without t "PTE" "P" "TE"), (digits_no_case t); done.
Qed.

Lemma block_step_keeps sd line f :
  scanned 2000 sd → Heuristics.block_step sd line = Ok f →
  scanned 2000 (flow_state f).
Proof.
  intros Hsd. unfold Heuristics.block_step.
  destruct (looks_like_name _).
  { intros [= <-]. unfold scanned in *. simpl. tauto. }
  rewrite re_match_digits_strip. destruct (all_digits _) eqn:E.
  { convert_digits E. intros [= <-].
    apply take_count_scans; [apply decimal_nonneg|done]. }
  destruct (Py.re_match_time _) eqn:Et; [|by intros [= <-]].
  apply re_match_time_strip in Et. intros [= <-].
  unfold scanned in *. simpl. tauto.
Qed.

(** The step of the block scan raises exactly on a line of digits that is
    too long for [int]. *)
Lemma block_step_returns sd line :
  over_long_number (Py.strip line) = false →
  ∃ sd', Heuristics.block_step sd line = Ok (Continue sd').
Proof.
  intros R. unfold Heuristics.block_step, over_long_number in *.
  destruct (looks_like_name _); [by eexists|].
  rewrite re_match_digits_strip. destruct (all_digits _) eqn:E.
  { rewrite (int_short_digits _ E R). by eexists. }
  destruct (Py.re_match_time _); by eexists.
Qed.

Lemma block_step_raises sd line e :
  Heuristics.block_step sd line = Raise e →
  e = ValueError ∧ over_long_number (Py.strip line) = true.
Proof.
  destruct (over_long_number (Py.strip line)) eqn:R.
  - unfold Heuristics.block_step. unfold over_long_number in R.
    apply andb_prop in R as [E R]. rewrite (digits_not_name _ E).
    rewrite re_match_digits_strip, E, (int_all_digits _ E), R.
    by intros [= <-].
  - destruct (block_step_returns sd line R) as [sd' ->]. done.
Qed.

Lemma extract_from_block_keeps block start_line r :
  Heuristics._extract_from_block block start_line = Ok r →
  ∀ sd, r = Some sd → block_record sd.
Proof.
  unfold Heuristics._extract_from_block.
  destruct (for_each _ _ _) as [sd|e] eqn:E; [|done].
  cbn [mbind result_bind mret result_ret]. intros [= <-] sd' Hr.
  assert (scanned 2000 sd) as Hsd.
  { revert E. apply (for_each_keeps _ (scanned 2000)); [|by apply scanned_blank].
    intros s x f. apply block_step_keeps. }
  destruct (Py.truthy (name sd)) eqn:Hn; [|done].
  destruct (_ || _) eqn:Hp; [|done]. injection Hr as <-.
  split_and!; [by destruct (name sd)| |done].
  apply orb_prop in Hp as [?%Z.ltb_lt|Hp]; [by left|right]. by destruct (run_time sd).
Qed.

Lemma extract_from_block_raises block start_line e :
  Heuristics._extract_from_block block start_line = Raise e →
  e = ValueError ∧ ∃ l, l ∈ block ∧ over_long_number (Py.strip l) = true.
Proof.
  unfold Heuristics._extract_from_block.
  destruct (for_each _ _ _) as [sd|e'] eqn:E; [done|].
  cbn [mbind result_bind]. intros [= <-]. revert E.
  apply (for_each_raises _
           (λ e, e = ValueError ∧ ∃ l, l ∈ block ∧ over_long_number (Py.strip l) = true)).
  intros s l e0 Hl [-> R]%block_step_raises. eauto.
Qed.

Lemma extract_from_block_returns block start_line :
  (∀ l, l ∈ block → over_long_number (Py.strip l) = false) →
  ∃ r, Heuristics._extract_from_block block start_line = Ok r.
Proof.
  intros Hplain. unfold Heuristics._extract_from_block.
  rewrite for_each_completes.
  - cbn [mbind result_bind mret result_ret]. by eexists.
  - intros s l Hl. destruct (block_step_returns s l (Hplain l Hl)) as [sd' ->].
    by eexists.
Qed.

Lemma elem_of_slice {A} (xs : list A) a b x : x ∈ Heuristics.slice xs a b → x ∈ xs.
Proof.
  unfold Heuristics.slice. intros H.
  eapply elem_of_sublist; [exact H|].
  etrans; [apply sublist_take|apply sublist_drop].
Qed.

Lemma visit_block_keeps lines acc start_line f :
  NoDup acc ∧ Forall block_record acc →
  Heuristics.visit_block lines acc start_line = Ok f →
  NoDup (flow_state f) ∧ Forall block_record (flow_state f).
Proof.
  intros [Hnd Hacc]. unfold Heuristics.visit_block.
  destruct (Heuristics._extract_from_block _ _) as [r|e] eqn:E; [|done].
  cbn [mbind result_bind mret result_ret].
  pose proof (extract_from_block_keeps _ _ _ E) as Hr.
  destruct r as [sd|]; [|by intros [= <-]].
  case_bool_decide as Hin; intros [= <-]; [|done]. simpl. split.
  - apply NoDup_app. split_and!; [done| |apply NoDup_singleton].
    intros x Hx ->%list_elem_of_singleton. done.
  - apply Forall_app. split; [done|]. apply Forall_singleton. by apply Hr.
Qed.

Lemma visit_block_raises lines acc start_line e :
  Heuristics.visit_block lines acc start_line = Raise e →
  e = ValueError ∧ ∃ l, l ∈ lines ∧ over_long_number (Py.strip l) = true.
Proof.
  unfold Heuristics.visit_block.
  destruct (Heuristics._extract_from_block _ _) as [r|e'] eqn:E.
  - cbn [mbind result_bind mret result_ret]. destruct r as [sd|]; [|done].
    by case_bool_decide.
  - cbn [mbind result_bind]. intros [= <-].
    apply extract_from_block_raises in E as (-> & l & Hl & R).
    split; [done|]. exists l. split; [|done]. by eapply elem_of_slice.
Qed.

Lemma visit_block_returns lines acc start_line :
  (∀ l, l ∈ lines → over_long_number (Py.strip l) = false) →
  ∃ f, Heuristics.visit_block lines acc start_line = Ok f.
Proof.
  intros Hplain. unfold Heuristics.visit_block.
  destruct (extract_from_block_returns
              (Heuristics.slice lines start_line (start_line + 20)) start_line)
    as [r ->].
  { intros l Hl. apply Hplain. by eapply elem_of_slice. }
  cbn [mbind result_bind mret result_ret].
  destruct r as [sd|]; [|by eexists]. case_bool_decide; by eexists.
Qed.

Lemma aggressive_extraction_keeps lines out :
  Heuristics._aggressive_extraction lines = Ok out →
  length out ≤ 10 ∧ NoDup out ∧ Forall block_record out.
Proof.
  unfold Heuristics._aggressive_extraction.
  destruct (for_each _ _ _) as [found|e] eqn:E; [|done].
  cbn [fmap result_fmap]. intros [= <-].
  assert (NoDup found ∧ Forall block_record found) as [Hnd Hall].
  { revert E.
    apply (for_each_keeps _ (λ acc, NoDup acc ∧ Forall block_record acc));
      [|split; constructor].
    intros s x f. apply visit_block_keeps. }
  split_and!.
  - rewrite length_take. lia.
  - eapply sublist_NoDup; [done|apply sublist_take].
  - by apply Forall_take.
Qed.

(** X14: the block scan raises nothing but ValueError, and raises only when
    a line of digits has more digits than [int] converts; without such a line
    it returns.  What it returns holds at most 10 records, no two of them
    equal, each with a non-empty name, a sit-up count or a run time, sit-ups
    that are 0 or within 5..80 and push-ups within 0..2000; and it returns
    nothing for an input of 20 lines or fewer. *)
Theorem aggressive_extraction_is_bounded (lines : list string) :
  (∀ out, Heuristics._aggressive_extraction lines = Ok out →
          length out ≤ 10 ∧ NoDup out ∧ Forall block_record out)
  ∧ (∀ e, Heuristics._aggressive_extraction lines = Raise e →
          e = ValueError ∧ ∃ l, l ∈ lines ∧ over_long_number (Py.strip l) = true)
  ∧ ((∀ l, l ∈ lines → over_long_number (Py.strip l) = false) →
     ∃ out, Heuristics._aggressive_extraction lines = Ok out)
  ∧ (length lines ≤ 20 → Heuristics._aggressive_extraction lines = Ok []).
Proof.
  split_and!.
  - apply aggressive_extraction_keeps.
  - intros e. unfold Heuristics._aggressive_extraction.
    destruct (for_each _ _ _) as [found|e'] eqn:E; [done|].
    cbn [fmap result_fmap]. intros [= <-]. revert E.
    apply (for_each_raises _
             (λ e, e = ValueError
                   ∧ ∃ l, l ∈ lines ∧ over_long_number (Py.strip l) = true)).
    intros s x e0 _. apply visit_block_raises.
  - intros Hplain. unfold Heuristics._aggressive_extraction.
    rewrite for_each_completes; [by eexists|].
    intros s x _. by apply visit_block_returns.
  - intros Hlen. unfold Heuristics._aggressive_extraction.
    by replace (length lines - 20) with 0 by lia.
Qed.

Lemma aggressive_extraction_is_bounded_witness :
  (∃ out, Heuristics._aggressive_extraction ["1"; "ID001"; "PTE JOHN TAN"; "35"; "9:30"]
          = Ok out)
  ∧ Heuristics._aggressive_extraction ["1"; "ID001"; "PTE JOHN TAN"; "35"; "9:30"] = Ok [].
Proof.
  pose proof (aggressive_extraction_is_bounded
                ["1"; "ID001"; "PTE JOHN TAN"; "35"; "9:30"]) as (_ & _ & H3 & H4).
  split.
  - apply H3. intros l Hl.
    repeat (apply elem_of_cons in Hl as [->|Hl]; [reflexivity|]).
    by apply elem_of_nil in Hl.
  - apply H4. simpl. lia.
Defined.

Lemma loop_ext {A S} (body body' : S → A → result (flow S)) xs :
  (∀ s x, x ∈ xs → body s x = body' s x) →
  ∀ s, loop body xs s = loop body' xs s.
Proof.
  induction xs as [|x xs IH]; intros Hb s; simpl; [done|].
  rewrite <- Hb by (by left).
  destruct (body s x) as [[s'|s']|e]; [|done|done].
  apply IH. intros s0 y Hy. apply Hb. by right.
Qed.

Lemma slice_before_last (lines : list string) l start :
  start + 20 ≤ length lines →
  Heuristics.slice (lines ++ [l]) start (start + 20)
  = Heuristics.slice lines start (start + 20).
Proof.
  intros H. unfold Heuristics.slice.
  rewrite drop_app_le by lia. rewrite take_app_le; [done|].
  rewrite length_drop. lia.
Qed.

(** X15: the block scan never reads the last line of its input: its windows
    start below [len(lines) - 20], so the result does not depend on what the
    last line holds. *)
Theorem aggressive_extraction_never_reads_the_last_line
    (lines : list string) (l l' : string) :
  Heuristics._aggressive_extraction (lines ++ [l])
  = Heuristics._aggressive_extraction (lines ++ [l']).
Proof.
  unfold Heuristics._aggressive_extraction, for_each.
  rewrite !length_app. simpl.
  rewrite (loop_ext (Heuristics.visit_block (lines ++ [l]))
                    (Heuristics.visit_block (lines ++ [l']))); [done|].
  intros acc start Hstart. apply elem_of_py_range in Hstart.
  unfold Heuristics.visit_block.
  rewrite !slice_before_last by lia. done.
Qed.

(** ** Stripping before or after the rank token is deleted *)

Lemma space_not_P c : Py.isspace c = true → Ascii.eqb "P" c = false.
Proof. destruct c as [[] [] [] [] [] [] [] []]; vm_compute; congruence. Qed.

Lemma replace_PTE_cons_space c r :
  Py.isspace c = true → Py.replace_PTE (String c r) = String c (Py.replace_PTE r).
Proof.
  intros Hc. apply replace_PTE_miss. cbn [Py.startswith].
  by rewrite (space_not_P c Hc).
Qed.

Lemma lstrip_replace_PTE l :
  Py.lstrip (Py.replace_PTE l) = Py.lstrip (Py.replace_PTE (Py.lstrip l)).
Proof.
  induction l as [|c r IH]; [done|].
  cbn [Py.lstrip]. destruct (Py.isspace c) eqn:Hc; [|done].
  rewrite replace_PTE_cons_space by done. cbn [Py.lstrip]. by rewrite Hc.
Qed.

Lemma rstrip_cons c r :
  Py.rstrip (String c r)
  = match Py.rstrip r with
    | EmptyString => if Py.isspace c then EmptyString else String c EmptyString
    | String a t => String c (String a t)
    end.
Proof. reflexivity. Qed.

Lemma rstrip_cons_inv r a t :
  Py.rstrip r = String a t → ∃ r1, r = String a r1 ∧ t = Py.rstrip r1.
Proof.
  destruct r as [|c r1]; [done|]. rewrite rstrip_cons.
  destruct (Py.rstrip r1) as [|b u] eqn:E.
  - destruct (Py.isspace c); [done|]. intros [= -> <-]. by exists r1.
  - intros [= -> <-]. by exists r1.
Qed.

Lemma lstrip_rstrip x : Py.rstrip (Py.lstrip x) = Py.lstrip (Py.rstrip x).
Proof.
  induction x as [|c r IH]; [done|].
  cbn [Py.lstrip]. rewrite rstrip_cons. destruct (Py.isspace c) eqn:Hc.
  - rewrite IH. destruct (Py.rstrip r) as [|a t]; [done|].
    cbn [Py.lstrip]. by rewrite Hc.
  - rewrite rstrip_cons. destruct (Py.rstrip r) as [|a t]; rewrite ?Hc;
      cbn [Py.lstrip]; by rewrite Hc.
Qed.

Lemma startswith_PTE_rstrip c r :
  Py.startswith "PTE" (String c r) = false →
  Py.startswith "PTE" (String c (Py.rstrip r)) = false.
Proof.
  intros H. destruct (Py.rstrip r) as [|a [|b t]] eqn:E.
  - cbn [Py.startswith]. by rewrite andb_false_r.
  - cbn [Py.startswith]. by rewrite !andb_false_r.
  - apply rstrip_cons_inv in E as (r1 & -> & (r2 & -> & _)%eq_sym%rstrip_cons_inv).
    exact H.
Qed.

Lemma rstrip_replace_PTE_len n : ∀ s,
  String.length s < n →
  Py.rstrip (Py.replace_PTE s) = Py.rstrip (Py.replace_PTE (Py.rstrip s)).
Proof.
  induction n as [|n IH]; intros s Hn; [lia|].
  destruct s as [|c r]; [done|].
  destruct (Py.startswith "PTE" (String c r)) eqn:Hp.
  - apply startswith_PTE_inv in Hp as [r' Hr]. rewrite Hr.
    change ("PTE" +:+ r') with (String "P" (String "T" (String "E" r'))).
    rewrite (rstrip_cons_nonspace "P"), (rstrip_cons_nonspace "T"),
      (rstrip_cons_nonspace "E") by done.
    change (String "P" (String "T" (String "E" (Py.rstrip r'))))
      with ("PTE" +:+ Py.rstrip r').
    change (String "P" (String "T" (String "E" r'))) with ("PTE" +:+ r').
    rewrite !replace_PTE_hit. apply IH.
    apply (f_equal String.length) in Hr. simpl in *.
    change ("" +:+ r') with r' in Hr. lia.
  - rewrite (replace_PTE_miss _ _ Hp).
    assert (String.length r < n) as Hr by (simpl in Hn; lia).
    destruct (Py.isspace c) eqn:Hc.
    + rewrite !rstrip_cons, Hc, (IH r Hr).
      destruct (Py.rstrip r) as [|a t] eqn:E; [reflexivity|].
      rewrite (replace_PTE_cons_space c) by done. by rewrite rstrip_cons, Hc.
    + rewrite !(rstrip_cons_nonspace _ _ Hc).
      rewrite (replace_PTE_miss _ _ (startswith_PTE_rstrip _ _ Hp)).
      by rewrite (rstrip_cons_nonspace _ _ Hc), (IH r Hr).
Qed.

Lemma rstrip_replace_PTE s :
  Py.rstrip (Py.replace_PTE s) = Py.rstrip (Py.replace_PTE (Py.rstrip s)).
Proof. apply (rstrip_replace_PTE_len (S (String.length s))). lia. Qed.

(** The name is the same whether the line is stripped before the token is
    deleted or not. *)
Lemma clean_name_strip l : clean_name l = clean_name (Py.strip l).
Proof.
  unfold clean_name, Py.strip. rewrite (lstrip_replace_PTE l).
  generalize (Py.lstrip l). intros m.
  rewrite !lstrip_rstrip. by rewrite (rstrip_replace_PTE m).
Qed.

(** ** The name-anchored and the time-anchored extractors *)

Lemma for_each_spec {A S} (body : S → A → result (flow S)) (P : S → Prop) xs :
  (∀ s x, x ∈ xs → P s → ∃ f, body s x = Ok f ∧ P (flow_state f)) →
  ∀ s, P s → ∃ s', for_each body xs s = Ok s' ∧ P s'.
Proof.
  unfold for_each. induction xs as [|x xs IH]; intros Hb s Hs; simpl.
  - by exists s.
  - destruct (Hb s x) as ([s'|s'] & -> & Hs'); [by left|done| |by exists s'].
    apply IH; [|done]. intros s0 y Hy. apply Hb. by right.
Qed.

Lemma take_count_name num sd : name (Heuristics.take_count num sd) = name sd.
Proof.
  unfold Heuristics.take_count.
  destruct (_ && _ && _); [done|]. by destruct (_ && _).
Qed.

Lemma take_count_run_time num sd : run_time (Heuristics.take_count num sd) = run_time sd.
Proof.
  unfold Heuristics.take_count.
  destruct (_ && _ && _); [done|]. by destruct (_ && _).
Qed.

Lemma around_step_keeps lines n sd i f :
  scanned 2000 sd ∧ name sd = n → Heuristics.around_step lines sd i = Ok f →
  scanned 2000 (flow_state f) ∧ name (flow_state f) = n.
Proof.
  intros [Hsd Hn]. unfold Heuristics.around_step.
  destruct (py_index lines i) as [raw|e]; [|done].
  cbn [fmap result_fmap mbind result_bind mret result_ret].
  rewrite re_match_digits_strip. destruct (all_digits _) eqn:E.
  { convert_digits E. intros [= <-]. simpl.
    split; [|by rewrite take_count_name].
    apply take_count_scans; [apply decimal_nonneg|done]. }
  destruct (Py.re_match_time _) eqn:Et; [|by intros [= <-]].
  apply re_match_time_strip in Et.
  destruct (negb _); intros [= <-]; [|done].
  unfold scanned in *. simpl. tauto.
Qed.

Lemma around_step_returns lines sd i :
  i < length lines → (∀ l, l ∈ lines → over_long_number (Py.strip l) = false) →
  ∃ f, Heuristics.around_step lines sd i = Ok f.
Proof.
  intros Hi Hplain. unfold Heuristics.around_step, py_index.
  apply lookup_lt_is_Some_2 in Hi as [raw Hraw]. rewrite Hraw.
  apply list_elem_of_lookup_2, Hplain in Hraw. unfold over_long_number in Hraw.
  cbn [fmap result_fmap mbind result_bind mret result_ret].
  rewrite re_match_digits_strip. destruct (all_digits _) eqn:E.
  { rewrite (int_short_digits _ E Hraw). by eexists. }
  destruct (Py.re_match_time _); [|by eexists]. destruct (negb _); by eexists.
Qed.

Lemma around_step_raises lines sd i e :
  i < length lines → Heuristics.around_step lines sd i = Raise e →
  e = ValueError ∧ ∃ l, l ∈ lines ∧ over_long_number (Py.strip l) = true.
Proof.
  intros Hi. unfold Heuristics.around_step, py_index.
  apply lookup_lt_is_Some_2 in Hi as [raw Hraw]. rewrite Hraw.
  apply list_elem_of_lookup_2 in Hraw.
  cbn [fmap result_fmap mbind result_bind mret result_ret].
  rewrite re_match_digits_strip. destruct (all_digits _) eqn:E.
  { rewrite (int_all_digits _ E). destruct (over_long _) eqn:R; [|done].
    intros [= <-]. split; [done|]. exists raw. split; [done|].
    unfold over_long_number. by rewrite E, R. }
  destruct (Py.re_match_time _); [|done]. by destruct (negb _).
Qed.

Lemma extract_data_around_name_keeps lines name_index line r :
  lines !! name_index = Some line →
  Heuristics._extract_data_around_name lines name_index = Ok r →
  ∀ sd, r = Some sd →
    name sd = clean_name line
    ∧ ((0 < sit_up_reps sd)%Z ∨ run_time sd ≠ "")
    ∧ scanned 2000 sd.
Proof.
  intros Hline. unfold Heuristics._extract_data_around_name, py_index.
  rewrite Hline. cbn [mbind result_bind mret result_ret].
  destruct (for_each _ _ _) as [sd|e] eqn:E; [|done].
  cbn [mbind result_bind mret result_ret]. intros [= <-] sd' Hr.
  assert (scanned 2000 sd ∧ name sd = clean_name line) as [Hsd Hn].
  { revert E. apply (for_each_keeps _ (λ sd, scanned 2000 sd ∧ name sd = clean_name line)).
    - intros s x f. apply around_step_keeps.
    - split; [|done]. unfold scanned, stored_time. simpl. auto with lia. }
  destruct (_ || _) eqn:Hp; [|done]. injection Hr as <-.
  split_and!; [done| |done].
  apply orb_prop in Hp as [?%Z.ltb_lt|Hp]; [by left|right]. by destruct (run_time sd).
Qed.

Lemma extract_data_around_name_returns lines name_index :
  name_index < length lines →
  (∀ l, l ∈ lines → over_long_number (Py.strip l) = false) →
  ∃ r, Heuristics._extract_data_around_name lines name_index = Ok r.
Proof.
  intros [line Hline]%lookup_lt_is_Some_2 Hplain.
  unfold Heuristics._extract_data_around_name, py_index.
  rewrite Hline. cbn [mbind result_bind mret result_ret].
  rewrite for_each_completes.
  - cbn [mbind result_bind mret result_ret]. by eexists.
  - intros s i Hi. apply around_step_returns; [|done].
    apply elem_of_py_range in Hi. lia.
Qed.

Lemma extract_data_around_name_raises lines name_index e :
  name_index < length lines →
  Heuristics._extract_data_around_name lines name_index = Raise e →
  e = ValueError ∧ ∃ l, l ∈ lines ∧ over_long_number (Py.strip l) = true.
Proof.
  intros [line Hline]%lookup_lt_is_Some_2.
  unfold Heuristics._extract_data_around_name, py_index.
  rewrite Hline. cbn [mbind result_bind mret result_ret].
  destruct (for_each _ _ _) as [sd|e'] eqn:E; [done|].
  cbn [mbind result_bind]. intros [= <-]. revert E.
  apply (for_each_raises _
           (λ e, e = ValueError ∧ ∃ l, l ∈ lines ∧ over_long_number (Py.strip l) = true)).
  intros s i e0 Hi. apply around_step_raises.
  apply elem_of_py_range in Hi. lia.
Qed.

(** X16: from the same line, the name-anchored extractor and the positional
    extractor compute the same identity, although one deletes the rank token
    from the raw line and the other from the stripped line. *)
Theorem name_anchored_identity_agrees_with_positional
    (lines : list string) (name_index : nat) (line : string) (sd : Soldier)
    (Hline : lines !! name_index = Some line)
    (Hfound : Heuristics._extract_data_around_name lines name_index = Ok (Some sd)) :
  name sd = identity_slot (Some line).
Proof.
  destruct (extract_data_around_name_keeps lines name_index line _ Hline Hfound
              sd eq_refl) as (-> & _).
  apply clean_name_strip.
Qed.

Lemma name_anchored_identity_agrees_with_positional_witness :
  name (mkSoldier "JOHN TAN" 35 40 "9:30") = identity_slot (Some "  PTE JOHN TAN ").
Proof.
  apply (name_anchored_identity_agrees_with_positional
           ["  PTE JOHN TAN "; "35"; "40"; "9:30"] 0 "  PTE JOHN TAN "
           (mkSoldier "JOHN TAN" 35 40 "9:30")); reflexivity.
Defined.

(** X17: for an index inside the lines the name-anchored extractor raises
    nothing but ValueError, and only when a line of digits has more digits
    than [int] converts; without such a line it returns.  A record it returns
    has a sit-up count or a run time, sit-ups that are 0 or within 5..80,
    push-ups within 0..2000 and a run time that is empty or exactly one or two
    digits, a colon and two digits; its name can be empty.  For an index
    outside the lines it raises IndexError. *)
Theorem name_anchored_extractor_ranges (lines : list string) (name_index : nat) :
  (∀ r sd, Heuristics._extract_data_around_name lines name_index = Ok r →
           r = Some sd →
           ((0 < sit_up_reps sd)%Z ∨ run_time sd ≠ "") ∧ scanned 2000 sd)
  ∧ (name_index < length lines →
     ((∀ l, l ∈ lines → over_long_number (Py.strip l) = false) →
      ∃ r, Heuristics._extract_data_around_name lines name_index = Ok r)
     ∧ (∀ e, Heuristics._extract_data_around_name lines name_index = Raise e →
             e = ValueError ∧ ∃ l, l ∈ lines ∧ over_long_number (Py.strip l) = true))
  ∧ (length lines ≤ name_index →
     Heuristics._extract_data_around_name lines name_index = Raise IndexError).
Proof.
  split_and!.
  - intros r sd Hr Hsd.
    destruct (lines !! name_index) as [line|] eqn:Hline.
    + by destruct (extract_data_around_name_keeps _ _ _ _ Hline Hr sd Hsd) as (_ & ? & ?).
    + unfold Heuristics._extract_data_around_name, py_index in Hr.
      by rewrite Hline in Hr.
  - intros Hi. split.
    + by apply extract_data_around_name_returns.
    + intros e. by apply extract_data_around_name_raises.
  - intros Hlen. unfold Heuristics._extract_data_around_name, py_index.
    by rewrite lookup_ge_None_2.
Qed.

Lemma name_anchored_extractor_ranges_witness :
  (((0 < sit_up_reps (mkSoldier "" 35 0 ""))%Z ∨ run_time (mkSoldier "" 35 0 "") ≠ "")
   ∧ scanned 2000 (mkSoldier "" 35 0 ""))
  ∧ (∃ r, Heuristics._extract_data_around_name ["PTE"; "35"] 0 = Ok r)
  ∧ Heuristics._extract_data_around_name ["PTE"; "35"] 2 = Raise IndexError.
Proof.
  split; [|split].
  - apply (proj1 (name_anchored_extractor_ranges ["PTE"; "35"] 0)
             (Some (mkSoldier "" 35 0 "")) (mkSoldier "" 35 0 "")); reflexivity.
  - apply (proj1 (proj1 (proj2 (name_anchored_extractor_ranges ["PTE"; "35"] 0))
                    ltac:(simpl; lia))).
    intros l Hl.
    repeat (apply elem_of_cons in Hl as [->|Hl]; [reflexivity|]).
    by apply elem_of_nil in Hl.
  - apply (proj2 (proj2 (name_anchored_extractor_ranges ["PTE"; "35"] 2))).
    simpl. lia.
Defined.

Lemma take_count_counts num sd :
  (0 ≤ num)%Z →
  (sit_up_reps sd = 0 ∨ 5 ≤ sit_up_reps sd ≤ 80)%Z ∧ (0 ≤ push_up_reps sd ≤ 2000)%Z →
  (sit_up_reps (Heuristics.take_count num sd) = 0
   ∨ 5 ≤ sit_up_reps (Heuristics.take_count num sd) ≤ 80)%Z
  ∧ (0 ≤ push_up_reps (Heuristics.take_count num sd) ≤ 2000)%Z.
Proof.
  intros Hn Hsd. unfold Heuristics.take_count.
  destruct (_ && _ && _) eqn:E1.
  - apply andb_prop in E1 as [[?%Z.leb_le ?%Z.leb_le]%andb_prop _]. simpl. lia.
  - destruct ((_ <=? 2000)%Z && _) eqn:E2; [|done].
    apply andb_prop in E2 as [?%Z.leb_le _]. simpl. lia.
Qed.

Section LoopOn.
Context {A S : Type} (body : S → A → result (flow S)) (P : S → Prop).

(** An invariant that the steps keep on the elements of the list. *)
Lemma for_each_keeps_on xs :
  (∀ s x f, x ∈ xs → P s → body s x = Ok f → P (flow_state f)) →
  ∀ s s', P s → for_each body xs s = Ok s' → P s'.
Proof.
  unfold for_each. induction xs as [|x xs IH]; intros Hb s s' Hs; simpl.
  - by intros [= <-].
  - destruct (body s x) as [[s1|s1]|e] eqn:E.
    + apply IH; [|by apply (Hb s x (Continue s1)); [left|..]].
      intros s0 y f Hy. apply Hb. by right.
    + intros [= <-]. by apply (Hb s x (Break s1)); [left|..].
    + done.
Qed.
End LoopOn.

Lemma context_step_keeps lines t sd i f :
  ((sit_up_reps sd = 0 ∨ 5 ≤ sit_up_reps sd ≤ 80)%Z ∧ (0 ≤ push_up_reps sd ≤ 2000)%Z)
  ∧ run_time sd = t →
  Heuristics.context_step lines sd i = Ok f →
  ((sit_up_reps (flow_state f) = 0 ∨ 5 ≤ sit_up_reps (flow_state f) ≤ 80)%Z
   ∧ (0 ≤ push_up_reps (flow_state f) ≤ 2000)%Z)
  ∧ run_time (flow_state f) = t.
Proof.
  intros [Hsd Ht]. unfold Heuristics.context_step.
  destruct (py_index lines i) as [raw|e]; [|done].
  cbn [fmap result_fmap mbind result_bind mret result_ret].
  rewrite re_match_digits_strip. destruct (all_digits _) eqn:E.
  { convert_digits E. intros [= <-]. simpl.
    split; [|by rewrite take_count_run_time].
    apply take_count_counts; [apply decimal_nonneg|done]. }
  destruct (looks_like_name _); by intros [= <-].
Qed.

Lemma context_step_returns lines sd i :
  i < length lines → (∀ l, l ∈ lines → over_long_number (Py.strip l) = false) →
  ∃ f, Heuristics.context_step lines sd i = Ok f.
Proof.
  intros Hi Hplain. unfold Heuristics.context_step, py_index.
  apply lookup_lt_is_Some_2 in Hi as [raw Hraw]. rewrite Hraw.
  apply list_elem_of_lookup_2, Hplain in Hraw. unfold over_long_number in Hraw.
  cbn [fmap result_fmap mbind result_bind mret result_ret].
  rewrite re_match_digits_strip. destruct (all_digits _) eqn:E.
  { rewrite (int_short_digits _ E Hraw). by eexists. }
  destruct (looks_like_name _); by eexists.
Qed.

Lemma context_step_raises lines sd i e :
  i < length lines → Heuristics.context_step lines sd i = Raise e →
  e = ValueError ∧ ∃ l, l ∈ lines ∧ over_long_number (Py.strip l) = true.
Proof.
  intros Hi. unfold Heuristics.context_step, py_index.
  apply lookup_lt_is_Some_2 in Hi as [raw Hraw]. rewrite Hraw.
  apply list_elem_of_lookup_2 in Hraw.
  cbn [fmap result_fmap mbind result_bind mret result_ret].
  rewrite re_match_digits_strip. destruct (all_digits _) eqn:E.
  { rewrite (int_all_digits _ E). destruct (over_long _) eqn:R; [|done].
    intros [= <-]. split; [done|]. exists raw. split; [done|].
    unfold over_long_number. by rewrite E, R. }
  by destruct (looks_like_name _).
Qed.

Lemma elem_of_range_down i hi lo : i ∈ Heuristics.range_down hi lo → lo < i < hi.
Proof.
  unfold Heuristics.range_down. rewrite elem_of_reverse.
  intros ?%elem_of_py_range. lia.
Qed.

Lemma extract_from_performance_context_keeps lines run_index line r :
  lines !! run_index = Some line →
  Heuristics._extract_from_performance_context lines run_index = Ok r →
  ∀ sd, r = Some sd →
    name sd ≠ ""
    ∧ (sit_up_reps sd = 0 ∨ 5 ≤ sit_up_reps sd ≤ 80)%Z
    ∧ (0 ≤ push_up_reps sd ≤ 2000)%Z
    ∧ run_time sd = line.
Proof.
  intros Hline. unfold Heuristics._extract_from_performance_context, py_index.
  rewrite Hline. cbn [mbind result_bind mret result_ret].
  destruct (for_each _ _ _) as [sd|e] eqn:E; [|done].
  cbn [mbind result_bind mret result_ret]. intros [= <-] sd' Hr.
  assert (((sit_up_reps sd = 0 ∨ 5 ≤ sit_up_reps sd ≤ 80)%Z
           ∧ (0 ≤ push_up_reps sd ≤ 2000)%Z) ∧ run_time sd = line) as [[Hs Hp] Ht].
  { revert E. apply (for_each_keeps _
       (λ sd, ((sit_up_reps sd = 0 ∨ 5 ≤ sit_up_reps sd ≤ 80)%Z
               ∧ (0 ≤ push_up_reps sd ≤ 2000)%Z) ∧ run_time sd = line)).
    - intros s x f. apply context_step_keeps.
    - simpl. split; [lia|done]. }
  destruct (Py.truthy (name sd)) eqn:Hn; [|done]. injection Hr as <-.
  split_and!; try done; try lia. by destruct (name sd).
Qed.

Lemma extract_from_performance_context_returns lines run_index :
  run_index < length lines →
  (∀ l, l ∈ lines → over_long_number (Py.strip l) = false) →
  ∃ r, Heuristics._extract_from_performance_context lines run_index = Ok r.
Proof.
  intros [line Hline]%lookup_lt_is_Some_2 Hplain.
  pose proof (lookup_lt_Some _ _ _ Hline) as Hlt.
  unfold Heuristics._extract_from_performance_context, py_index.
  rewrite Hline. cbn [mbind result_bind mret result_ret].
  rewrite for_each_completes.
  - cbn [mbind result_bind mret result_ret]. by eexists.
  - intros s i Hi. apply context_step_returns; [|done].
    apply elem_of_range_down in Hi. lia.
Qed.

Lemma extract_from_performance_context_raises lines run_index e :
  run_index < length lines →
  Heuristics._extract_from_performance_context lines run_index = Raise e →
  e = ValueError ∧ ∃ l, l ∈ lines ∧ over_long_number (Py.strip l) = true.
Proof.
  intros Hlt. pose proof Hlt as [line Hline]%lookup_lt_is_Some_2.
  unfold Heuristics._extract_from_performance_context, py_index.
  rewrite Hline. cbn [mbind result_bind mret result_ret].
  destruct (for_each _ _ _) as [sd|e'] eqn:E; [done|].
  cbn [mbind result_bind]. intros [= <-]. revert E.
  apply (for_each_raises _
           (λ e, e = ValueError ∧ ∃ l, l ∈ lines ∧ over_long_number (Py.strip l) = true)).
  intros s i e0 Hi. apply context_step_raises.
  apply elem_of_range_down in Hi. lia.
Qed.

Lemma enumerate_lookup {A} (xs : list A) i x :
  (i, x) ∈ enumerate xs → xs !! i = Some x.
Proof.
  unfold enumerate. intros (k & Hk)%list_elem_of_lookup_1.
  apply lookup_zip_with_Some in Hk as (j & y & [= -> ->] & Hj & Hy).
  apply lookup_seq in Hj as [-> _]. done.
Qed.

Lemma visit_run_time_keeps lines acc it f :
  it ∈ enumerate lines → Forall (time_anchored lines) acc →
  Heuristics.visit_run_time lines acc it = Ok f →
  Forall (time_anchored lines) (flow_state f).
Proof.
  intros Hit Hacc. destruct it as [i line]. apply enumerate_lookup in Hit.
  unfold Heuristics.visit_run_time.
  destruct (Py.re_match_time (Py.strip line)) eqn:Et; [|by intros [= <-]].
  destruct (Heuristics._extract_from_performance_context lines i) as [r|e] eqn:E;
    [|done].
  pose proof (extract_from_performance_context_keeps lines i line r Hit E) as Hr.
  cbn [mbind result_bind mret result_ret].
  destruct r as [sd|]; intros [= <-]; [|done]. simpl.
  apply Forall_app. split; [done|].
  apply Forall_singleton. destruct (Hr sd eq_refl) as (? & ? & ? & Hrt).
  unfold time_anchored. rewrite Hrt.
  split; [done|]. split; [done|]. split; [done|]. split; [|done].
  by eapply list_elem_of_lookup_2.
Qed.

Lemma visit_run_time_returns lines acc it :
  it ∈ enumerate lines →
  (∀ l, l ∈ lines → over_long_number (Py.strip l) = false) →
  ∃ f, Heuristics.visit_run_time lines acc it = Ok f.
Proof.
  intros Hit Hplain. destruct it as [i line]. apply enumerate_lookup in Hit.
  apply lookup_lt_Some in Hit. unfold Heuristics.visit_run_time.
  destruct (Py.re_match_time (Py.strip line)); [|by eexists].
  destruct (extract_from_performance_context_returns lines i Hit Hplain) as [r ->].
  cbn [mbind result_bind mret result_ret]. destruct r; by eexists.
Qed.

Lemma visit_run_time_raises lines acc it e :
  it ∈ enumerate lines → Heuristics.visit_run_time lines acc it = Raise e →
  e = ValueError ∧ ∃ l, l ∈ lines ∧ over_long_number (Py.strip l) = true.
Proof.
  intros Hit. destruct it as [i line]. apply enumerate_lookup in Hit.
  apply lookup_lt_Some in Hit. unfold Heuristics.visit_run_time.
  destruct (Py.re_match_time (Py.strip line)); [|done].
  destruct (Heuristics._extract_from_performance_context lines i) as [r|e'] eqn:E.
  - cbn [mbind result_bind mret result_ret]. by destruct r.
  - cbn [mbind result_bind]. intros [= <-].
    by eapply extract_from_performance_context_raises.
Qed.

Lemma performance_data_strategy_keeps lines out :
  Heuristics._performance_data_strategy lines = Ok out →
  Forall (time_anchored lines) out.
Proof.
  unfold Heuristics._performance_data_strategy.
  apply (for_each_keeps_on _ (Forall (time_anchored lines))); [|constructor].
  intros acc it f. apply visit_run_time_keeps.
Qed.

Lemma performance_data_strategy_returns lines :
  (∀ l, l ∈ lines → over_long_number (Py.strip l) = false) →
  ∃ out, Heuristics._performance_data_strategy lines = Ok out.
Proof.
  intros Hplain. unfold Heuristics._performance_data_strategy.
  rewrite for_each_completes; [by eexists|].
  intros acc it Hit. by apply visit_run_time_returns.
Qed.

Lemma performance_data_strategy_raises lines e :
  Heuristics._performance_data_strategy lines = Raise e →
  e = ValueError ∧ ∃ l, l ∈ lines ∧ over_long_number (Py.strip l) = true.
Proof.
  unfold Heuristics._performance_data_strategy.
  apply (for_each_raises _
           (λ e, e = ValueError ∧ ∃ l, l ∈ lines ∧ over_long_number (Py.strip l) = true)).
  intros acc it e0 Hit. by apply visit_run_time_raises.
Qed.

(** X18: the time-anchored strategy raises nothing but ValueError, and only
    when a line of digits has more digits than [int] converts; without such a
    line it returns.  A record it returns has a non-empty name, sit-ups that
    are 0 or within 5..80, push-ups within 0..2000, and for run time a line of
    the input kept as it is, whitespace included, that matches the time
    pattern once stripped. *)
Theorem performance_data_strategy_keeps_the_raw_line (lines : list string) :
  (∀ out, Heuristics._performance_data_strategy lines = Ok out →
          Forall (time_anchored lines) out)
  ∧ ((∀ l, l ∈ lines → over_long_number (Py.strip l) = false) →
     ∃ out, Heuristics._performance_data_strategy lines = Ok out)
  ∧ (∀ e, Heuristics._performance_data_strategy lines = Raise e →
          e = ValueError ∧ ∃ l, l ∈ lines ∧ over_long_number (Py.strip l) = true).
Proof.
  split_and!.
  - apply performance_data_strategy_keeps.
  - apply performance_data_strategy_returns.
  - apply performance_data_strategy_raises.
Qed.

Lemma performance_data_strategy_keeps_the_raw_line_witness :
  Forall (time_anchored ["x"; "JOHN TAN"; "35"; "9:30 "])
         [mkSoldier "JOHN TAN" 35 0 "9:30 "]
  ∧ ∃ out, Heuristics._performance_data_strategy ["x"; "JOHN TAN"; "35"; "9:30 "] = Ok out.
Proof.
  pose proof (performance_data_strategy_keeps_the_raw_line
                ["x"; "JOHN TAN"; "35"; "9:30 "]) as (H1 & H2 & _).
  split.
  - apply H1. reflexivity.
  - apply H2. intros l Hl.
    repeat (apply elem_of_cons in Hl as [->|Hl]; [reflexivity|]).
    by apply elem_of_nil in Hl.
Defined.

Lemma context_step_tail l l' rest sd i :
  0 < i →
  Heuristics.context_step (l :: rest) sd i = Heuristics.context_step (l' :: rest) sd i.
Proof. intros Hi. unfold Heuristics.context_step, py_index. by destruct i; [lia|]. Qed.

Lemma extract_from_performance_context_tail l l' rest run_index :
  0 < run_index →
  Heuristics._extract_from_performance_context (l :: rest) run_index
  = Heuristics._extract_from_performance_context (l' :: rest) run_index.
Proof.
  intros Hi. unfold Heuristics._extract_from_performance_context, for_each.
  assert (py_index (l :: rest) run_index = py_index (l' :: rest) run_index) as ->.
  { unfold py_index. by destruct run_index; [lia|]. }
  destruct (py_index _ _) as [run_line|]; [|done].
  cbn [mbind result_bind mret result_ret].
  rewrite (loop_ext (Heuristics.context_step (l :: rest))
                    (Heuristics.context_step (l' :: rest))); [done|].
  intros s i Hin. apply context_step_tail. apply elem_of_range_down in Hin. lia.
Qed.

Lemma visit_run_time_first l rest acc :
  Heuristics.visit_run_time (l :: rest) acc (0, l) = Ok (Continue acc).
Proof.
  unfold Heuristics.visit_run_time. destruct (Py.re_match_time _); reflexivity.
Qed.

Lemma enumerate_cons {A} (x : A) xs :
  enumerate (x :: xs) = (0, x) :: zip (seq 1 (length xs)) xs.
Proof. reflexivity. Qed.

(** X19: the time-anchored strategy never uses the first line of its input:
    its backward scan stops above index 0, and a time found on the first line
    has no name before it; so the result does not depend on what the first
    line holds. *)
Theorem performance_data_strategy_never_uses_the_first_line
    (l l' : string) (rest : list string) :
  Heuristics._performance_data_strategy (l :: rest)
  = Heuristics._performance_data_strategy (l' :: rest).
Proof.
  unfold Heuristics._performance_data_strategy, for_each.
  rewrite !enumerate_cons. cbn [loop]. rewrite !visit_run_time_first.
  rewrite (loop_ext (Heuristics.visit_run_time (l :: rest))
                    (Heuristics.visit_run_time (l' :: rest))); [done|].
  intros acc [i x] Hin. unfold Heuristics.visit_run_time.
  apply list_elem_of_lookup_1 in Hin as (k & Hk).
  apply lookup_zip_with_Some in Hk as (j & y & [= -> ->] & Hj & _).
  apply lookup_seq in Hj as [-> _].
  by rewrite (extract_from_performance_context_tail l l') by lia.
Qed.
(** ** The parser's scan of the recognized lines *)

Lemma for_each_hits {A S} (body : S → A → result (flow S)) (P : S → Prop)
    (e : exn) xs :
  (∀ s x, x ∈ xs → P s →
     (∃ s', body s x = Ok (Continue s') ∧ P s') ∨ body s x = Raise e) →
  (∃ x, x ∈ xs ∧ ∀ s, body s x = Raise e) →
  ∀ s, P s → for_each body xs s = Raise e.
Proof.
  unfold for_each. induction xs as [|x xs IH]; intros Hb (bad & Hin & Hbad) s Hs.
  { by apply elem_of_nil in Hin. }
  simpl. apply elem_of_cons in Hin as [->|Hin]; [by rewrite Hbad|].
  destruct (Hb s x) as [(s' & -> & Hs')| ->]; [by left|done| |done].
  apply IH; [|by exists bad|done]. intros s0 y Hy. apply Hb. by right.
Qed.

Lemma lookup_enumerate {A} (xs : list A) i x :
  xs !! i = Some x → (i, x) ∈ enumerate xs.
Proof.
  intros Hx. apply (list_elem_of_lookup_2 _ i). unfold enumerate.
  apply lookup_zip_with_Some. exists i, x. split; [done|]. split; [|done].
  apply lookup_seq. split; [done|]. by eapply lookup_lt_Some.
Qed.

Section TokenScan.
Context {B : Type}.
Implicit Types all_text : list (Spatial.TextItem B).

Lemma heuristic_nearby_step_scans all_text sd i f :
  scanned 2000 sd → Heuristics.nearby_step all_text sd i = Ok f →
  scanned 2000 (flow_state f).
Proof.
  intros Hsd. unfold Heuristics.nearby_step.
  destruct (py_index all_text i) as [item|e]; [|done].
  cbn [fmap result_fmap mbind result_bind mret result_ret compose].
  destruct (is_serial (Py.strip (Spatial.text item))) as [[]|]; [scan_done| |done].
  destruct (looks_like_name _).
  { destruct (negb _); scan_done. }
  rewrite re_match_digits_strip. destruct (all_digits _) eqn:E.
  { convert_digits E.
    intros [= <-]. simpl. apply take_count_scans; [apply decimal_nonneg|done]. }
  destruct (Py.re_match_time _) eqn:Et; [|scan_done].
  apply re_match_time_strip in Et. destruct (negb _); scan_done.
Qed.

Lemma heuristic_nearby_step_raises all_text sd i e :
  i < length all_text → Heuristics.nearby_step all_text sd i = Raise e → e = ValueError.
Proof.
  intros Hi. unfold Heuristics.nearby_step, py_index.
  apply lookup_lt_is_Some_2 in Hi as [item ->].
  cbn [fmap result_fmap mbind result_bind mret result_ret compose].
  destruct (is_serial (Py.strip (Spatial.text item))) as [[]|] eqn:Es; [done| |].
  - destruct (looks_like_name _); [by destruct (negb _)|].
    rewrite re_match_digits_strip. destruct (all_digits _) eqn:E.
    + convert_digits E. done.
    + destruct (Py.re_match_time _); [|done]. by destruct (negb _).
  - cbn [mbind result_bind]. intros [= <-]. by apply is_serial_raises in Es.
Qed.

Lemma heuristic_nearby_step_completes all_text sd i :
  (∀ item, item ∈ all_text → rejected_number (Py.strip (Spatial.text item)) = false) →
  i < length all_text → ∃ f, Heuristics.nearby_step all_text sd i = Ok f.
Proof.
  intros Hplain Hi. unfold Heuristics.nearby_step, py_index.
  apply lookup_lt_is_Some_2 in Hi as [item Hitem]. rewrite Hitem.
  apply list_elem_of_lookup_2 in Hitem.
  cbn [fmap result_fmap mbind result_bind mret result_ret compose].
  pose proof (Hplain item Hitem) as R.
  destruct (is_serial_plain _ R) as ([] & -> & _);
    cbn [mbind result_bind mret result_ret]; [by eexists|].
  destruct (looks_like_name _); [destruct (negb _); by eexists|].
  rewrite re_match_digits_strip. destruct (all_digits _) eqn:E.
  - convert_plain R E. by eexists.
  - destruct (Py.re_match_time _); [|by eexists]. destruct (negb _); by eexists.
Qed.

Lemma extract_nearby_data_cases all_text index serial :
  (∃ r, Heuristics._extract_nearby_data all_text index serial = Ok r
        ∧ ∀ sd, r = Some sd → name sd ≠ "" ∧ scanned 2000 sd)
  ∨ Heuristics._extract_nearby_data all_text index serial = Raise ValueError.
Proof.
  unfold Heuristics._extract_nearby_data.
  destruct (for_each _ _ _) as [sd|e] eqn:E; cbn [mbind result_bind mret result_ret].
  - left. eexists. split; [done|]. intros sd' Hsd.
    destruct (Py.truthy (name sd)) eqn:Hn; [|done]. injection Hsd as <-.
    split; [by destruct (name sd)|]. revert E.
    apply (for_each_keeps _ (scanned 2000)); [|by apply scanned_blank].
    intros s x f. apply heuristic_nearby_step_scans.
  - right. f_equal. revert E. apply (for_each_raises _ (λ e, e = ValueError)).
    intros s i e0 Hi. apply heuristic_nearby_step_raises.
    apply elem_of_py_range in Hi. lia.
Qed.

Lemma extract_nearby_data_completes all_text index serial :
  (∀ item, item ∈ all_text → rejected_number (Py.strip (Spatial.text item)) = false) →
  ∃ r, Heuristics._extract_nearby_data all_text index serial = Ok r.
Proof.
  intros Hplain. unfold Heuristics._extract_nearby_data.
  rewrite for_each_completes.
  - cbn [mbind result_bind mret result_ret]. by eexists.
  - intros s i Hi. apply heuristic_nearby_step_completes; [done|].
    apply elem_of_py_range in Hi. lia.
Qed.

Lemma heuristic_visit_item_cases all_text acc it :
  Forall (λ sd, name sd ≠ "" ∧ scanned 2000 sd) acc →
  (∃ acc', Heuristics.visit_item all_text acc it = Ok (Continue acc')
           ∧ Forall (λ sd, name sd ≠ "" ∧ scanned 2000 sd) acc')
  ∨ Heuristics.visit_item all_text acc it = Raise ValueError.
Proof.
  intros Hacc. destruct it as [i item]. unfold Heuristics.visit_item. cbv zeta.
  destruct (is_serial _) as [[]|e] eqn:Es; cbn [mbind result_bind mret result_ret].
  - apply is_serial_spec_true in Es as [Es1 Es2].
    rewrite (int_short_digits _ Es1 Es2). cbn [mbind result_bind mret result_ret].
    destruct (extract_nearby_data_cases all_text i
                (decimal (Py.strip (Spatial.text item)))) as [(r & -> & Hr)| ->];
      cbn [mbind result_bind mret result_ret]; [|by right].
    left. destruct r as [sd|]; [|by eexists].
    destruct (Py.truthy _); [|by eexists]. eexists. split; [done|].
    apply Forall_app. split; [done|]. apply Forall_singleton. by apply Hr.
  - left. by eexists.
  - right. by apply is_serial_raises in Es as ->.
Qed.

Lemma heuristic_visit_item_completes all_text acc it :
  (∀ item, item ∈ all_text → rejected_number (Py.strip (Spatial.text item)) = false) →
  it ∈ enumerate all_text → ∃ f, Heuristics.visit_item all_text acc it = Ok f.
Proof.
  intros Hplain Hin. destruct it as [i item]. apply elem_of_enumerate in Hin.
  unfold Heuristics.visit_item. cbv zeta.
  destruct (is_serial_plain _ (Hplain item Hin)) as ([] & -> & Hd);
    cbn [mbind result_bind mret result_ret]; [|by eexists].
  destruct (Hd eq_refl) as [Hd1 Hd2]. rewrite (int_short_digits _ Hd1 Hd2).
  cbn [mbind result_bind mret result_ret].
  destruct (extract_nearby_data_completes all_text i
              (decimal (Py.strip (Spatial.text item))) Hplain) as [r ->].
  cbn [mbind result_bind mret result_ret].
  destruct r as [sd|]; [|by eexists]. destruct (Py.truthy _); by eexists.
Qed.

(** X20: the parser's scan of the recognized lines is all or nothing.  When
    no line is accepted by [str.isdigit] and rejected by [int], for a
    superscript digit among its digits or for more than 4300 digits, it
    returns, and every record has a non-empty name, sit-ups that are 0 or
    within 5..80, push-ups within 0..2000 and a run time that is empty or
    exactly one or two digits, a colon and two digits.  When one line is of
    that kind, wherever it stands, the scan raises ValueError and the OCR
    method reports no soldier under the name of the failure. *)
Theorem parser_ocr_scan_is_all_or_nothing (all_text : list (Spatial.TextItem B)) :
  ((∀ item, item ∈ all_text → rejected_number (Py.strip (Spatial.text item)) = false) →
   ∃ out, Heuristics._extract_soldiers_from_text all_text = Ok out
          ∧ Forall (λ sd, name sd ≠ "" ∧ scanned 2000 sd) out)
  ∧ ((∃ item, item ∈ all_text ∧ rejected_number (Py.strip (Spatial.text item)) = true) →
     Heuristics._extract_soldiers_from_text all_text = Raise ValueError
     ∧ Parser._azure_ocr_extraction (Heuristics._extract_soldiers_from_text all_text)
       = Parser.mkExtraction [] "azure_ocr_failed").
Proof.
  split.
  - intros Hplain. unfold Heuristics._extract_soldiers_from_text.
    apply (for_each_spec _ (Forall (λ sd, name sd ≠ "" ∧ scanned 2000 sd)));
      [|constructor].
    intros acc it Hit Hacc.
    destruct (heuristic_visit_item_cases all_text acc it Hacc) as [(acc' & E & H)|E].
    + by exists (Continue acc').
    + destruct (heuristic_visit_item_completes all_text acc it Hplain Hit) as [f Hf].
      congruence.
  - intros (item & Hin & Hbad).
    assert (Heuristics._extract_soldiers_from_text all_text = Raise ValueError) as E;
      [|by rewrite E].
    unfold Heuristics._extract_soldiers_from_text.
    pose proof (for_each_hits (Heuristics.visit_item all_text)
                  (Forall (λ sd, name sd ≠ "" ∧ scanned 2000 sd)) ValueError
                  (enumerate all_text)) as H.
    apply H; [| |constructor].
    + intros acc it _ Hacc.
      destruct (heuristic_visit_item_cases all_text acc it Hacc) as [(acc' & E & HP)|E];
        [left; by exists acc'|by right].
    + apply list_elem_of_lookup_1 in Hin as [i Hi].
      exists (i, item). split; [by apply lookup_enumerate|].
      intros acc. unfold Heuristics.visit_item. cbv zeta.
      by rewrite (is_serial_rejected _ Hbad).
Qed.

End TokenScan.

Lemma parser_ocr_scan_is_all_or_nothing_witness :
  (∃ out, Heuristics._extract_soldiers_from_text repeated_sheet = Ok out
          ∧ Forall (λ sd, name sd ≠ "" ∧ scanned 2000 sd) out)
  ∧ Heuristics._extract_soldiers_from_text
      [Spatial.mkTextItem "1" (); Spatial.mkTextItem "PTE JOHN TAN" ();
       Spatial.mkTextItem superscript_two ()] = Raise ValueError.
Proof.
  split.
  - apply (proj1 (parser_ocr_scan_is_all_or_nothing repeated_sheet)).
    intros item Hitem. unfold repeated_sheet in Hitem. simpl in Hitem.
    repeat (apply elem_of_cons in Hitem as [->|Hitem]; [reflexivity|]).
    by apply elem_of_nil in Hitem.
  - apply (proj2 (parser_ocr_scan_is_all_or_nothing
                    [Spatial.mkTextItem "1" (); Spatial.mkTextItem "PTE JOHN TAN" ();
                     Spatial.mkTextItem superscript_two ()])).
    exists (Spatial.mkTextItem superscript_two ()). split; [|reflexivity].
    do 2 right. left.
Defined.

(** ** The serial-number strategy *)

Lemma loop_collects_on {A B} (body : list B → A → result (flow (list B)))
    (f : A → option B) xs :
  (∀ acc x, x ∈ xs → body acc x = Ok (Continue (acc ++ option_list (f x)))) →
  ∀ acc, loop body xs acc = (acc ++ omap f xs, None).
Proof.
  induction xs as [|x xs IH]; intros Hb acc; simpl.
  - by rewrite app_nil_r.
  - rewrite Hb by (by left). rewrite IH, <- app_assoc; [by destruct (f x)|].
    intros acc' y Hy. apply Hb. by right.
Qed.

Lemma rejected_over_long t : rejected_number t = false → over_long_number t = false.
Proof. unfold rejected_number. by intros [_ ?]%orb_false_elim. Qed.

Lemma plain_slots lines pos first :
  (∀ l, l ∈ lines → over_long_number (Py.strip l) = false) →
  slots_refused lines pos first = false.
Proof.
  intros Hplain. unfold slots_refused, slots_refused_by, refused_slot.
  apply orb_false_intro.
  - destruct (lines !! _) as [l|] eqn:E; [|done].
    apply list_elem_of_lookup_2 in E. by apply Hplain.
  - destruct (lines !! _) as [l|] eqn:E; [|done].
    apply list_elem_of_lookup_2 in E. by apply Hplain.
Qed.

(** A step of the serial-number strategy: it raises on a line that
    [str.isdigit] accepts and [int] rejects, and on a serial whose window
    holds a count line that is too long; otherwise it keeps the record read
    with the later window. *)
Lemma visit_line_spec lines acc i line :
  Parser.visit_line lines acc (i, line)
  = if rejected_number (Py.strip line) then Raise ValueError
    else if all_digits (Py.strip line) && (1 <=? decimal (Py.strip line))%Z
            && (decimal (Py.strip line) <=? 10)%Z && slots_refused lines i false
    then Raise ValueError
    else Ok (Continue (acc ++ option_list (serial_record lines (i, line)))).
Proof.
  unfold Parser.visit_line, serial_record. cbn [fst snd].
  rewrite is_serial_spec. destruct (rejected_number (Py.strip line)) eqn:R; [done|].
  cbn [mbind result_bind mret result_ret].
  destruct (all_digits (Py.strip line) && _ && _) eqn:Hs;
    [|cbn [andb]; by rewrite app_nil_r].
  pose proof Hs as [[Hd _]%andb_prop _]%andb_prop.
  convert_plain R Hd. cbn [andb].
  rewrite extract_soldier_at_position_reads. cbn [py_eq].
  destruct (slots_refused lines i false); [done|]. unfold named.
  cbn [mbind result_bind mret result_ret].
  destruct (Py.truthy _); [done|]. by rewrite app_nil_r.
Qed.

Lemma lstrip_idem s : Py.lstrip (Py.lstrip s) = Py.lstrip s.
Proof.
  induction s as [|c r IH]; [done|]. simpl.
  destruct (Py.isspace c) eqn:Hc; [done|]. simpl. by rewrite Hc.
Qed.

Lemma strip_idem s : Py.strip (Py.strip s) = Py.strip s.
Proof.
  unfold Py.strip. rewrite <- (lstrip_rstrip (Py.lstrip s)).
  by rewrite lstrip_idem, rstrip_idem.
Qed.

Lemma append_empty s : s +:+ "" = s.
Proof.
  induction s as [|c r IH]; [done|].
  change (String c (r +:+ "") = String c r). by rewrite IH.
Qed.

(** A stored time is empty or matches the time pattern, stripped or not. *)
Lemma stored_time_kept t :
  stored_time t → t = "" ∨ Py.re_match_time (Py.strip t) = true.
Proof.
  intros [->|(g1 & g2 & -> & Hs)]; [by left|right].
  pose proof (time_shaped_inv g1 g2 "" Hs) as Hat. rewrite append_empty in Hat.
  assert (Py.strip (g1 +:+ ":" +:+ g2) = g1 +:+ ":" +:+ g2) as ->.
  { destruct Hs as (Hl1 & Hd1 & Hl2 & Hd2).
    destruct g2 as [|d [|e [|? ?]]]; try done.
    apply andb_prop in Hd2 as [Hd [He _]%andb_prop].
    assert (Py.rstrip (String ":" (String d (String e "")))
            = String ":" (String d (String e ""))) as Htail.
    { rewrite (rstrip_cons_nonspace ":") by done.
      by rewrite (rstrip_cons_digit d), (rstrip_cons_digit e). }
    destruct Hl1 as [Hl1|Hl1].
    - destruct g1 as [|a [|? ?]]; try done. apply andb_prop in Hd1 as [Ha _].
      change (String a "" +:+ ":" +:+ String d (String e ""))
        with (String a (String ":" (String d (String e "")))).
      unfold Py.strip. cbn [Py.lstrip]. rewrite (re_digit_not_space a Ha).
      by rewrite (rstrip_cons_digit a), Htail.
    - destruct g1 as [|a [|b [|? ?]]]; try done.
      apply andb_prop in Hd1 as [Ha [Hb _]%andb_prop].
      change (String a (String b "") +:+ ":" +:+ String d (String e ""))
        with (String a (String b (String ":" (String d (String e ""))))).
      unfold Py.strip. cbn [Py.lstrip]. rewrite (re_digit_not_space a Ha).
      by rewrite (rstrip_cons_digit a), (rstrip_cons_digit b), Htail. }
  unfold Py.re_match_time. by rewrite Hat.
Qed.

Lemma scanned_candidate m sd : scanned m sd → parser_candidate sd.
Proof.
  intros (Hs & Hp & Ht). split; [split; lia|]. by apply stored_time_kept.
Qed.

Lemma slots_read_candidate lines pos first : parser_candidate (slots_read lines pos first).
Proof.
  destruct (well_shaped_slots_read lines pos first) as (? & ? & _).
  split; [by split|]. unfold slots_read, time_slot. simpl.
  destruct (lines !! _) as [l|]; [|by left].
  destruct (Py.re_match_time (Py.strip l)) eqn:E; [|by left].
  right. by rewrite strip_idem.
Qed.

Lemma time_anchored_candidate lines sd : time_anchored lines sd → parser_candidate sd.
Proof.
  intros (_ & Hs & Hp & _ & Ht). split; [split; lia|]. by right.
Qed.

Lemma visit_line_cases lines acc it :
  (∃ found, Parser.visit_line lines acc it = Ok (Continue (acc ++ found))
            ∧ Forall parser_candidate found)
  ∨ Parser.visit_line lines acc it = Raise ValueError.
Proof.
  destruct it as [i line]. rewrite visit_line_spec.
  destruct (rejected_number _); [by right|]. destruct (_ && _); [by right|].
  left. eexists. split; [done|]. unfold serial_record. cbn [fst snd].
  destruct (_ && _); [|constructor]. destruct (Py.truthy _); [|constructor].
  apply Forall_singleton, slots_read_candidate.
Qed.

Lemma serial_number_strategy_plain lines :
  (∀ l, l ∈ lines → rejected_number (Py.strip l) = false) →
  Parser._serial_number_strategy lines = Ok (omap (serial_record lines) (enumerate lines)).
Proof.
  intros Hplain. unfold Parser._serial_number_strategy, for_each.
  rewrite (loop_collects_on _ (serial_record lines)); [done|].
  intros acc [i line] Hin%elem_of_enumerate.
  rewrite visit_line_spec, Hplain by done.
  rewrite plain_slots; [by rewrite andb_false_r|].
  intros l Hl. by apply rejected_over_long, Hplain.
Qed.

Lemma serial_number_strategy_rejected lines :
  (∃ l, l ∈ lines ∧ rejected_number (Py.strip l) = true) →
  Parser._serial_number_strategy lines = Raise ValueError.
Proof.
  intros (l & Hin & Hbad). unfold Parser._serial_number_strategy.
  apply (for_each_hits _ (λ _, True)); [| |done].
  - intros acc it _ _.
    destruct (visit_line_cases lines acc it) as [(found & -> & _)| ->];
      [left; eexists; split; [reflexivity|exact I]|by right].
  - apply list_elem_of_lookup_1 in Hin as [i Hi].
    exists (i, l). split; [by apply lookup_enumerate|].
    intros acc. by rewrite visit_line_spec, Hbad.
Qed.

(** X21: the serial-number strategy keeps one record for every line that,
    stripped, is a number from 1 to 10, and reads its counts and run time at
    offsets 6, 7 and 8 whatever the serial: it passes the serial as an
    integer, so the comparison with ['1'] that selects offsets 7, 8 and 9
    never holds.  This is what it returns when no line is accepted by
    [str.isdigit] and rejected by [int], for a superscript digit or for more
    than 4300 digits; one such line, wherever it stands, makes the whole
    strategy raise ValueError. *)
Theorem serial_number_strategy_reads_the_later_window (lines : list string) :
  ((∀ l, l ∈ lines → rejected_number (Py.strip l) = false) →
   Parser._serial_number_strategy lines
   = Ok (omap (serial_record lines) (enumerate lines)))
  ∧ ((∃ l, l ∈ lines ∧ rejected_number (Py.strip l) = true) →
     Parser._serial_number_strategy lines = Raise ValueError).
Proof.
  split; [apply serial_number_strategy_plain|apply serial_number_strategy_rejected].
Qed.

Lemma serial_number_strategy_reads_the_later_window_witness :
  Parser._serial_number_strategy first_record_sheet
  = Ok (omap (serial_record first_record_sheet) (enumerate first_record_sheet))
  ∧ Parser._serial_number_strategy ["1"; superscript_two] = Raise ValueError
  ∧ Parser._serial_number_strategy ["1"; long_number] = Raise ValueError.
Proof.
  split_and!.
  - apply (proj1 (serial_number_strategy_reads_the_later_window first_record_sheet)).
    intros l Hl. unfold first_record_sheet in Hl.
    repeat (apply elem_of_cons in Hl as [->|Hl]; [reflexivity|]).
    by apply elem_of_nil in Hl.
  - apply (proj2 (serial_number_strategy_reads_the_later_window ["1"; superscript_two])).
    exists superscript_two. split; [|reflexivity]. right. left.
  - apply (proj2 (serial_number_strategy_reads_the_later_window ["1"; long_number])).
    exists long_number. split; [|vm_compute; reflexivity]. right. left.
Defined.

(** ** The name-anchored strategy *)

Lemma visit_name_keeps lines acc it f :
  it ∈ enumerate lines → Forall (name_anchored lines) acc →
  Heuristics.visit_name lines acc it = Ok f →
  Forall (name_anchored lines) (flow_state f).
Proof.
  intros Hit Hacc. destruct it as [i line]. apply enumerate_lookup in Hit.
  unfold Heuristics.visit_name.
  destruct (Heuristics.has_rank line) eqn:Hrank; [|by intros [= <-]].
  destruct (Heuristics._extract_data_around_name lines i) as [r|e] eqn:E; [|done].
  pose proof (extract_data_around_name_keeps lines i line r Hit E) as Hr.
  cbn [mbind result_bind mret result_ret].
  destruct r as [sd|]; intros [= <-]; [|done]. simpl.
  apply Forall_app. split; [done|].
  apply Forall_singleton. destruct (Hr sd eq_refl) as (Hn & Hp & Hs).
  split_and!; [|done|done]. exists line. split_and!; [|done|].
  - by eapply list_elem_of_lookup_2.
  - rewrite Hn. apply clean_name_strip.
Qed.

Lemma visit_name_returns lines acc it :
  it ∈ enumerate lines →
  (∀ l, l ∈ lines → over_long_number (Py.strip l) = false) →
  ∃ f, Heuristics.visit_name lines acc it = Ok f.
Proof.
  intros Hit Hplain. destruct it as [i line]. apply enumerate_lookup in Hit.
  apply lookup_lt_Some in Hit. unfold Heuristics.visit_name.
  destruct (Heuristics.has_rank line); [|by eexists].
  destruct (extract_data_around_name_returns lines i Hit Hplain) as [r ->].
  cbn [mbind result_bind mret result_ret]. destruct r; by eexists.
Qed.

Lemma visit_name_raises lines acc it e :
  it ∈ enumerate lines → Heuristics.visit_name lines acc it = Raise e →
  e = ValueError ∧ ∃ l, l ∈ lines ∧ over_long_number (Py.strip l) = true.
Proof.
  intros Hit. destruct it as [i line]. apply enumerate_lookup in Hit.
  apply lookup_lt_Some in Hit. unfold Heuristics.visit_name.
  destruct (Heuristics.has_rank line); [|done].
  destruct (Heuristics._extract_data_around_name lines i) as [r|e'] eqn:E.
  - cbn [mbind result_bind mret result_ret]. by destruct r.
  - cbn [mbind result_bind]. intros [= <-].
    by eapply extract_data_around_name_raises.
Qed.

Lemma name_based_strategy_keeps lines out :
  Heuristics._name_based_strategy lines = Ok out → Forall (name_anchored lines) out.
Proof.
  unfold Heuristics._name_based_strategy.
  apply (for_each_keeps_on _ (Forall (name_anchored lines))); [|constructor].
  intros acc it f. apply visit_name_keeps.
Qed.

Lemma name_based_strategy_returns lines :
  (∀ l, l ∈ lines → over_long_number (Py.strip l) = false) →
  ∃ out, Heuristics._name_based_strategy lines = Ok out.
Proof.
  intros Hplain. unfold Heuristics._name_based_strategy.
  rewrite for_each_completes; [by eexists|].
  intros acc it Hit. by apply visit_name_returns.
Qed.

Lemma name_based_strategy_raises lines e :
  Heuristics._name_based_strategy lines = Raise e →
  e = ValueError ∧ ∃ l, l ∈ lines ∧ over_long_number (Py.strip l) = true.
Proof.
  unfold Heuristics._name_based_strategy.
  apply (for_each_raises _
           (λ e, e = ValueError ∧ ∃ l, l ∈ lines ∧ over_long_number (Py.strip l) = true)).
  intros acc it e0 Hit. by apply visit_name_raises.
Qed.

(** X22: the name-anchored strategy raises nothing but ValueError, and only
    when a line of digits has more digits than [int] converts; without such a
    line it returns.  A record it returns has for name the identity of a line
    that holds one of the six ranks in any letter case (only the token PTE,
    in upper case, is deleted from it, and the name can be empty), a sit-up
    count or a run time, sit-ups that are 0 or within 5..80, push-ups within
    0..2000 and a run time that is empty or exactly one or two digits, a
    colon and two digits. *)
Theorem name_based_strategy_records (lines : list string) :
  (∀ out, Heuristics._name_based_strategy lines = Ok out →
          Forall (name_anchored lines) out)
  ∧ ((∀ l, l ∈ lines → over_long_number (Py.strip l) = false) →
     ∃ out, Heuristics._name_based_strategy lines = Ok out)
  ∧ (∀ e, Heuristics._name_based_strategy lines = Raise e →
          e = ValueError ∧ ∃ l, l ∈ lines ∧ over_long_number (Py.strip l) = true).
Proof.
  split_and!.
  - intros out. unfold Heuristics._name_based_strategy.
    apply (for_each_keeps_on _ (Forall (name_anchored lines))); [|constructor].
    intros acc it f. apply visit_name_keeps.
  - intros Hplain. unfold Heuristics._name_based_strategy.
    rewrite for_each_completes; [by eexists|].
    intros acc it Hit. by apply visit_name_returns.
  - intros e. unfold Heuristics._name_based_strategy.
    apply (for_each_raises _
             (λ e, e = ValueError
                   ∧ ∃ l, l ∈ lines ∧ over_long_number (Py.strip l) = true)).
    intros acc it e0 Hit. by apply visit_name_raises.
Qed.

Lemma name_based_strategy_records_witness :
  Forall (name_anchored ["pte john tan"; "35"; "9:30"])
         [mkSoldier "pte john tan" 35 0 "9:30"]
  ∧ (∃ out, Heuristics._name_based_strategy ["pte john tan"; "35"; "9:30"] = Ok out)
  ∧ ∃ l, l ∈ ["PTE JOHN TAN"; long_number] ∧ over_long_number (Py.strip l) = true.
Proof.
  split_and!.
  - apply (proj1 (name_based_strategy_records ["pte john tan"; "35"; "9:30"])).
    reflexivity.
  - apply (proj1 (proj2 (name_based_strategy_records ["pte john tan"; "35"; "9:30"]))).
    intros l Hl.
    repeat (apply elem_of_cons in Hl as [->|Hl]; [reflexivity|]).
    by apply elem_of_nil in Hl.
  - apply (proj2 (proj2 (name_based_strategy_records ["PTE JOHN TAN"; long_number]))
             ValueError).
    vm_compute. reflexivity.
Defined.

(** ** The union of the four strategies *)

Lemma truthy_nonempty s : Py.truthy s = true ↔ s ≠ "".
Proof. by destruct s. Qed.

Lemma union_step_spec xs : ∀ acc,
  NoDup acc →
  NoDup (foldl Heuristics.union_step acc xs)
  ∧ ∀ sd, sd ∈ foldl Heuristics.union_step acc xs
          ↔ sd ∈ acc ∨ (name sd ≠ "" ∧ sd ∈ xs).
Proof.
  induction xs as [|x xs IH]; intros acc Hnd; simpl.
  { split; [done|]. intros sd. rewrite elem_of_nil. tauto. }
  unfold Heuristics.union_step at 2 4.
  destruct (Py.truthy (name x)) eqn:Hn; cbn [andb].
  - case_bool_decide as Hin.
    + destruct (IH (acc ++ [x])) as [Hnd' Hmem].
      { apply NoDup_app. split_and!; [done| |apply NoDup_singleton].
        intros y Hy ->%list_elem_of_singleton. done. }
      split; [done|]. intros sd. rewrite Hmem, elem_of_app, list_elem_of_singleton,
        elem_of_cons. apply truthy_nonempty in Hn. split; [|tauto].
      intros [[?| ->]|[? ?]]; tauto.
    + destruct (IH acc Hnd) as [Hnd' Hmem]. split; [done|].
      intros sd. rewrite Hmem, elem_of_cons.
      split; [tauto|]. intros [?|[? [->|?]]]; tauto.
  - destruct (IH acc Hnd) as [Hnd' Hmem]. split; [done|].
    intros sd. rewrite Hmem, elem_of_cons. split; [tauto|].
    intros [?|[Hsd [->|?]]]; [tauto| |tauto].
    apply truthy_nonempty in Hsd. congruence.
Qed.

Lemma enhanced_pattern_matching_unfold lines working serial named timed :
  Parser._working_line_based_strategy lines = Ok working →
  Parser._serial_number_strategy lines = Ok serial →
  Heuristics._name_based_strategy lines = Ok named →
  Heuristics._performance_data_strategy lines = Ok timed →
  Heuristics._enhanced_pattern_matching lines
  = Ok (foldl Heuristics.union_step [] (working ++ serial ++ named ++ timed)).
Proof.
  intros E1 E2 E3 E4. unfold Heuristics._enhanced_pattern_matching.
  rewrite E1, E2, E3, E4. cbn [mbind result_bind mret result_ret foldl].
  by rewrite !foldl_app.
Qed.

(** X23: what pattern matching returns is the union of its four strategies:
    no record occurs twice in it, and a record is in it exactly when its name
    is not empty and one of the fixed-anchor, serial-number, name-anchored
    and time-anchored strategies returned it. *)
Theorem pattern_matching_is_the_union_of_its_strategies
    (lines : list string) (out : list Soldier)
    (Hout : Heuristics._enhanced_pattern_matching lines = Ok out) :
  NoDup out
  ∧ ∀ sd, sd ∈ out
          ↔ name sd ≠ ""
            ∧ (found_by Parser._working_line_based_strategy lines sd
               ∨ found_by Parser._serial_number_strategy lines sd
               ∨ found_by Heuristics._name_based_strategy lines sd
               ∨ found_by Heuristics._performance_data_strategy lines sd).
Proof.
  destruct (Parser._working_line_based_strategy lines) as [working|e] eqn:E1;
    [|by unfold Heuristics._enhanced_pattern_matching in Hout; rewrite E1 in Hout].
  destruct (Parser._serial_number_strategy lines) as [serial|e] eqn:E2;
    [|by unfold Heuristics._enhanced_pattern_matching in Hout; rewrite E1, E2 in Hout].
  destruct (Heuristics._name_based_strategy lines) as [named|e] eqn:E3;
    [|by unfold Heuristics._enhanced_pattern_matching in Hout;
         rewrite E1, E2, E3 in Hout].
  destruct (Heuristics._performance_data_strategy lines) as [timed|e] eqn:E4;
    [|by unfold Heuristics._enhanced_pattern_matching in Hout;
         rewrite E1, E2, E3, E4 in Hout].
  rewrite (enhanced_pattern_matching_unfold lines _ _ _ _ E1 E2 E3 E4) in Hout.
  injection Hout as <-.
  destruct (union_step_spec (working ++ serial ++ named ++ timed) [])
    as [Hnd Hmem]; [constructor|].
  split; [done|]. intros sd. rewrite Hmem, elem_of_nil, !elem_of_app.
  unfold found_by. rewrite E1, E2, E3, E4. split.
  - intros [[]|[Hn Hin]]. split; [done|].
    destruct Hin as [?|[?|[?|?]]]; eauto 8.
  - intros [Hn Hin]. right. split; [done|].
    destruct Hin as [(? & [= <-] & ?)|[(? & [= <-] & ?)|[(? & [= <-] & ?)|(? & [= <-] & ?)]]];
      tauto.
Qed.

Lemma pattern_matching_is_the_union_of_its_strategies_witness :
  NoDup [mkSoldier "JOHN TAN" 35 0 "9:30"]
  ∧ ∀ sd, sd ∈ [mkSoldier "JOHN TAN" 35 0 "9:30"]
          ↔ name sd ≠ ""
            ∧ (found_by Parser._working_line_based_strategy
                 ["PTE JOHN TAN"; "35"; "9:30"] sd
               ∨ found_by Parser._serial_number_strategy
                   ["PTE JOHN TAN"; "35"; "9:30"] sd
               ∨ found_by Heuristics._name_based_strategy
                   ["PTE JOHN TAN"; "35"; "9:30"] sd
               ∨ found_by Heuristics._performance_data_strategy
                   ["PTE JOHN TAN"; "35"; "9:30"] sd).
Proof.
  apply (pattern_matching_is_the_union_of_its_strategies
           ["PTE JOHN TAN"; "35"; "9:30"] [mkSoldier "JOHN TAN" 35 0 "9:30"]).
  reflexivity.
Defined.

(** ** When the pattern method fails *)

Lemma plain_anchors lines :
  (∀ l, l ∈ lines → over_long_number (Py.strip l) = false) →
  existsb (anchor_refused lines) Positional.positions = false.
Proof.
  intros Hplain. apply not_true_is_false. intros (p & _ & Hp)%existsb_exists.
  unfold anchor_refused in Hp. by rewrite plain_slots in Hp.
Qed.

(** X24: pattern matching raises exactly when a line of the file is accepted
    by [str.isdigit] and rejected by [int], for a superscript digit among its
    digits or for more than 4300 digits: the serial-number strategy, if not
    the fixed-anchor strategy before it, then raises ValueError, what the
    other strategies found is lost, and the pattern method reports no soldier
    under the name of the failure.  Without such a line pattern matching
    returns. *)
Theorem pattern_matching_fails_exactly_on_rejected_numbers (lines : list string) :
  ((∀ l, l ∈ lines → rejected_number (Py.strip l) = false) →
   ∃ out, Heuristics._enhanced_pattern_matching lines = Ok out)
  ∧ ((∃ l, l ∈ lines ∧ rejected_number (Py.strip l) = true) →
     Heuristics._enhanced_pattern_matching lines = Raise ValueError
     ∧ Parser._pattern_based_extraction (Heuristics._enhanced_pattern_matching lines)
       = Parser.mkExtraction [] "pattern_failed").
Proof.
  split.
  - intros Hplain.
    assert (∀ l, l ∈ lines → over_long_number (Py.strip l) = false) as Hshort.
    { intros l Hl. by apply rejected_over_long, Hplain. }
    destruct (name_based_strategy_returns lines Hshort) as (named & E3).
    destruct (performance_data_strategy_returns lines Hshort) as (timed & E4).
    pose proof (parser_strategy_anchored lines) as E1.
    rewrite (plain_anchors lines Hshort) in E1.
    rewrite (enhanced_pattern_matching_unfold lines _ _ _ _ E1
               (serial_number_strategy_plain lines Hplain) E3 E4).
    by eexists.
  - intros Hbad.
    assert (Heuristics._enhanced_pattern_matching lines = Raise ValueError) as E;
      [|by rewrite E].
    unfold Heuristics._enhanced_pattern_matching.
    rewrite parser_strategy_anchored. destruct (existsb _ _); [done|].
    cbn [mbind result_bind]. by rewrite (serial_number_strategy_rejected lines Hbad).
Qed.

Lemma pattern_matching_fails_exactly_on_rejected_numbers_witness :
  (∃ out, Heuristics._enhanced_pattern_matching ["PTE JOHN TAN"; "35"; "9:30"] = Ok out)
  ∧ Heuristics._enhanced_pattern_matching ["PTE JOHN TAN"; "35"; superscript_two]
    = Raise ValueError
  ∧ Heuristics._enhanced_pattern_matching ["PTE JOHN TAN"; "35"; long_number]
    = Raise ValueError.
Proof.
  split_and!.
  - apply (proj1 (pattern_matching_fails_exactly_on_rejected_numbers
                    ["PTE JOHN TAN"; "35"; "9:30"])).
    intros l Hl.
    repeat (apply elem_of_cons in Hl as [->|Hl]; [reflexivity|]).
    by apply elem_of_nil in Hl.
  - apply (proj2 (pattern_matching_fails_exactly_on_rejected_numbers
                    ["PTE JOHN TAN"; "35"; superscript_two])).
    exists superscript_two. split; [|reflexivity]. do 2 right. left.
  - apply (proj2 (pattern_matching_fails_exactly_on_rejected_numbers
                    ["PTE JOHN TAN"; "35"; long_number])).
    exists long_number. split; [|vm_compute; reflexivity]. do 2 right. left.
Defined.

(** ** The parser from its reads to its result *)

Lemma candidate_counts sd : parser_candidate sd → counts_from_zero sd.
Proof. by intros [? _]. Qed.

Lemma anchored_records_candidates lines : Forall parser_candidate (anchored_records lines).
Proof.
  apply Forall_forall. intros sd. unfold anchored_records.
  rewrite list_elem_of_omap. intros (p & _ & Hp). unfold anchored_record in Hp.
  destruct (Py.truthy _); [|done]. injection Hp as <-. apply slots_read_candidate.
Qed.

Lemma serial_number_strategy_candidates lines out :
  Parser._serial_number_strategy lines = Ok out → Forall parser_candidate out.
Proof.
  unfold Parser._serial_number_strategy.
  apply (for_each_keeps _ (Forall parser_candidate)); [|constructor].
  intros acc it f Hacc.
  destruct (visit_line_cases lines acc it) as [(found & -> & Hf)| ->]; [|done].
  intros [= <-]. simpl. by apply Forall_app.
Qed.

Lemma enhanced_pattern_matching_candidates lines out :
  Heuristics._enhanced_pattern_matching lines = Ok out → Forall parser_candidate out.
Proof.
  intros Hout.
  destruct (Parser._working_line_based_strategy lines) as [working|e] eqn:E1;
    [|by unfold Heuristics._enhanced_pattern_matching in Hout; rewrite E1 in Hout].
  destruct (Parser._serial_number_strategy lines) as [serial|e] eqn:E2;
    [|by unfold Heuristics._enhanced_pattern_matching in Hout; rewrite E1, E2 in Hout].
  destruct (Heuristics._name_based_strategy lines) as [named|e] eqn:E3;
    [|by unfold Heuristics._enhanced_pattern_matching in Hout;
         rewrite E1, E2, E3 in Hout].
  destruct (Heuristics._performance_data_strategy lines) as [timed|e] eqn:E4;
    [|by unfold Heuristics._enhanced_pattern_matching in Hout;
         rewrite E1, E2, E3, E4 in Hout].
  rewrite (enhanced_pattern_matching_unfold lines _ _ _ _ E1 E2 E3 E4) in Hout.
  injection Hout as <-.
  assert (working = anchored_records lines) as ->.
  { rewrite parser_strategy_anchored in E1. destruct (existsb _ _); [done|].
    by injection E1. }
  destruct (union_step_spec (anchored_records lines ++ serial ++ named ++ timed) [])
    as [_ Hmem]; [constructor|].
  apply Forall_forall. intros sd. rewrite Hmem, elem_of_nil, !elem_of_app.
  intros [[]|[_ [Hin|[Hin|[Hin|Hin]]]]].
  - by eapply Forall_forall in Hin; [|apply anchored_records_candidates].
  - by eapply Forall_forall in Hin; [|by eapply serial_number_strategy_candidates].
  - eapply Forall_forall in Hin; [|by eapply name_based_strategy_keeps].
    destruct Hin as (_ & _ & Hs). by eapply scanned_candidate.
  - eapply Forall_forall in Hin; [|by eapply performance_data_strategy_keeps].
    by eapply time_anchored_candidate.
Qed.

Lemma aggressive_extraction_candidates lines out :
  Heuristics._aggressive_extraction lines = Ok out → Forall parser_candidate out.
Proof.
  intros (_ & _ & Hall)%aggressive_extraction_keeps.
  eapply Forall_impl; [exact Hall|].
  intros sd (_ & _ & Hs). by eapply scanned_candidate.
Qed.

Lemma extract_soldiers_from_text_candidates {B}
    (all_text : list (Spatial.TextItem B)) out :
  Heuristics._extract_soldiers_from_text all_text = Ok out → Forall parser_candidate out.
Proof.
  intros Hout.
  apply (Forall_impl (λ sd, name sd ≠ "" ∧ scanned 2000 sd));
    [|intros sd [_ Hs]; by eapply scanned_candidate].
  revert Hout. unfold Heuristics._extract_soldiers_from_text.
  apply (for_each_keeps _ (Forall (λ sd, name sd ≠ "" ∧ scanned 2000 sd)));
    [|constructor].
  intros acc it f Hacc Hf.
  destruct (heuristic_visit_item_cases all_text acc it Hacc) as [(acc' & E & H)|E];
    [|congruence].
  rewrite E in Hf. by injection Hf as <-.
Qed.

Lemma elem_of_prioritized r results :
  r ∈ prioritized results → ∃ e, e ∈ results ∧ r ∈ Parser.ex_soldiers e.
Proof.
  unfold prioritized. rewrite list_elem_of_bind. intros (m & Hr & _).
  apply list_elem_of_bind in Hr as (e & Hr & He). exists e. split; [done|].
  destruct (String.eqb _ _); [done|]. by apply elem_of_nil in Hr.
Qed.

(** A record of the parser's result is a candidate of one of its methods,
    and passed the validator. *)
Lemma parser_result_candidates {B}
    (ocr : result (list (Spatial.TextItem B))) (file1 file2 : result (list string)) r :
  r ∈ soldiers (Heuristics.extract_ippt_data ocr file1 file2) →
  parser_candidate r ∧ Parser._validate_soldier_data r = true.
Proof.
  unfold Heuristics.extract_ippt_data, Parser.extract_ippt_data.
  rewrite combine_and_validate_kept. intros [Hin Hv]%elem_of_take_kept.
  split; [|done].
  apply elem_of_prioritized in Hin as (e & He & Hr).
  repeat (apply elem_of_cons in He as [->|He]); [| | |by apply elem_of_nil in He].
  - destruct ocr as [all_text|x]; cbn [mbind result_bind] in Hr;
      [|by apply elem_of_nil in Hr].
    destruct (Heuristics._extract_soldiers_from_text all_text) as [out|x] eqn:E;
      [|by apply elem_of_nil in Hr].
    eapply Forall_forall in Hr; [done|by eapply extract_soldiers_from_text_candidates].
  - destruct file1 as [lines|x]; cbn [mbind result_bind] in Hr;
      [|by apply elem_of_nil in Hr].
    destruct (Heuristics._enhanced_pattern_matching lines) as [out|x] eqn:E;
      [|by apply elem_of_nil in Hr].
    eapply Forall_forall in Hr; [done|by eapply enhanced_pattern_matching_candidates].
  - destruct file2 as [lines|x]; cbn [mbind result_bind] in Hr;
      [|by apply elem_of_nil in Hr].
    destruct (Heuristics._aggressive_extraction lines) as [out|x] eqn:E;
      [|by apply elem_of_nil in Hr].
    eapply Forall_forall in Hr; [done|by eapply aggressive_extraction_candidates].
Qed.

(** X25: whatever the three reads return, every record of the parser's
    result has a name of at least two characters, sit-ups within 0..200 and
    push-ups within 0..2000: the validator gives the upper bounds and the
    name, and no extraction method produces a negative count. *)
Theorem parser_result_fields_are_bounded {B}
    (ocr : result (list (Spatial.TextItem B))) (file1 file2 : result (list string)) :
  Forall (λ r, 2 ≤ String.length (name r)
               ∧ (0 ≤ sit_up_reps r ≤ 200)%Z ∧ (0 ≤ push_up_reps r ≤ 2000)%Z)
         (soldiers (Heuristics.extract_ippt_data ocr file1 file2)).
Proof.
  apply Forall_forall. intros r [[[? ?] _] Hv]%parser_result_candidates.
  pose proof (validate_soldier_data_bounds r Hv) as [? ?].
  pose proof (validate_soldier_data_plausible r Hv) as [? _].
  auto with lia.
Qed.

(** ** Ranges of the fields, from the reads to the result *)



